(** * To-do manager: persistence store and data coordinator

  A shallow embedding of the TypeScript sources
    - [models/Todo.ts]       (records, validators, [createTodo]),
    - [models/Category.ts]   (records, validators, [createCategory]),
    - [utils/FileManager.ts] (save / load / backups),
    - [models/TodoManager.ts] (the coordinator),
  followed by the properties of the specification that were checked
  against them.

  Conventions of the embedding.
    - Strings are [string] (ASCII); [length] counts characters and
      [toLowerCase] folds the letters A-Z.
    - A JavaScript exception is a value of type [Error]; a method that
      may throw returns a [Result].
    - The clock ([new Date()]) and the identifier generator ([uuidv4()])
      are oracles stored in the [World], next to the file system; each
      call consumes one reading.
    - An object handed to a method may carry more properties than its
      declared type names (only a fresh object literal is checked for
      excess properties).  Where the code spreads such an object into a
      record, the properties of the record that the declared type omits
      are optional fields of the input ([in_id], [up_id], ...), with the
      types the record declares for them.
    - [console.log]/[console.warn] and the listener notifications of
      [emitEvent] (whose failures are caught one by one) have no effect
      on the modelled state and are left out. *)

Set Warnings "-register-all".
From Stdlib Require Import ZArith String Ascii List Lia Bool.
From stdpp Require Import base option list gmap strings sorting pretty.
Import ListNotations.
Open Scope string_scope.

(** ** JavaScript strings *)

Module JSString.

Definition toLowerCaseChar (c : ascii) : ascii :=
  let n := nat_of_ascii c in
  if (65 <=? n)%nat && (n <=? 90)%nat then ascii_of_nat (n + 32) else c.

(** [String.prototype.toLowerCase] *)
Fixpoint toLowerCase (s : string) : string :=
  match s with
  | EmptyString => EmptyString
  | String c r => String (toLowerCaseChar c) (toLowerCase r)
  end.

(** [String.prototype.startsWith] *)
Fixpoint startsWith (s p : string) : bool :=
  match p, s with
  | EmptyString, _ => true
  | String _ _, EmptyString => false
  | String b q, String a r => if Ascii.eqb a b then startsWith r q else false
  end.

(** [String.prototype.includes] *)
Fixpoint includes (s q : string) : bool :=
  startsWith s q ||
  match s with
  | EmptyString => false
  | String _ r => includes r q
  end.

(** [String.prototype.endsWith] *)
Definition endsWith (s p : string) : bool :=
  startsWith (String.rev s) (String.rev p).

(** White space removed by [String.prototype.trim] (ASCII part). *)
Definition isWhiteSpace (c : ascii) : bool :=
  let n := nat_of_ascii c in
  (n =? 32)%nat || ((9 <=? n)%nat && (n <=? 13)%nat).

Fixpoint trimStart (s : string) : string :=
  match s with
  | EmptyString => EmptyString
  | String c r => if isWhiteSpace c then trimStart r else s
  end.

(** [String.prototype.trim] *)
Definition trim (s : string) : string :=
  String.rev (trimStart (String.rev (trimStart s))).

(** [s.replace(/[:.]/g, '-')] *)
Fixpoint replaceColonDot (s : string) : string :=
  match s with
  | EmptyString => EmptyString
  | String c r =>
      String (if Ascii.eqb c ":" || Ascii.eqb c "." then "-"%char else c)
             (replaceColonDot r)
  end.

Definition isHexDigit (c : ascii) : bool :=
  let n := nat_of_ascii c in
  ((48 <=? n)%nat && (n <=? 57)%nat)
  || ((65 <=? n)%nat && (n <=? 70)%nat)
  || ((97 <=? n)%nat && (n <=? 102)%nat).

Fixpoint allHex (s : string) : bool :=
  match s with
  | EmptyString => true
  | String c r => isHexDigit c && allHex r
  end.

(** [/^#?([A-Fa-f0-9]{6}|[A-Fa-f0-9]{3})$/.test(s)] *)
Definition hexColorRegex_test (s : string) : bool :=
  let body := match s with
              | String "#" r => r
              | _ => s
              end in
  allHex body && ((String.length body =? 6)%nat || (String.length body =? 3)%nat).

(** The double-quote character, as a string. *)
Definition quote : string := String (ascii_of_nat 34) EmptyString.

(** Truthiness of a string: only the empty string is falsy. *)
Definition nonEmpty (s : string) : bool :=
  match s with EmptyString => false | _ => true end.

End JSString.

(** ** Dates *)

(** A [Date] holds a time value in milliseconds since the epoch, or NaN
  (an "Invalid Date"). *)
Inductive Date : Type :=
| DateAt (ms : Z)
| InvalidDate.

Module JSDate.

Definition msPerDay : Z := 86400000.

(** Decimal digits of [n], left-padded with zeros to [width]. *)
Fixpoint pad (width : nat) (n : Z) : string :=
  match width with
  | O => EmptyString
  | S w => pad w (n / 10) +:+ String (ascii_of_nat (48 + Z.to_nat (n mod 10))) EmptyString
  end.

(** Proleptic Gregorian date of a day number (days since 1970-01-01). *)
Definition civilFromDays (days : Z) : Z * Z * Z :=
  let z := (days + 719468)%Z in
  let era := (z / 146097)%Z in
  let doe := (z - era * 146097)%Z in
  let yoe := ((doe - doe / 1460 + doe / 36524 - doe / 146096) / 365)%Z in
  let doy := (doe - (365 * yoe + yoe / 4 - yoe / 100))%Z in
  let mp := ((5 * doy + 2) / 153)%Z in
  let d := (doy - (153 * mp + 2) / 5 + 1)%Z in
  let m := (if (mp <? 10)%Z then mp + 3 else mp - 9)%Z in
  let y := (yoe + era * 400 + (if (m <=? 2)%Z then 1 else 0))%Z in
  (y, m, d).

Definition yearString (y : Z) : string :=
  if ((0 <=? y) && (y <=? 9999))%Z then pad 4 y
  else if (y <? 0)%Z then "-" +:+ pad 6 (- y)
  else "+" +:+ pad 6 y.

(** [Date.prototype.toISOString]; [None] is the RangeError raised on an
    invalid date. *)
Definition toISOString (d : Date) : option string :=
  match d with
  | InvalidDate => None
  | DateAt ms =>
      let days := (ms / msPerDay)%Z in
      let r := (ms mod msPerDay)%Z in
      let '(y, m, dd) := civilFromDays days in
      Some (yearString y +:+ "-" +:+ pad 2 m +:+ "-" +:+ pad 2 dd +:+ "T"
            +:+ pad 2 (r / 3600000) +:+ ":" +:+ pad 2 (r / 60000 mod 60) +:+ ":"
            +:+ pad 2 (r / 1000 mod 60) +:+ "." +:+ pad 3 (r mod 1000) +:+ "Z")
  end.

Definition digit (c : ascii) : option Z :=
  let n := nat_of_ascii c in
  if (48 <=? n)%nat && (n <=? 57)%nat then Some (Z.of_nat (n - 48)) else None.

Fixpoint digits (l : list ascii) (acc : Z) : option Z :=
  match l with
  | [] => Some acc
  | c :: r => match digit c with
              | Some v => digits r (10 * acc + v)%Z
              | None => None
              end
  end.

Definition daysFromCivil (y m d : Z) : Z :=
  let y' := (if (m <=? 2)%Z then y - 1 else y)%Z in
  let era := (y' / 400)%Z in
  let yoe := (y' - era * 400)%Z in
  let mp := (if (m >? 2)%Z then m - 3 else m + 9)%Z in
  let doy := ((153 * mp + 2) / 5 + d - 1)%Z in
  let doe := (yoe * 365 + yoe / 4 - yoe / 100 + doy)%Z in
  (era * 146097 + doe - 719468)%Z.

(** [new Date(s)] for a string: the format written by [toISOString]
    with a four-digit year is recognised; any other text is read as an
    invalid date (the other formats [Date.parse] accepts are not
    modelled). *)
Definition parse (s : string) : Date :=
  match list_ascii_of_string s with
  | [y1; y2; y3; y4; "-"; m1; m2; "-"; d1; d2; "T"; h1; h2; ":"; n1; n2; ":"; s1; s2;
     "."; f1; f2; f3; "Z"]%char =>
      match digits [y1; y2; y3; y4] 0, digits [m1; m2] 0, digits [d1; d2] 0,
            digits [h1; h2] 0, digits [n1; n2] 0, digits [s1; s2] 0,
            digits [f1; f2; f3] 0 with
      | Some y, Some m, Some d, Some h, Some n, Some sec, Some f =>
          if ((1 <=? m) && (m <=? 12) && (1 <=? d) && (d <=? 31)
              && (h <=? 24) && (n <=? 59) && (sec <=? 59))%Z
          then DateAt (daysFromCivil y m d * msPerDay
                       + h * 3600000 + n * 60000 + sec * 1000 + f)%Z
          else InvalidDate
      | _, _, _, _, _, _, _ => InvalidDate
      end
  | _ => InvalidDate
  end.

(** [a < b] on dates compares the time values; false when one is NaN. *)
Definition lt (a b : Date) : bool :=
  match a, b with
  | DateAt x, DateAt y => (x <? y)%Z
  | _, _ => false
  end.

(** [isNaN(d.getTime())] *)
Definition isInvalid (d : Date) : bool :=
  match d with InvalidDate => true | DateAt _ => false end.

End JSDate.

(** ** Exceptions and results *)

(** The [details] payload of a [TodoManagerError] (typed [unknown] in the
  source): absent, the caught error, the list of validation messages,
  or an object of string fields such as [{ id }]. *)
Inductive Details (E : Type) : Type :=
| NoDetails
| CausedBy (e : E)
| Messages (l : list string)
| Fields (l : list (string * string)).
Arguments NoDetails {E}.
Arguments CausedBy {E} e.
Arguments Messages {E} l.
Arguments Fields {E} l.

Inductive Error : Type :=
| JSError (name message : string)
  (* [Error], [SyntaxError], [RangeError] and the errors of [fs] *)
| FileManagerError (message code : string) (originalError : option Error)
| TodoManagerError (message code : string) (details : Details Error).

Definition message (e : Error) : string :=
match e with
| JSError _ m => m
| FileManagerError m _ _ => m
| TodoManagerError m _ _ => m
end.

(** The [code] property; plain errors have none. *)
Definition code (e : Error) : option string :=
match e with
| JSError _ _ => None
| FileManagerError _ c _ => Some c
| TodoManagerError _ c _ => Some c
end.

Inductive Result (A : Type) : Type :=
| Ok (a : A)
| Throw (e : Error).
Arguments Ok {A} a.
Arguments Throw {A} e.

Definition isOk {A} (r : Result A) : bool :=
match r with Ok _ => true | Throw _ => false end.

Definition rbind {A B} (r : Result A) (k : A -> Result B) : Result B :=
match r with
| Ok a => k a
| Throw e => Throw e
end.

Declare Scope result_scope.
Delimit Scope result_scope with result.
Notation "'let?' x := r 'in' k" := (rbind r (fun x => k))
(at level 10, x pattern, r at level 100, k at level 200) : result_scope.

(** ** JavaScript values and the JSON object *)

Inductive JSValue : Type :=
| JSUndefined
| JSNull
| JSBool (b : bool)
| JSNumber (n : Z)
| JSString (s : string)
| JSDate (d : Date)
| JSArray (elems : list JSValue)
| JSObject (props : list (string * JSValue)).

Module JS.

(** Own property [k] of an object, first binding. *)
Fixpoint lookup (k : string) (props : list (string * JSValue)) : option JSValue :=
  match props with
  | [] => None
  | (k', v) :: r => if String.eqb k k' then Some v else lookup k r
  end.

(** [v.k] or [v[k]]: a missing property reads as [undefined]. *)
Definition get (v : JSValue) (k : string) : JSValue :=
  match v with
  | JSObject props => default JSUndefined (lookup k props)
  | _ => JSUndefined
  end.

(** [k in v] for an object [v] *)
Definition has (v : JSValue) (k : string) : bool :=
  match v with
  | JSObject props => bool_decide (is_Some (lookup k props))
  | _ => false
  end.

(** ToBoolean *)
Definition truthy (v : JSValue) : bool :=
  match v with
  | JSUndefined | JSNull => false
  | JSBool b => b
  | JSNumber n => negb (n =? 0)%Z
  | JSString s => JSString.nonEmpty s
  | JSDate _ | JSArray _ | JSObject _ => true
  end.

(** [typeof v === 'object'] *)
Definition typeofObject (v : JSValue) : bool :=
  match v with
  | JSNull | JSDate _ | JSArray _ | JSObject _ => true
  | _ => false
  end.

Definition typeofString (v : JSValue) : bool :=
  match v with JSString _ => true | _ => false end.

Definition typeofBoolean (v : JSValue) : bool :=
  match v with JSBool _ => true | _ => false end.

Definition typeofNumber (v : JSValue) : bool :=
  match v with JSNumber _ => true | _ => false end.

Definition isArray (v : JSValue) : bool :=
  match v with JSArray _ => true | _ => false end.

Definition instanceofDate (v : JSValue) : bool :=
  match v with JSDate _ => true | _ => false end.

(** [new Date(v)].  Strings are parsed, numbers are time values,
    [null] and booleans convert to numbers, [undefined] gives an invalid
    date; arrays and objects (converted through their string form by the
    engine) are read as invalid dates. *)
Definition newDate (v : JSValue) : Date :=
  match v with
  | JSString s => JSDate.parse s
  | JSNumber n => if (Z.abs n <=? 8640000000000000)%Z then DateAt n else InvalidDate
  | JSNull => DateAt 0
  | JSBool b => DateAt (if b then 1 else 0)
  | JSDate d => d
  | JSUndefined | JSArray _ | JSObject _ => InvalidDate
  end.

Fixpoint depth (v : JSValue) : nat :=
  match v with
  | JSArray l => S (list_max (map depth l))
  | JSObject ps => S (list_max (map (fun '(_, x) => depth x) ps))
  | _ => 0
  end.

End JS.

Module JSON.

Import JS.
Local Open Scope result_scope.

(** [Date.prototype.toJSON], the only [toJSON] method among the modelled
    values: an invalid date gives [null], a valid one its ISO string. *)
Definition toJSON (v : JSValue) : JSValue :=
  match v with
  | JSDate d => match JSDate.toISOString d with
                | Some s => JSString s
                | None => JSNull
                end
  | _ => v
  end.

Fixpoint mapResult {A B} (f : A -> Result B) (l : list A) : Result (list B) :=
  match l with
  | [] => Ok []
  | a :: r => let? b := f a in let? bs := mapResult f r in Ok (b :: bs)
  end.

(** SerializeJSONProperty of ECMA-262 (JSON.stringify), producing the
    JSON value whose text is written; [None] is [undefined] (the
    property is left out).  In the order of the standard: the value's
    [toJSON] method is called first, then the replacer function on the
    result, then the result is serialised by type.  [fuel] bounds the
    nesting; exceeding it is the engine's stack-exhaustion RangeError. *)
Fixpoint SerializeJSONProperty (fuel : nat) (replacer : JSValue -> Result JSValue)
    (value : JSValue) : Result (option JSValue) :=
  match fuel with
  | O => Throw (JSError "RangeError" "Maximum call stack size exceeded")
  | S fuel =>
      let value := toJSON value in
      let? value := replacer value in
      match value with
      | JSUndefined => Ok None
      | JSNull | JSBool _ | JSNumber _ | JSString _ => Ok (Some value)
      | JSDate _ => Ok (Some (JSObject []))
      | JSArray elems =>
          let? l := mapResult (fun x =>
                      let? o := SerializeJSONProperty fuel replacer x in
                      Ok (default JSNull o)) elems in
          Ok (Some (JSArray l))
      | JSObject props =>
          let? l := mapResult (fun '(k, x) =>
                      let? o := SerializeJSONProperty fuel replacer x in
                      Ok (option_map (pair k) o)) props in
          Ok (Some (JSObject (omap (fun o => o) l)))
      end
  end.

(** [JSON.stringify(value, replacer, 2)]: the JSON value of the text, or
    [None] when the result is [undefined]. *)
Definition stringify (value : JSValue) (replacer : JSValue -> Result JSValue)
  : Result (option JSValue) :=
  SerializeJSONProperty (depth value + 2) replacer value.

(** InternalizeJSONProperty of ECMA-262 (JSON.parse with a reviver):
    children first, a child revived to [undefined] is deleted, then the
    reviver is called on the rebuilt value. *)
Fixpoint InternalizeJSONProperty (reviver : JSValue -> JSValue) (val : JSValue) : JSValue :=
  match val with
  | JSArray elems =>
      reviver (JSArray (map (InternalizeJSONProperty reviver) elems))
  | JSObject props =>
      reviver (JSObject (omap (fun '(k, x) =>
                 match InternalizeJSONProperty reviver x with
                 | JSUndefined => None
                 | x' => Some (k, x')
                 end) props))
  | _ => reviver val
  end.

End JSON.

(** ** Todo.ts *)

Module Todo.

(** [enum Priority { LOW = 'low', MEDIUM = 'medium', HIGH = 'high' }]: a
    string enumeration; a loaded record may carry any non-empty string. *)
Definition Priority : Type := string.
Definition LOW : Priority := "low".
Definition MEDIUM : Priority := "medium".
Definition HIGH : Priority := "high".
Definition Priority_values : list Priority := [LOW; MEDIUM; HIGH].

Record Todo : Type := {
  id : string;
  title : string;
  description : option string;
  completed : bool;
  priority : Priority;
  categoryId : string;
  createdAt : Date;
  completedAt : option Date;
  dueDate : option Date
}.

(** The argument of [addTodo] and [createTodo], declared
    [Omit<Todo, 'id' | 'createdAt' | 'completedAt'>].  An object that is
    not a fresh literal is assignable to that type with further
    properties, and [createTodo] spreads all of them: [in_id],
    [in_createdAt] and [in_completedAt] are the three omitted properties
    of [Todo] when the caller's object carries them ([None]: the key is
    absent; for [completedAt] a present key may hold [undefined],
    [Some None]), with the types [Todo] declares for them. *)
Record TodoInput : Type := {
  in_title : string;
  in_description : option string;
  in_completed : bool;
  in_priority : Priority;
  in_categoryId : string;
  in_dueDate : option Date;
  in_id : option string;
  in_createdAt : option Date;
  in_completedAt : option (option Date)
}.

(** [Partial<Omit<Todo, 'id' | 'createdAt'>>], the payload of
    [updateTodo].  [None] is a key that is absent.  For the optional
    fields of [Todo] a present key may hold [undefined] ([Some None]);
    an explicit [undefined] under a required key is not modelled.
    [up_id] and [up_createdAt] are the two omitted properties of [Todo]
    when the caller's object carries them all the same (a [TodoUpdate]
    of this file is such an object): the spread applies them. *)
Record TodoUpdates : Type := {
  up_title : option string;
  up_description : option (option string);
  up_completed : option bool;
  up_priority : option Priority;
  up_categoryId : option string;
  up_completedAt : option (option Date);
  up_dueDate : option (option Date);
  up_id : option string;
  up_createdAt : option Date
}.

(** [{ isValid, error? }]: [None] is valid, [Some msg] the error. *)
Definition Validation : Type := option string.
Definition isValid (v : Validation) : bool :=
  match v with None => true | Some _ => false end.

Definition validateTitle (title : string) : Validation :=
  if negb (JSString.nonEmpty title) then
    Some "Title is required and must be a string"
  else if (String.length (JSString.trim title) =? 0)%nat then
    Some "Title cannot be empty"
  else if (200 <? String.length title)%nat then
    Some "Title cannot exceed 200 characters"
  else None.

Definition validateDescription (description : option string) : Validation :=
  match description with
  | None => None
  | Some d =>
      if (1000 <? String.length d)%nat then
        Some "Description cannot exceed 1000 characters"
      else None
  end.

Definition validatePriority (priority : Priority) : Validation :=
  if negb (bool_decide (priority ∈ Priority_values)) then
    Some ("Priority must be one of: " +:+ String.concat ", " Priority_values)
  else None.

Definition validateCategoryId (categoryId : string) : Validation :=
  if negb (JSString.nonEmpty categoryId) then
    Some "Category ID is required and must be a string"
  else if (String.length (JSString.trim categoryId) =? 0)%nat then
    Some "Category ID cannot be empty"
  else None.

Definition validateDueDate (dueDate : option Date) : Validation :=
  match dueDate with
  | None => None
  | Some d =>
      if JSDate.isInvalid d then Some "Due date must be a valid date" else None
  end.

(** The [errors] array of [validateTodoInput]; [isValid] is its
    emptiness.  ([completed] is a boolean by its type.) *)
Definition validateTodoInput (input : TodoInput) : list string :=
  option_list (validateTitle (in_title input))
  ++ option_list (validateDescription (in_description input))
  ++ option_list (validatePriority (in_priority input))
  ++ option_list (validateCategoryId (in_categoryId input))
  ++ option_list (validateDueDate (in_dueDate input)).

(** [createTodo], given the identifier and the two clock readings it
    takes: [{ id: uuidv4(), createdAt: new Date(),
    completedAt: input.completed ? new Date() : undefined, ...input }].
    The spread comes last, so a property of [input] replaces the
    generated one. *)
Definition createTodo (uuid : string) (now1 now2 : Date) (input : TodoInput) : Todo :=
  {| id := default uuid (in_id input);
     createdAt := default now1 (in_createdAt input);
     completedAt := default (if in_completed input then Some now2 else None)
                            (in_completedAt input);
     title := in_title input;
     description := in_description input;
     completed := in_completed input;
     priority := in_priority input;
     categoryId := in_categoryId input;
     dueDate := in_dueDate input |}.

(** [{ ...currentTodo, ...updates }] *)
Definition applyUpdates (current : Todo) (updates : TodoUpdates) : Todo :=
  {| id := default (id current) (up_id updates);
     createdAt := default (createdAt current) (up_createdAt updates);
     title := default (title current) (up_title updates);
     description := default (description current) (up_description updates);
     completed := default (completed current) (up_completed updates);
     priority := default (priority current) (up_priority updates);
     categoryId := default (categoryId current) (up_categoryId updates);
     completedAt := default (completedAt current) (up_completedAt updates);
     dueDate := default (dueDate current) (up_dueDate updates) |}.

(** The record as a JavaScript object (its in-memory form). *)
Definition toJS (t : Todo) : JSValue :=
  JSObject [
    ("id", JSString (id t));
    ("createdAt", JSDate (createdAt t));
    ("completedAt", from_option JSDate JSUndefined (completedAt t));
    ("title", JSString (title t));
    ("description", from_option JSString JSUndefined (description t));
    ("completed", JSBool (completed t));
    ("priority", JSString (priority t));
    ("categoryId", JSString (categoryId t));
    ("dueDate", from_option JSDate JSUndefined (dueDate t)) ].

Definition asString (v : JSValue) : string :=
  match v with JSString s => s | _ => "" end.
Definition asOptString (v : JSValue) : option string :=
  match v with JSString s => Some s | _ => None end.
Definition asBool (v : JSValue) : bool :=
  match v with JSBool b => b | _ => false end.
Definition asDate (v : JSValue) : Date :=
  match v with JSDate d => d | _ => InvalidDate end.
Definition asOptDate (v : JSValue) : option Date :=
  match v with JSDate d => Some d | _ => None end.

(** The typed view [todo is Todo] of a value that passed
    [FileManager.validateTodo].  The required fields have their declared
    types then; an optional field whose value does not have its declared
    type (which the type assertion takes on trust) is read as absent. *)
Definition ofJS (v : JSValue) : Todo :=
  {| id := asString (JS.get v "id");
     title := asString (JS.get v "title");
     description := asOptString (JS.get v "description");
     completed := asBool (JS.get v "completed");
     priority := asString (JS.get v "priority");
     categoryId := asString (JS.get v "categoryId");
     createdAt := asDate (JS.get v "createdAt");
     completedAt := asOptDate (JS.get v "completedAt");
     dueDate := asOptDate (JS.get v "dueDate") |}.

End Todo.

(** ** Category.ts *)

Module Category.

Record Category : Type := {
  id : string;
  name : string;
  color : string;
  todoCount : Z
}.

(** The argument of [addCategory] and [createCategory], declared
    [Omit<Category, 'id' | 'todoCount'>].  [in_id] and [in_todoCount] are
    the two omitted properties of [Category] when the caller's object
    carries them at run time in spite of the declared type ([None]: the
    key is absent); [createCategory] spreads them after its own. *)
Record CategoryInput : Type := {
  in_name : string;
  in_color : string;
  in_id : option string;
  in_todoCount : option Z
}.

(** The payload of [updateCategory], declared
    [Partial<Omit<Category, 'id' | 'todoCount'>>].  [up_todoCount] and
    [up_id] are a [todoCount] and an [id] property that a caller's
    object carries at run time in spite of the declared type. *)
Record CategoryUpdates : Type := {
  up_name : option string;
  up_color : option string;
  up_todoCount : option Z;
  up_id : option string
}.

Definition CATEGORY_COLORS_RED := "#e74c3c".
Definition CATEGORY_COLORS_BLUE := "#3498db".
Definition CATEGORY_COLORS_GREEN := "#2ecc71".
Definition CATEGORY_COLORS_ORANGE := "#f39c12".

Definition DEFAULT_CATEGORIES : list CategoryInput :=
  [ {| in_name := "Personal"; in_color := CATEGORY_COLORS_BLUE;
       in_id := None; in_todoCount := None |};
    {| in_name := "Work"; in_color := CATEGORY_COLORS_GREEN;
       in_id := None; in_todoCount := None |};
    {| in_name := "Shopping"; in_color := CATEGORY_COLORS_ORANGE;
       in_id := None; in_todoCount := None |};
    {| in_name := "Health"; in_color := CATEGORY_COLORS_RED;
       in_id := None; in_todoCount := None |} ].

Definition Validation : Type := option string.

Definition reservedNames : list string := ["all"; "completed"; "pending"; "overdue"].

Definition validateName (name : string) : Validation :=
  if negb (JSString.nonEmpty name) then
    Some "Category name is required and must be a string"
  else if (String.length (JSString.trim name) =? 0)%nat then
    Some "Category name cannot be empty"
  else if (50 <? String.length name)%nat then
    Some "Category name cannot exceed 50 characters"
  else if bool_decide (JSString.toLowerCase name ∈ reservedNames) then
    Some (JSString.quote +:+ name +:+ JSString.quote +:+ " is a reserved category name")
  else None.

Definition validateColor (color : string) : Validation :=
  if negb (JSString.nonEmpty color) then
    Some "Color is required and must be a string"
  else if negb (JSString.hexColorRegex_test color) then
    Some "Color must be a valid hex color code (e.g., #FF0000 or #F00)"
  else None.

Definition validateCategoryInput (input : CategoryInput) : list string :=
  option_list (validateName (in_name input))
  ++ option_list (validateColor (in_color input)).

(** [CategoryValidator.isNameUnique] *)
Definition isNameUnique (name : string) (existingCategories : list Category) : bool :=
  negb (existsb (fun category =>
          String.eqb (JSString.toLowerCase (Category.name category))
                     (JSString.toLowerCase name))
        existingCategories).

(** [createCategory], given the generated identifier:
    [{ id: uuidv4(), todoCount: 0, ...input, color: normalizedColor }].
    The spread comes after [id] and [todoCount], so a property of
    [input] replaces them; only [color] is written after the spread. *)
Definition createCategory (uuid : string) (input : CategoryInput) : Category :=
  let normalizedColor :=
    if JSString.startsWith (in_color input) "#" then in_color input
    else "#" +:+ in_color input in
  {| id := default uuid (in_id input);
     todoCount := default 0%Z (in_todoCount input);
     name := in_name input;
     color := normalizedColor |}.

Definition toJS (c : Category) : JSValue :=
  JSObject [
    ("id", JSString (id c));
    ("todoCount", JSNumber (todoCount c));
    ("name", JSString (name c));
    ("color", JSString (color c)) ].

Definition asNumber (v : JSValue) : Z :=
  match v with JSNumber n => n | _ => 0%Z end.

(** The typed view of a value that passed [FileManager.validateCategory]. *)
Definition ofJS (v : JSValue) : Category :=
  {| id := Todo.asString (JS.get v "id");
     name := Todo.asString (JS.get v "name");
     color := Todo.asString (JS.get v "color");
     todoCount := asNumber (JS.get v "todoCount") |}.

End Category.

(** ** The world: file system, clock, identifier generator *)

(** What a file holds.  The character level of JSON texts is abstracted:
  [Json v] is a text that [JSON.parse] reads as [v] (and that
  [JSON.stringify] writes for [v]), [Text s] is a text [s] that is not
  JSON, and [PartOf c] is a strict prefix of the content [c], as left
  behind by a write or a copy that has not finished. *)
Inductive FileContent : Type :=
| Text (s : string)
| Json (v : JSValue)
| PartOf (c : FileContent).

(** The file system is flat: files by path; a directory is a path prefix
  and its entries are the paths below it, named relative to it.
  [observed] lists every state of the file system that has been visible
  so far, latest first: a process that is interrupted leaves one of
  them behind. *)
Record World : Type := {
files : gmap string FileContent;
observed : list (gmap string FileContent);
clock : nat -> Z;
ticks : nat;
uuidSource : nat -> string;
drawn : nat
}.

(** State and exception monad. *)
Definition M (S A : Type) : Type := S -> Result A * S.

Definition ret {S A} (a : A) : M S A := fun s => (Ok a, s).
Definition throw {S A} (e : Error) : M S A := fun s => (Throw e, s).
Definition bind {S A B} (m : M S A) (k : A -> M S B) : M S B :=
fun s => match m s with
         | (Ok a, s') => k a s'
         | (Throw e, s') => (Throw e, s')
         end.
(** [try { m } catch (error) { h error }] *)
Definition try_catch {S A} (m : M S A) (h : Error -> M S A) : M S A :=
fun s => match m s with
         | (Ok a, s') => (Ok a, s')
         | (Throw e, s') => h e s'
         end.
Definition liftR {S A} (r : Result A) : M S A := fun s => (r, s).

Declare Scope m_scope.
Delimit Scope m_scope with M.
Notation "'let!' x := m 'in' k" := (bind m (fun x => k))
(at level 10, x pattern, m at level 100, k at level 200) : m_scope.

Module Fs.

Local Open Scope m_scope.

Definition IO (A : Type) : Type := M World A.

Definition setFiles (w : World) (fs : gmap string FileContent) : World :=
  {| files := fs; observed := fs :: observed w; clock := clock w; ticks := ticks w;
     uuidSource := uuidSource w; drawn := drawn w |}.

Definition ENOENT (path : string) : Error :=
  JSError "Error" ("ENOENT: no such file or directory, " +:+ path).

(** [path.join(dir, name)] (without the normalisation of [dir]) *)
Definition join (dir name : string) : string := dir +:+ "/" +:+ name.

(** The empty path names no file: every operation on it fails. *)
Definition validPath (path : string) : bool := JSString.nonEmpty path.

(** [fs.access(path)] succeeds *)
Definition access (path : string) : IO bool :=
  fun w => (Ok (validPath path && bool_decide (is_Some (files w !! path))), w).

Definition readFile (path : string) : IO FileContent :=
  fun w => if negb (validPath path) then (Throw (ENOENT path), w)
           else match files w !! path with
                | Some c => (Ok c, w)
                | None => (Throw (ENOENT path), w)
                end.

(** [fs.writeFile]: the file is visible with part of the data before it
    is visible with all of it. *)
Definition writeFile (path : string) (data : FileContent) : IO unit :=
  fun w =>
    if negb (validPath path) then (Throw (ENOENT path), w)
    else
      let w1 := setFiles w (<[path := PartOf data]> (files w)) in
      (Ok tt, setFiles w1 (<[path := data]> (files w1))).

(** [fs.rename]: the destination is replaced in one step. *)
Definition rename (oldPath newPath : string) : IO unit :=
  fun w =>
    if negb (validPath oldPath && validPath newPath) then (Throw (ENOENT newPath), w)
    else match files w !! oldPath with
         | Some c => (Ok tt, setFiles w (<[newPath := c]> (delete oldPath (files w))))
         | None => (Throw (ENOENT oldPath), w)
         end.

Definition copyFile (src dest : string) : IO unit :=
  fun w =>
    if negb (validPath src && validPath dest) then (Throw (ENOENT dest), w)
    else match files w !! src with
         | Some c =>
             let w1 := setFiles w (<[dest := PartOf c]> (files w)) in
             (Ok tt, setFiles w1 (<[dest := c]> (files w1)))
         | None => (Throw (ENOENT src), w)
         end.

Definition unlink (path : string) : IO unit :=
  fun w =>
    if negb (validPath path) then (Throw (ENOENT path), w)
    else match files w !! path with
         | Some _ => (Ok tt, setFiles w (delete path (files w)))
         | None => (Throw (ENOENT path), w)
         end.

Fixpoint stripPrefix (p s : string) : option string :=
  match p, s with
  | EmptyString, _ => Some s
  | String a p', String b s' => if Ascii.eqb a b then stripPrefix p' s' else None
  | String _ _, EmptyString => None
  end.

Definition entries (dir : string) (fs : gmap string FileContent) : list string :=
  omap (fun '(path, _) => stripPrefix (dir +:+ "/") path) (map_to_list fs).

(** [fs.readdir(dir)]; the directories of the configuration exist (the
    constructor of [FileManager] creates them). *)
Definition readdir (dir : string) : IO (list string) :=
  fun w => (Ok (entries dir (files w)), w).

(** [new Date()] *)
Definition now : IO Date :=
  fun w => (Ok (DateAt (clock w (ticks w))),
            {| files := files w; observed := observed w; clock := clock w;
               ticks := S (ticks w); uuidSource := uuidSource w; drawn := drawn w |}).

(** [uuidv4()] *)
Definition uuidv4 : IO string :=
  fun w => (Ok (uuidSource w (drawn w)),
            {| files := files w; observed := observed w; clock := clock w;
               ticks := ticks w; uuidSource := uuidSource w; drawn := S (drawn w) |}).

(** [date.toISOString()] *)
Definition toISOString (d : Date) : IO string :=
  liftR (match JSDate.toISOString d with
         | Some s => Ok s
         | None => Throw (JSError "RangeError" "Invalid time value")
         end).

End Fs.

(** ** Todo.ts: [TodoUtils] *)

Module TodoUtils.

Local Open Scope m_scope.

(** [markCompleted]: [{ ...todo, completed: true, completedAt: new Date() }] *)
Definition markCompleted (todo : Todo.Todo) : Fs.IO Todo.Todo :=
  let! now := Fs.now in
  ret {| Todo.id := Todo.id todo; Todo.title := Todo.title todo;
         Todo.description := Todo.description todo; Todo.completed := true;
         Todo.priority := Todo.priority todo; Todo.categoryId := Todo.categoryId todo;
         Todo.createdAt := Todo.createdAt todo; Todo.completedAt := Some now;
         Todo.dueDate := Todo.dueDate todo |}.

(** [markIncomplete]: [{ ...todo, completed: false, completedAt: undefined }] *)
Definition markIncomplete (todo : Todo.Todo) : Todo.Todo :=
  {| Todo.id := Todo.id todo; Todo.title := Todo.title todo;
     Todo.description := Todo.description todo; Todo.completed := false;
     Todo.priority := Todo.priority todo; Todo.categoryId := Todo.categoryId todo;
     Todo.createdAt := Todo.createdAt todo; Todo.completedAt := None;
     Todo.dueDate := Todo.dueDate todo |}.

(** [getPriorityWeight]: the [switch] over the three enumeration values,
    [default: return 0]. *)
Definition getPriorityWeight (priority : Todo.Priority) : Z :=
  if String.eqb priority Todo.HIGH then 3
  else if String.eqb priority Todo.MEDIUM then 2
  else if String.eqb priority Todo.LOW then 1
  else 0.

End TodoUtils.

(** ** Category.ts: the palette and [CategoryUtils] *)

Module CategoryUtils.

(** [CATEGORY_COLORS], in the order of its keys. *)
Definition CATEGORY_COLORS : list (string * string) :=
  [ ("RED", "#e74c3c"); ("BLUE", "#3498db"); ("GREEN", "#2ecc71");
    ("ORANGE", "#f39c12"); ("PURPLE", "#9b59b6"); ("PINK", "#e91e63");
    ("TEAL", "#1abc9c"); ("YELLOW", "#f1c40f"); ("GRAY", "#95a5a6");
    ("DARK_BLUE", "#2c3e50") ].

Definition CATEGORY_COLORS_GRAY : string := "#95a5a6".

(** [Object.values(CATEGORY_COLORS)] *)
Definition values : list string := map snd CATEGORY_COLORS.

(** [getRandomColor], given [randomIndex], the value of
    [Math.floor(Math.random() * colors.length)]; [None] is the
    [undefined] read at an index outside the array. *)
Definition getRandomColor (randomIndex : nat) : option string :=
  values !! randomIndex.

(** [normalizeColor] *)
Definition normalizeColor (color : string) : string :=
  if negb (JSString.nonEmpty color) then CATEGORY_COLORS_GRAY
  else if JSString.startsWith color "#" then color else "#" +:+ color.

(** [hex.replace('#', '')]: the first [#] is removed. *)
Fixpoint removeFirstHash (s : string) : string :=
  match s with
  | EmptyString => EmptyString
  | String c r => if Ascii.eqb c "#" then r else String c (removeFirstHash r)
  end.

(** [s.split('').map(char => char + char).join('')] *)
Fixpoint doubleChars (s : string) : string :=
  match s with
  | EmptyString => EmptyString
  | String c r => String c (String c (doubleChars r))
  end.

Definition hexValue (c : ascii) : option Z :=
  let n := nat_of_ascii c in
  if (48 <=? n)%nat && (n <=? 57)%nat then Some (Z.of_nat (n - 48))
  else if (65 <=? n)%nat && (n <=? 70)%nat then Some (Z.of_nat (n - 55))
  else if (97 <=? n)%nat && (n <=? 102)%nat then Some (Z.of_nat (n - 87))
  else None.

(** The value of the longest prefix of [s] made of hexadecimal digits;
    [acc] is the value read so far, [None] before the first digit. *)
Fixpoint hexPrefix (s : string) (acc : option Z) : option Z :=
  match s with
  | EmptyString => acc
  | String c r =>
      match hexValue c with
      | Some v => hexPrefix r (Some (16 * default 0 acc + v)%Z)
      | None => acc
      end
  end.

(** [parseInt(s, 16)]: leading white space is skipped, then a sign, then
    a [0x] or [0X] prefix; the digits up to the first other character are
    read.  [None] is NaN (no digit).  The two zeros of JavaScript are one
    number here. *)
Definition parseInt16 (s : string) : option Z :=
  let s := JSString.trimStart s in
  let '(sign, s) := match s with
                    | String "-" r => ((-1)%Z, r)
                    | String "+" r => (1%Z, r)
                    | _ => (1%Z, s)
                    end in
  let s := match s with
           | String "0" (String "x" r) => r
           | String "0" (String "X" r) => r
           | _ => s
           end in
  option_map (Z.mul sign) (hexPrefix s None).

(** [{ r, g, b }]; a component is [None] when it is NaN. *)
Record RGB : Type := {
  r : option Z;
  g : option Z;
  b : option Z
}.

(** [hexToRgb]; the result [None] is [null].  [depth] bounds the nesting
    of the calls of the function to itself; the outer [None] is a nesting
    deeper than that. *)
Fixpoint hexToRgbWithin (depth : nat) (hex : string) : option (option RGB) :=
  match depth with
  | O => None
  | S depth =>
      let normalized := removeFirstHash hex in
      if (String.length normalized =? 3)%nat then
        let expanded := doubleChars normalized in
        hexToRgbWithin depth ("#" +:+ expanded)
      else if negb (String.length normalized =? 6)%nat then Some None
      else
        Some (Some {| r := parseInt16 (String.substring 0 2 normalized);
                      g := parseInt16 (String.substring 2 2 normalized);
                      b := parseInt16 (String.substring 4 2 normalized) |})
  end.

(** [getNextAvailableColor(usedColors)]; [randomIndex] is what the
    fallback [getRandomColor] draws. *)
Definition getNextAvailableColor (randomIndex : nat) (usedColors : list string)
  : option string :=
  let availableColors :=
    List.filter (fun color => negb (bool_decide (color ∈ usedColors))) values in
  match availableColors with
  | [] => getRandomColor randomIndex
  | first :: _ => Some first
  end.

Definition commonNames : list string :=
  [ "Personal"; "Work"; "Shopping"; "Health"; "Fitness"; "Learning";
    "Travel"; "Finance"; "Home"; "Projects"; "Goals"; "Family" ].

Definition baseName : string := "Category".

(** The loop [while (existingNames.includes(...)) counter++]; [None] when
    it has not ended after [rounds] tests. *)
Fixpoint countUp (rounds : nat) (existingNames : list string) (counter : nat)
  : option nat :=
  match rounds with
  | O => None
  | S rounds =>
      if bool_decide (JSString.toLowerCase baseName +:+ " " +:+ pretty counter
                      ∈ existingNames)
      then countUp rounds existingNames (S counter)
      else Some counter
  end.

(** [suggestCategoryName], with a bound on the number of tests of its
    loop. *)
Definition suggestCategoryNameWithin (rounds : nat)
    (existingCategories : list Category.Category) : option string :=
  let existingNames :=
    map (fun cat => JSString.toLowerCase (Category.name cat)) existingCategories in
  let availableName :=
    find (fun name => negb (bool_decide (JSString.toLowerCase name ∈ existingNames)))
         commonNames in
  match availableName with
  | Some name => Some name
  | None =>
      option_map (fun counter => baseName +:+ " " +:+ pretty counter)
                 (countUp rounds existingNames 1)
  end.

End CategoryUtils.

(** ** FileManager.ts *)

Module FileManager.

Import Fs.
Local Open Scope m_scope.

(** [FileManagerConfig]; [None] is an optional property that is absent. *)
Record FileManagerConfig : Type := {
  dataPath : string;
  backupPath : option string;
  autoBackup : bool;
  maxBackups : option Z
}.

Definition DEFAULT_CONFIG : FileManagerConfig :=
  {| dataPath := "./data/todos.json";
     backupPath := Some "./data/backups";
     autoBackup := true;
     maxBackups := Some 5%Z |}.

(** The constructor, for a complete [FileManagerConfig] as [TodoManager]
    passes it: [{ ...DEFAULT_CONFIG, ...config }]. *)
Definition new (config : FileManagerConfig) : FileManagerConfig :=
  {| dataPath := dataPath config;
     backupPath := Some (default "./data/backups" (backupPath config));
     autoBackup := autoBackup config;
     maxBackups := Some (default 5%Z (maxBackups config)) |}.

(** A configured, truthy [backupPath]. *)
Definition backupDir (config : FileManagerConfig) : option string :=
  match backupPath config with
  | Some d => if JSString.nonEmpty d then Some d else None
  | None => None
  end.

(** A configured, truthy [maxBackups]. *)
Definition backupLimit (config : FileManagerConfig) : option Z :=
  match maxBackups config with
  | Some n => if (n =? 0)%Z then None else Some n
  | None => None
  end.

Definition fileExists (filePath : string) : IO bool := access filePath.

Definition dateSerializer (value : JSValue) : Result JSValue :=
  match value with
  | JSDate d =>
      match JSDate.toISOString d with
      | Some s => Ok (JSObject [("__date", JSString s)])
      | None => Throw (JSError "RangeError" "Invalid time value")
      end
  | _ => Ok value
  end.

Definition dateDeserializer (value : JSValue) : JSValue :=
  if JS.truthy value && JS.typeofObject value && JS.has value "__date"
  then JSDate (JS.newDate (JS.get value "__date"))
  else value.

(** [JSON.parse(content, this.dateDeserializer)] *)
Definition parse (content : FileContent) : Result JSValue :=
  match content with
  | Json v => Ok (JSON.InternalizeJSONProperty dateDeserializer v)
  | Text _ | PartOf _ => Throw (JSError "SyntaxError" "Unexpected token in JSON")
  end.

(** [!fileContent.trim()] *)
Definition isBlank (content : FileContent) : bool :=
  match content with
  | Text s => negb (JSString.nonEmpty (JSString.trim s))
  | Json _ | PartOf _ => false
  end.

Definition error (msg : string) : Error := JSError "Error" msg.

Definition validateTodo (todo : JSValue) : Result unit :=
  if negb (JS.truthy todo) || negb (JS.typeofObject todo) then
    Throw (error "Todo must be an object")
  else if negb (JS.truthy (JS.get todo "id")) || negb (JS.typeofString (JS.get todo "id")) then
    Throw (error "Todo must have a valid id")
  else if negb (JS.truthy (JS.get todo "title")) || negb (JS.typeofString (JS.get todo "title")) then
    Throw (error "Todo must have a valid title")
  else if negb (JS.typeofBoolean (JS.get todo "completed")) then
    Throw (error "Todo completed status must be a boolean")
  else if negb (JS.truthy (JS.get todo "priority")) || negb (JS.typeofString (JS.get todo "priority")) then
    Throw (error "Todo must have a valid priority")
  else if negb (JS.truthy (JS.get todo "categoryId")) || negb (JS.typeofString (JS.get todo "categoryId")) then
    Throw (error "Todo must have a valid categoryId")
  else if negb (JS.truthy (JS.get todo "createdAt")) || negb (JS.instanceofDate (JS.get todo "createdAt")) then
    Throw (error "Todo must have a valid createdAt date")
  else Ok tt.

Definition validateCategory (category : JSValue) : Result unit :=
  if negb (JS.truthy category) || negb (JS.typeofObject category) then
    Throw (error "Category must be an object")
  else if negb (JS.truthy (JS.get category "id")) || negb (JS.typeofString (JS.get category "id")) then
    Throw (error "Category must have a valid id")
  else if negb (JS.truthy (JS.get category "name")) || negb (JS.typeofString (JS.get category "name")) then
    Throw (error "Category must have a valid name")
  else if negb (JS.truthy (JS.get category "color")) || negb (JS.typeofString (JS.get category "color")) then
    Throw (error "Category must have a valid color")
  else if negb (JS.typeofNumber (JS.get category "todoCount")) then
    Throw (error "Category todoCount must be a number")
  else Ok tt.

(** The loop [for (const [index, x] of xs.entries())] with its
    try/catch that prefixes the message. *)
Fixpoint validateEach (what : string) (validate : JSValue -> Result unit)
    (index : nat) (xs : list JSValue) : Result unit :=
  match xs with
  | [] => Ok tt
  | x :: r =>
      match validate x with
      | Ok _ => validateEach what validate (S index) r
      | Throw e =>
          Throw (error ("Invalid " +:+ what +:+ " at index " +:+ pretty index
                        +:+ ": " +:+ message e))
      end
  end.

Definition elements (v : JSValue) : list JSValue :=
  match v with JSArray l => l | _ => [] end.

(** [validateData]; the referential-integrity pass at its end only
    warns. *)
Definition validateData (data : JSValue) : Result unit :=
  if negb (JS.truthy data) || negb (JS.typeofObject data) then
    Throw (error "Data must be an object")
  else if negb (JS.isArray (JS.get data "todos")) then
    Throw (error "todos must be an array")
  else if negb (JS.isArray (JS.get data "categories")) then
    Throw (error "categories must be an array")
  else if negb (JS.truthy (JS.get data "version")) || negb (JS.typeofString (JS.get data "version")) then
    Throw (error "version must be a string")
  else
    (let? _ := validateEach "todo" validateTodo 0 (elements (JS.get data "todos")) in
     validateEach "category" validateCategory 0 (elements (JS.get data "categories")))%result.

(** [migrateData]: every version is passed through. *)
Definition migrateData (data : JSValue) : IO JSValue := ret data.

Definition RecordSets : Type := list Todo.Todo * list Category.Category.

Definition createEmptyData : RecordSets := ([], []).

Definition recordSets (data : JSValue) : RecordSets :=
  (map Todo.ofJS (elements (JS.get data "todos")),
   map Category.ofJS (elements (JS.get data "categories"))).

Definition isBackupFile (file : string) : bool :=
  JSString.startsWith file "todos-backup-" && JSString.endsWith file ".json".

(** [backupFiles.filter(...).sort().reverse()], most recent first. *)
Definition todoBackups (backupFiles : list string) : list string :=
  reverse (merge_sort String.le (filter (fun file => isBackupFile file = true) backupFiles)).

(** [array.slice(start)] *)
Definition slice {A} (l : list A) (start : Z) : list A :=
  if (start <? 0)%Z then drop (Z.to_nat (Z.of_nat (length l) + start)) l
  else drop (Z.to_nat start) l.

Fixpoint forEach {A} (f : A -> IO unit) (l : list A) : IO unit :=
  match l with
  | [] => ret tt
  | a :: r => let! _ := f a in forEach f r
  end.

Definition cleanupOldBackups (config : FileManagerConfig) : IO unit :=
  match backupDir config, backupLimit config with
  | Some dir, Some limit =>
      try_catch
        (let! backupFiles := readdir dir in
         let backups := todoBackups backupFiles in
         if (limit <? Z.of_nat (length backups))%Z then
           forEach (fun file => unlink (join dir file)) (slice backups limit)
         else ret tt)
        (fun _ => ret tt)
  | _, _ => ret tt
  end.

Definition backupFileName (timestamp : string) : string :=
  "todos-backup-" +:+ timestamp +:+ ".json".

Definition createBackup (config : FileManagerConfig) : IO unit :=
  match backupDir config with
  | None => ret tt
  | Some dir =>
      let! present := fileExists (dataPath config) in
      if negb present then ret tt
      else
        try_catch
          (let! date := now in
           let! iso := toISOString date in
           let timestamp := JSString.replaceColonDot iso in
           let backupFilePath := join dir (backupFileName timestamp) in
           let! _ := copyFile (dataPath config) backupFilePath in
           if bool_decide (is_Some (backupLimit config))
           then cleanupOldBackups config
           else ret tt)
          (fun _ => ret tt)
  end.

(** The value handed to [JSON.stringify] by [save]. *)
Definition envelope (todos : list Todo.Todo) (categories : list Category.Category)
    (lastModified : string) : JSValue :=
  JSObject [ ("todos", JSArray (map Todo.toJS todos));
             ("categories", JSArray (map Category.toJS categories));
             ("version", JSString "1.0.0");
             ("lastModified", JSString lastModified) ].

Definition save (config : FileManagerConfig) (todos : list Todo.Todo)
    (categories : list Category.Category) : IO unit :=
  try_catch
    (let! _ := (if autoBackup config then createBackup config else ret tt) in
     let! date := now in
     let! lastModified := toISOString date in
     let todoData := envelope todos categories lastModified in
     let! _ := liftR (validateData todoData) in
     let! jsonData := liftR (JSON.stringify todoData dateSerializer) in
     match jsonData with
     | None => throw (JSError "TypeError" "The data argument must be of type string")
     | Some text =>
         let tempFile := dataPath config +:+ ".tmp" in
         let! _ := writeFile tempFile (Json text) in
         rename tempFile (dataPath config)
     end)
    (fun e =>
       throw (FileManagerError ("Failed to save data: " +:+ message e) "SAVE_ERROR" (Some e))).

(** The part of [loadFromBackup] that reads, parses and validates the
    chosen backup file. *)
Definition readBackup (latestBackup : string) : IO RecordSets :=
  let! backupContent := readFile latestBackup in
  let! todoData := liftR (parse backupContent) in
  let! _ := liftR (validateData todoData) in
  ret (recordSets todoData).

Definition loadFromBackup (config : FileManagerConfig) : IO RecordSets :=
  match backupDir config with
  | None => throw (FileManagerError "No backup path configured" "NO_BACKUP_PATH" None)
  | Some dir =>
      try_catch
        (let! backupFiles := readdir dir in
         match todoBackups backupFiles with
         | [] => throw (FileManagerError "No backup files found" "NO_BACKUPS" None)
         | latest :: _ =>
             let latestBackup := join dir latest in
             readBackup latestBackup
         end)
        (fun e =>
           throw (FileManagerError ("Failed to load from backup: " +:+ message e)
                                   "BACKUP_LOAD_ERROR" (Some e)))
  end.

(** The [try] block of [load]. *)
Definition loadPrimary (config : FileManagerConfig) : IO RecordSets :=
  let! present := fileExists (dataPath config) in
  if negb present then ret createEmptyData
  else
    let! fileContent := readFile (dataPath config) in
    if isBlank fileContent then ret createEmptyData
    else
      let! todoData := liftR (parse fileContent) in
      let! _ := liftR (validateData todoData) in
      let! migratedData := migrateData todoData in
      ret (recordSets migratedData).

Definition load (config : FileManagerConfig) : IO RecordSets :=
  try_catch
    (loadPrimary config)
    (fun e =>
       let fileError :=
         FileManagerError ("Failed to load data: " +:+ message e) "LOAD_ERROR" (Some e) in
       if autoBackup config then loadFromBackup config
       else throw fileError).

(** [manualBackup] *)
Definition manualBackup (config : FileManagerConfig) : IO unit := createBackup config.

(** The object [exportData] hands to [JSON.stringify].  Its [todos] and
    [categories] are the records that [load] returned, here in the typed
    view ([recordSets]) in which [load] hands them on; the summary
    counts them. *)
Definition exportValue (exportDate : string) (data : RecordSets) : JSValue :=
  JSObject [
    ("exportDate", JSString exportDate);
    ("summary",
     JSObject [
       ("totalTodos", JSNumber (Z.of_nat (length (fst data))));
       ("completedTodos",
        JSNumber (Z.of_nat (length (List.filter (fun t => Todo.completed t) (fst data)))));
       ("totalCategories", JSNumber (Z.of_nat (length (snd data)))) ]);
    ("categories", JSArray (map Category.toJS (snd data)));
    ("todos", JSArray (map Todo.toJS (fst data))) ].

(** [exportData(exportPath)] *)
Definition exportData (config : FileManagerConfig) (exportPath : string) : IO unit :=
  try_catch
    (let! data := load config in
     let! date := now in
     let! exportDate := toISOString date in
     let! jsonData := liftR (JSON.stringify (exportValue exportDate data) dateSerializer) in
     match jsonData with
     | None => throw (JSError "TypeError" "The data argument must be of type string")
     | Some text => writeFile exportPath (Json text)
     end)
    (fun e =>
       throw (FileManagerError ("Failed to export data: " +:+ message e) "EXPORT_ERROR"
                               (Some e))).

End FileManager.

(** ** TodoManager.ts *)

Module TodoManager.

Local Open Scope m_scope.

(** [Required<TodoManagerConfig>] *)
Record Config : Type := {
  fileManagerConfig : FileManager.FileManagerConfig;
  autoSave : bool;
  createDefaultCategories : bool
}.

(** [TodoManagerConfig]: every property is optional. *)
Record TodoManagerConfig : Type := {
  cfg_fileManager : option FileManager.FileManagerConfig;
  cfg_autoSave : option bool;
  cfg_createDefaultCategories : option bool
}.

Record TodoManager : Type := {
  todos : list Todo.Todo;
  categories : list Category.Category;
  fileManager : FileManager.FileManagerConfig;
  config : Config;
  isInitialized : bool
}.

(** [constructor(config = {})] *)
Definition new (cfg : TodoManagerConfig) : TodoManager :=
  let config :=
    {| fileManagerConfig :=
         default {| FileManager.dataPath := ""; FileManager.backupPath := None;
                    FileManager.autoBackup := false; FileManager.maxBackups := None |}
                 (cfg_fileManager cfg);
       autoSave := default true (cfg_autoSave cfg);
       createDefaultCategories := default true (cfg_createDefaultCategories cfg) |} in
  {| todos := []; categories := [];
     fileManager := FileManager.new (fileManagerConfig config);
     config := config;
     isInitialized := false |}.

Definition setTodos (l : list Todo.Todo) (m : TodoManager) : TodoManager :=
  {| todos := l; categories := categories m; fileManager := fileManager m;
     config := config m; isInitialized := isInitialized m |}.

Definition setCategories (l : list Category.Category) (m : TodoManager) : TodoManager :=
  {| todos := todos m; categories := l; fileManager := fileManager m;
     config := config m; isInitialized := isInitialized m |}.

Definition setInitialized (b : bool) (m : TodoManager) : TodoManager :=
  {| todos := todos m; categories := categories m; fileManager := fileManager m;
     config := config m; isInitialized := b |}.

(** A method runs on the object and the world. *)
Definition Method (A : Type) : Type := M (TodoManager * World) A.

Definition this : Method TodoManager := fun s => (Ok (fst s), s).

Definition update (f : TodoManager -> TodoManager) : Method unit :=
  fun s => (Ok tt, (f (fst s), snd s)).

Definition io {A} (m : Fs.IO A) : Method A :=
  fun s => let '(r, w) := m (snd s) in (r, (fst s, w)).

Fixpoint forEach {A} (f : A -> Method unit) (l : list A) : Method unit :=
  match l with
  | [] => ret tt
  | a :: r => let! _ := f a in forEach f r
  end.

(** [array.findIndex(p)]; [None] is [-1]. *)
Fixpoint findIndex {A} (p : A -> bool) (l : list A) : option nat :=
  match l with
  | [] => None
  | a :: r => if p a then Some 0 else option_map S (findIndex p r)
  end.

Definition todoHasId (id : string) (todo : Todo.Todo) : bool :=
  String.eqb (Todo.id todo) id.
Definition categoryHasId (id : string) (cat : Category.Category) : bool :=
  String.eqb (Category.id cat) id.
Definition inCategory (categoryId : string) (todo : Todo.Todo) : bool :=
  String.eqb (Todo.categoryId todo) categoryId.

Definition setTodoCount (n : Z) (c : Category.Category) : Category.Category :=
  {| Category.id := Category.id c; Category.name := Category.name c;
     Category.color := Category.color c; Category.todoCount := n |}.

Definition ensureInitialized : Method unit :=
  let! m := this in
  if negb (isInitialized m) then
    throw (TodoManagerError
             "TodoManager must be initialized before use. Call initialize() first."
             "NOT_INITIALIZED" NoDetails)
  else ret tt.

Definition getTodoById (id : string) : Method (option Todo.Todo) :=
  let! _ := ensureInitialized in
  let! m := this in
  ret (find (todoHasId id) (todos m)).

Definition getAllTodos : Method (list Todo.Todo) :=
  let! _ := ensureInitialized in
  let! m := this in
  ret (todos m).

Definition getTodosByCategory (categoryId : string) : Method (list Todo.Todo) :=
  let! _ := ensureInitialized in
  let! m := this in
  ret (List.filter (inCategory categoryId) (todos m)).

Definition getTodosByStatus (completed : bool) : Method (list Todo.Todo) :=
  let! _ := ensureInitialized in
  let! m := this in
  ret (List.filter (fun todo => Bool.eqb (Todo.completed todo) completed) (todos m)).

Definition getTodosByPriority (priority : Todo.Priority) : Method (list Todo.Todo) :=
  let! _ := ensureInitialized in
  let! m := this in
  ret (List.filter (fun todo => String.eqb (Todo.priority todo) priority) (todos m)).

(** [TodoUtils.isOverdue]; the clock is read only when the todo has a
    due date and is not completed. *)
Definition isOverdue (todo : Todo.Todo) : Method bool :=
  match Todo.dueDate todo with
  | None => ret false
  | Some due =>
      if Todo.completed todo then ret false
      else let! now := io Fs.now in ret (JSDate.lt due now)
  end.

Fixpoint filterM {A} (p : A -> Method bool) (l : list A) : Method (list A) :=
  match l with
  | [] => ret []
  | a :: r =>
      let! keep := p a in
      let! rest := filterM p r in
      ret (if keep then a :: rest else rest)
  end.

Definition getOverdueTodos : Method (list Todo.Todo) :=
  let! _ := ensureInitialized in
  let! m := this in
  filterM isOverdue (todos m).

(** [searchTodos] *)
Definition matchesQuery (lowerQuery : string) (todo : Todo.Todo) : bool :=
  JSString.includes (JSString.toLowerCase (Todo.title todo)) lowerQuery
  || match Todo.description todo with
     | Some d => JSString.nonEmpty d
                 && JSString.includes (JSString.toLowerCase d) lowerQuery
     | None => false
     end.

Definition searchTodos (query : string) : Method (list Todo.Todo) :=
  let! _ := ensureInitialized in
  let lowerQuery := JSString.toLowerCase query in
  let! m := this in
  ret (List.filter (matchesQuery lowerQuery) (todos m)).

Definition getCategoryById (id : string) : Method (option Category.Category) :=
  let! _ := ensureInitialized in
  let! m := this in
  ret (find (categoryHasId id) (categories m)).

Definition getAllCategories : Method (list Category.Category) :=
  let! _ := ensureInitialized in
  let! m := this in
  ret (categories m).

Definition categoryExists (id : string) : Method bool :=
  let! _ := ensureInitialized in
  let! m := this in
  ret (existsb (categoryHasId id) (categories m)).

(** [save] *)
Definition save : Method unit :=
  let! _ := ensureInitialized in
  try_catch
    (let! m := this in
     io (FileManager.save (fileManager m) (todos m) (categories m)))
    (fun e =>
       throw (TodoManagerError ("Failed to save data: " +:+ message e) "SAVE_ERROR"
                               (CausedBy e))).

Definition autoSaveIfEnabled : Method unit :=
  let! m := this in
  if autoSave (config m) then save else ret tt.

(** [updateCategoryTodoCount]: the first category with that id is
    updated in place. *)
Definition updateCategoryTodoCount (categoryId : string) : Method unit :=
  let! m := this in
  match findIndex (categoryHasId categoryId) (categories m) with
  | Some i =>
      let! l := getTodosByCategory categoryId in
      update (fun m => setCategories
                (alter (setTodoCount (Z.of_nat (length l))) i (categories m)) m)
  | None => ret tt
  end.

(** [updateCategoryTodoCounts]: the loop over [this.categories], which
    sets the count of the category at each position. *)
Fixpoint updateCountsFrom (i : nat) (cats : list Category.Category) : Method unit :=
  match cats with
  | [] => ret tt
  | c :: r =>
      let! l := getTodosByCategory (Category.id c) in
      let! _ := update (fun m => setCategories
                  (alter (setTodoCount (Z.of_nat (length l))) i (categories m)) m) in
      updateCountsFrom (S i) r
  end.

Definition updateCategoryTodoCounts : Method unit :=
  let! m := this in
  updateCountsFrom 0 (categories m).

(** *** Todo operations *)

Definition addTodo (input : Todo.TodoInput) : Method Todo.Todo :=
  let! _ := ensureInitialized in
  let errors := Todo.validateTodoInput input in
  if negb (bool_decide (errors = [])) then
    throw (TodoManagerError ("Invalid todo input: " +:+ String.concat ", " errors)
                            "VALIDATION_ERROR" (Messages errors))
  else
    let! found := categoryExists (Todo.in_categoryId input) in
    if negb found then
      throw (TodoManagerError
               ("Category with ID " +:+ Todo.in_categoryId input +:+ " does not exist")
               "CATEGORY_NOT_FOUND" (Fields [("categoryId", Todo.in_categoryId input)]))
    else
      let! uuid := io Fs.uuidv4 in
      let! now1 := io Fs.now in
      let! now2 := (if Todo.in_completed input then io Fs.now else ret now1) in
      let todo := Todo.createTodo uuid now1 now2 input in
      let! _ := update (fun m => setTodos (todos m ++ [todo]) m) in
      let! _ := updateCategoryTodoCount (Todo.in_categoryId input) in
      let! _ := autoSaveIfEnabled in
      ret todo.

Definition validationError (what : string) (v : option string) : Method unit :=
  match v with
  | Some msg =>
      throw (TodoManagerError ("Invalid " +:+ what +:+ ": " +:+ msg) "VALIDATION_ERROR" NoDetails)
  | None => ret tt
  end.

Definition todoNotFound {A} (id : string) : Method A :=
  throw (TodoManagerError ("Todo with ID " +:+ id +:+ " not found") "TODO_NOT_FOUND"
                          (Fields [("id", id)])).

(** [updates.completedAt = value], on the caller's [updates] object. *)
Definition setCompletedAt (value : option Date) (updates : Todo.TodoUpdates)
  : Todo.TodoUpdates :=
  {| Todo.up_title := Todo.up_title updates;
     Todo.up_description := Todo.up_description updates;
     Todo.up_completed := Todo.up_completed updates;
     Todo.up_priority := Todo.up_priority updates;
     Todo.up_categoryId := Todo.up_categoryId updates;
     Todo.up_completedAt := Some value;
     Todo.up_dueDate := Todo.up_dueDate updates;
     Todo.up_id := Todo.up_id updates;
     Todo.up_createdAt := Todo.up_createdAt updates |}.

(** The block "Handle completion status changes". *)
Definition handleCompletion (currentTodo : Todo.Todo) (updates : Todo.TodoUpdates)
  : Method Todo.TodoUpdates :=
  match Todo.up_completed updates with
  | Some c =>
      if negb (Bool.eqb c (Todo.completed currentTodo)) then
        if c then
          let! now := io Fs.now in
          ret (setCompletedAt (Some now) updates)
        else ret (setCompletedAt None updates)
      else ret updates
  | None => ret updates
  end.

Definition updateTodo (id : string) (updates : Todo.TodoUpdates) : Method bool :=
  let! _ := ensureInitialized in
  let! m := this in
  match findIndex (todoHasId id) (todos m) with
  | None => todoNotFound id
  | Some todoIndex =>
      match todos m !! todoIndex with
      | None => todoNotFound id
      | Some currentTodo =>
          let oldCategoryId := Todo.categoryId currentTodo in
          let! _ := validationError "title"
                      (match Todo.up_title updates with
                       | Some t => Todo.validateTitle t
                       | None => None
                       end) in
          let! _ := validationError "description"
                      (match Todo.up_description updates with
                       | Some (Some d) => Todo.validateDescription (Some d)
                       | _ => None
                       end) in
          let! _ := validationError "priority"
                      (match Todo.up_priority updates with
                       | Some p => Todo.validatePriority p
                       | None => None
                       end) in
          let! _ := (match Todo.up_categoryId updates with
                     | Some c =>
                         let! found := categoryExists c in
                         if negb found then
                           throw (TodoManagerError
                                    ("Category with ID " +:+ c +:+ " does not exist")
                                    "CATEGORY_NOT_FOUND" (Fields [("categoryId", c)]))
                         else ret tt
                     | None => ret tt
                     end) in
          let! updates := handleCompletion currentTodo updates in
          let updatedTodo := Todo.applyUpdates currentTodo updates in
          let! _ := update (fun m => setTodos (<[todoIndex := updatedTodo]> (todos m)) m) in
          let! _ := (match Todo.up_categoryId updates with
                     | Some c =>
                         if negb (String.eqb c oldCategoryId) then
                           let! _ := updateCategoryTodoCount oldCategoryId in
                           updateCategoryTodoCount c
                         else ret tt
                     | None => ret tt
                     end) in
          let! _ := autoSaveIfEnabled in
          ret true
      end
  end.

Definition deleteTodo (id : string) : Method bool :=
  let! _ := ensureInitialized in
  let! m := this in
  match findIndex (todoHasId id) (todos m) with
  | None => todoNotFound id
  | Some todoIndex =>
      match todos m !! todoIndex with
      | None => todoNotFound id
      | Some todo =>
          let categoryId := Todo.categoryId todo in
          let! _ := update (fun m => setTodos (delete todoIndex (todos m)) m) in
          let! _ := updateCategoryTodoCount categoryId in
          let! _ := autoSaveIfEnabled in
          ret true
      end
  end.

Definition toggleTodoCompletion (id : string) : Method bool :=
  let! _ := ensureInitialized in
  let! found := getTodoById id in
  match found with
  | None => todoNotFound id
  | Some todo =>
      updateTodo id {| Todo.up_title := None; Todo.up_description := None;
                       Todo.up_completed := Some (negb (Todo.completed todo));
                       Todo.up_priority := None; Todo.up_categoryId := None;
                       Todo.up_completedAt := None; Todo.up_dueDate := None;
     Todo.up_id := None; Todo.up_createdAt := None |}
  end.

(** *** Category operations *)

Definition duplicateName {A} (name : string) : Method A :=
  throw (TodoManagerError ("Category name " +:+ JSString.quote +:+ name +:+ JSString.quote
                           +:+ " already exists")
                          "DUPLICATE_CATEGORY_NAME" (Fields [("name", name)])).

Definition categoryNotFound {A} (id : string) : Method A :=
  throw (TodoManagerError ("Category with ID " +:+ id +:+ " not found")
                          "CATEGORY_NOT_FOUND" (Fields [("id", id)])).

Definition addCategory (input : Category.CategoryInput) : Method Category.Category :=
  let! _ := ensureInitialized in
  let errors := Category.validateCategoryInput input in
  if negb (bool_decide (errors = [])) then
    throw (TodoManagerError ("Invalid category input: " +:+ String.concat ", " errors)
                            "VALIDATION_ERROR" (Messages errors))
  else
    let! m := this in
    if negb (Category.isNameUnique (Category.in_name input) (categories m)) then
      duplicateName (Category.in_name input)
    else
      let! uuid := io Fs.uuidv4 in
      let category := Category.createCategory uuid input in
      let! _ := update (fun m => setCategories (categories m ++ [category]) m) in
      let! _ := autoSaveIfEnabled in
      ret category.

(** [{ ...currentCategory, ...updates, todoCount: currentCategory.todoCount }]:
    the two spreads first, then the [todoCount] property written last. *)
Definition applyCategoryUpdates (currentCategory : Category.Category)
    (updates : Category.CategoryUpdates) : Category.Category :=
  let spread :=
    {| Category.id := default (Category.id currentCategory) (Category.up_id updates);
       Category.name := default (Category.name currentCategory) (Category.up_name updates);
       Category.color := default (Category.color currentCategory) (Category.up_color updates);
       Category.todoCount := default (Category.todoCount currentCategory)
                                     (Category.up_todoCount updates) |} in
  {| Category.id := Category.id spread;
     Category.name := Category.name spread;
     Category.color := Category.color spread;
     Category.todoCount := Category.todoCount currentCategory |}.

Definition updateCategory (id : string) (updates : Category.CategoryUpdates) : Method bool :=
  let! _ := ensureInitialized in
  let! m := this in
  match findIndex (categoryHasId id) (categories m) with
  | None => categoryNotFound id
  | Some categoryIndex =>
      match categories m !! categoryIndex with
      | None => categoryNotFound id
      | Some currentCategory =>
          let! _ := (match Category.up_name updates with
                     | Some name =>
                         let! _ := validationError "category name"
                                     (Category.validateName name) in
                         let otherCategories :=
                           List.filter (fun cat => negb (categoryHasId id cat)) (categories m) in
                         if negb (Category.isNameUnique name otherCategories) then
                           duplicateName name
                         else ret tt
                     | None => ret tt
                     end) in
          let! _ := validationError "category color"
                      (match Category.up_color updates with
                       | Some c => Category.validateColor c
                       | None => None
                       end) in
          let updatedCategory := applyCategoryUpdates currentCategory updates in
          let! _ := update (fun m => setCategories
                      (<[categoryIndex := updatedCategory]> (categories m)) m) in
          let! _ := autoSaveIfEnabled in
          ret true
      end
  end.

(** The block "Handle todos in the category" of [deleteCategory]: the
    todos are moved to the target category when one is given (and
    truthy), deleted otherwise. *)
Definition resolveTodos (moveTosCategoryId : option string)
    (todosInCategory : list Todo.Todo) : Method unit :=
  if (0 <? length todosInCategory)%nat then
    match moveTosCategoryId with
    | Some target =>
        if JSString.nonEmpty target then
          let! found := categoryExists target in
          if negb found then
            throw (TodoManagerError
                     ("Target category with ID " +:+ target +:+ " does not exist")
                     "CATEGORY_NOT_FOUND" (Fields [("categoryId", target)]))
          else
            forEach (fun todo =>
              let! _ := updateTodo (Todo.id todo)
                          {| Todo.up_title := None; Todo.up_description := None;
                             Todo.up_completed := None; Todo.up_priority := None;
                             Todo.up_categoryId := Some target;
                             Todo.up_completedAt := None; Todo.up_dueDate := None;
     Todo.up_id := None; Todo.up_createdAt := None |} in
              ret tt) todosInCategory
        else
          forEach (fun todo => let! _ := deleteTodo (Todo.id todo) in ret tt)
                  todosInCategory
    | None =>
        forEach (fun todo => let! _ := deleteTodo (Todo.id todo) in ret tt)
                todosInCategory
    end
  else ret tt.

(** [deleteCategory(id, moveTosCategoryId?)]; [None] is an argument that
    is left out. *)
Definition deleteCategory (id : string) (moveTosCategoryId : option string) : Method bool :=
  let! _ := ensureInitialized in
  let! m := this in
  match findIndex (categoryHasId id) (categories m) with
  | None => categoryNotFound id
  | Some categoryIndex =>
      let! todosInCategory := getTodosByCategory id in
      let! _ := resolveTodos moveTosCategoryId todosInCategory in
      let! _ := update (fun m => setCategories (delete categoryIndex (categories m)) m) in
      let! _ := autoSaveIfEnabled in
      ret true
  end.

(** *** Utilities *)

Record Statistics : Type := {
  totalTodos : nat;
  completedTodos : nat;
  pendingTodos : nat;
  overdueTodos : nat;
  totalCategories : nat;
  priorityBreakdown : list (Todo.Priority * nat)
}.

Definition getStatistics : Method Statistics :=
  let! _ := ensureInitialized in
  let! m := this in
  let completed := List.filter (fun t => Todo.completed t) (todos m) in
  let pending := List.filter (fun t => negb (Todo.completed t)) (todos m) in
  let! overdue := getOverdueTodos in
  let! high := getTodosByPriority Todo.HIGH in
  let! medium := getTodosByPriority Todo.MEDIUM in
  let! low := getTodosByPriority Todo.LOW in
  let! m := this in
  ret {| totalTodos := length (todos m);
         completedTodos := length completed;
         pendingTodos := length pending;
         overdueTodos := length overdue;
         totalCategories := length (categories m);
         priorityBreakdown := [(Todo.HIGH, length high); (Todo.MEDIUM, length medium);
                               (Todo.LOW, length low)] |}.

(** [createDefaultCategories] (the configuration flag has that name
    here): a failure of [addCategory] is caught and logged. *)
Definition createDefaultCategoriesNow : Method unit :=
  forEach (fun categoryInput =>
             try_catch (let! _ := addCategory categoryInput in ret tt)
                       (fun _ => ret tt))
          Category.DEFAULT_CATEGORIES.

Definition initialize : Method unit :=
  try_catch
    (let! m := this in
     let! data := io (FileManager.load (fileManager m)) in
     let! _ := update (setTodos (fst data)) in
     let! _ := update (setCategories (snd data)) in
     let! m := this in
     let! _ := (if (length (categories m) =? 0)%nat && createDefaultCategories (config m)
                then createDefaultCategoriesNow else ret tt) in
     let! _ := updateCategoryTodoCounts in
     update (setInitialized true))
    (fun e =>
       throw (TodoManagerError ("Failed to initialize TodoManager: " +:+ message e)
                               "INITIALIZATION_ERROR" (CausedBy e))).

End TodoManager.

(** * Sample worlds and records *)

Module Sample.

Import TodoManager.

(** An empty file system, a clock that starts on 2023-11-14 and advances
    by a millisecond per reading, identifiers [id-0], [id-1], ... *)
Definition emptyWorld : World :=
  {| files := ∅; observed := [];
     clock := fun n => (1700000000000 + Z.of_nat n)%Z; ticks := 0;
     uuidSource := fun n => "id-" +:+ pretty n; drawn := 0 |}.

Definition withFiles (fs : gmap string FileContent) : World :=
  {| files := fs; observed := [];
     clock := clock emptyWorld; ticks := 0;
     uuidSource := uuidSource emptyWorld; drawn := 0 |}.

(** [new TodoManager()] *)
Definition defaultManager : TodoManager :=
  TodoManager.new {| cfg_fileManager := None; cfg_autoSave := None;
                     cfg_createDefaultCategories := None |}.

(** A coordinator that keeps its data in memory only. *)
Definition memoryManager : TodoManager :=
  TodoManager.new {| cfg_fileManager := None; cfg_autoSave := Some false;
                     cfg_createDefaultCategories := None |}.

Definition storeConfig (autoBackup : bool) (maxBackups : Z)
  : FileManager.FileManagerConfig :=
  FileManager.new {| FileManager.dataPath := "./data/todos.json";
                     FileManager.backupPath := Some "./data/backups";
                     FileManager.autoBackup := autoBackup;
                     FileManager.maxBackups := Some maxBackups |}.

Definition work : Category.Category :=
  {| Category.id := "c1"; Category.name := "Work"; Category.color := "#2ecc71";
     Category.todoCount := 0 |}.

Definition home : Category.Category :=
  {| Category.id := "c2"; Category.name := "Home"; Category.color := "#3498db";
     Category.todoCount := 0 |}.

Definition buyMilk : Todo.Todo :=
  {| Todo.id := "t1"; Todo.title := "Buy Milk"; Todo.description := None;
     Todo.completed := false; Todo.priority := Todo.HIGH; Todo.categoryId := "c1";
     Todo.createdAt := DateAt 1700000000000; Todo.completedAt := None;
     Todo.dueDate := None |}.

(** A store whose data file is damaged and that has no backup. *)
Definition damagedWorld : World :=
  withFiles {[ "./data/todos.json" := Text "{ todos: " ]}.

(** A store with a data file from an earlier run. *)
Definition usedWorld : World :=
  withFiles {[ "./data/todos.json" :=
                 Json (FileManager.envelope [] [work] "2023-11-14T22:13:20.000Z") ]}.

(** A store whose data file is damaged, with two backups. *)
Definition recoverableWorld : World :=
  withFiles
    (<[ "./data/backups/todos-backup-2023-11-14T22-13-20-000Z.json" :=
          Json (JSObject [("todos", JSArray []); ("categories", JSArray []);
                          ("version", JSString "1.0.0")]) ]>
     (<[ "./data/backups/todos-backup-2023-11-15T08-00-00-000Z.json" :=
          Json (JSObject [("todos", JSArray []);
                          ("categories", JSArray [Category.toJS work]);
                          ("version", JSString "1.0.0")]) ]>
      {[ "./data/todos.json" := Text "{ todos: " ]})).

Definition workWithOne : Category.Category :=
  {| Category.id := "c1"; Category.name := "Work"; Category.color := "#2ecc71";
     Category.todoCount := 1 |}.

Definition initialized (ts : list Todo.Todo) (cs : list Category.Category) : TodoManager :=
  setInitialized true (setCategories cs (setTodos ts memoryManager)).

(** An initialized coordinator with two categories and one todo. *)
Definition busy : TodoManager := initialized [buyMilk] [workWithOne; home].

(** [{ name: 'work', color: '#fff' }] *)
Definition lowerWork : Category.CategoryInput :=
  {| Category.in_name := "work"; Category.in_color := "#fff";
     Category.in_id := None; Category.in_todoCount := None |}.

(** [{ name: 'Work', color: '#2ecc71' }] *)
Definition upperWork : Category.CategoryInput :=
  {| Category.in_name := "Work"; Category.in_color := "#2ecc71";
     Category.in_id := None; Category.in_todoCount := None |}.

(** [{ name: 'work', color: 'green' }]: the colour is no hex code. *)
Definition greenWork : Category.CategoryInput :=
  {| Category.in_name := "work"; Category.in_color := "green";
     Category.in_id := None; Category.in_todoCount := None |}.

(** [{ name }], the payload of a renaming. *)
Definition renameTo (name : string) : Category.CategoryUpdates :=
  {| Category.up_name := Some name; Category.up_color := None;
     Category.up_todoCount := None; Category.up_id := None |}.

(** [{ name: 'Errands', color: 'fff' }] *)
Definition errands : Category.CategoryInput :=
  {| Category.in_name := "Errands"; Category.in_color := "fff";
     Category.in_id := None; Category.in_todoCount := None |}.

(** [{ title: 'Post office', completed: false, priority: 'low',
    categoryId: 'id-0' }] *)
Definition postOffice : Todo.TodoInput :=
  {| Todo.in_title := "Post office"; Todo.in_description := None;
     Todo.in_completed := false; Todo.in_priority := Todo.LOW;
     Todo.in_categoryId := "id-0"; Todo.in_dueDate := None;
     Todo.in_id := None; Todo.in_createdAt := None; Todo.in_completedAt := None |}.

(** [{ name: 'Errands', color: '#fff', todoCount: 5 }], an object
    assignable to [CategoryInput]. *)
Definition countedErrands : Category.CategoryInput :=
  {| Category.in_name := "Errands"; Category.in_color := "#fff";
     Category.in_id := None; Category.in_todoCount := Some 5%Z |}.

(** [{ title: 'Call Ann', completed: false, priority: 'low', categoryId: 'c1' }] *)
Definition callAnn : Todo.TodoInput :=
  {| Todo.in_title := "Call Ann"; Todo.in_description := None;
     Todo.in_completed := false; Todo.in_priority := Todo.LOW;
     Todo.in_categoryId := "c1"; Todo.in_dueDate := None;
     Todo.in_id := None; Todo.in_createdAt := None; Todo.in_completedAt := None |}.



(** [{ id: 't9' }], an object assignable to the payload type of
    [updateTodo]. *)
Definition renumber : Todo.TodoUpdates :=
  {| Todo.up_title := None; Todo.up_description := None; Todo.up_completed := None;
     Todo.up_priority := None; Todo.up_categoryId := None;
     Todo.up_completedAt := None; Todo.up_dueDate := None;
     Todo.up_id := Some "t9"; Todo.up_createdAt := None |}.


End Sample.


(** * Notions used in the statements *)

(** [q] occurs in [s]. *)
Definition substring (q s : string) : Prop :=
  exists pre post : string, s = pre +:+ q +:+ post.

(** What [JSON.stringify(value, dateSerializer)] writes for [value]
    ([None]: nothing, the value is [undefined]): a date is written as
    the result of its [toJSON] method. *)
Fixpoint written (value : JSValue) : option JSValue :=
  match value with
  | JSUndefined => None
  | JSDate d => Some (JSON.toJSON (JSDate d))
  | JSArray elems => Some (JSArray (map (fun x => default JSNull (written x)) elems))
  | JSObject props =>
      Some (JSObject (omap (fun o => o)
                           (map (fun '(k, x) => option_map (pair k) (written x)) props)))
  | _ => Some value
  end.

(** Running [m] leaves the file at [path] as it was in every state of
    the file system that it makes visible. *)
Definition keeps (path : string) {A} (m : Fs.IO A) : Prop :=
  forall w, exists states,
    observed (snd (m w)) = (states ++ observed w)%list
    /\ Forall (fun fs : gmap string FileContent => fs !! path = files w !! path) states
    /\ files (snd (m w)) !! path = files w !! path.

(** The backup files of the directory [dir], most recent first. *)
Definition backupsIn (dir : string) (w : World) : list string :=
  FileManager.todoBackups (Fs.entries dir (files w)).

(** The name of the backup file made when the clock reads [t]. *)
Definition backupNameAt (t : Z) : string :=
  FileManager.backupFileName
    (JSString.replaceColonDot (default "" (JSDate.toISOString (DateAt t)))).

(** The world after [n] more calls of [createBackup]. *)
Fixpoint afterBackups (config : FileManager.FileManagerConfig) (n : nat) (w : World)
  : World :=
  match n with
  | O => w
  | S k => snd (FileManager.createBackup config (afterBackups config k w))
  end.

(** The names of the backup files made by [n] successive calls of
    [createBackup] that start in [w]: each call reads the clock once. *)
Definition backupNames (n : nat) (w : World) : list string :=
  map (fun i => backupNameAt (clock w (ticks w + i))) (seq 0 n).

(** The number of todos whose [categoryId] is [categoryId]. *)
Definition countIn (categoryId : string) (todos : list Todo.Todo) : Z :=
  Z.of_nat (length (List.filter (TodoManager.inCategory categoryId) todos)).


(** Every category's [todoCount] is the number of its todos. *)
Definition countsAgree (m : TodoManager.TodoManager) : Prop :=
  forall c, c ∈ TodoManager.categories m ->
            Category.todoCount c = countIn (Category.id c) (TodoManager.todos m).




(** What [updateCategoryTodoCount] does to the coordinator. *)
Definition recount (categoryId : string) (m : TodoManager.TodoManager)
  : TodoManager.TodoManager :=
  match TodoManager.findIndex (TodoManager.categoryHasId categoryId)
                              (TodoManager.categories m) with
  | Some i =>
      TodoManager.setCategories
        (alter (TodoManager.setTodoCount (countIn categoryId (TodoManager.todos m))) i
               (TodoManager.categories m)) m
  | None => m
  end.


(** The mutating operations of the coordinator. *)
Inductive Operation : Type :=
| AddTodo (input : Todo.TodoInput)
| UpdateTodo (id : string) (updates : Todo.TodoUpdates)
| DeleteTodo (id : string)
| ToggleTodoCompletion (id : string)
| AddCategory (input : Category.CategoryInput)
| UpdateCategory (id : string) (updates : Category.CategoryUpdates)
| DeleteCategory (id : string) (moveTosCategoryId : option string).

Definition perform (op : Operation) : TodoManager.Method unit :=
  match op with
  | AddTodo input => bind (TodoManager.addTodo input) (fun _ => ret tt)
  | UpdateTodo id updates => bind (TodoManager.updateTodo id updates) (fun _ => ret tt)
  | DeleteTodo id => bind (TodoManager.deleteTodo id) (fun _ => ret tt)
  | ToggleTodoCompletion id => bind (TodoManager.toggleTodoCompletion id) (fun _ => ret tt)
  | AddCategory input => bind (TodoManager.addCategory input) (fun _ => ret tt)
  | UpdateCategory id updates =>
      bind (TodoManager.updateCategory id updates) (fun _ => ret tt)
  | DeleteCategory id target => bind (TodoManager.deleteCategory id target) (fun _ => ret tt)
  end.

(** What [updateTodo] does to the counts after it has stored the updated
    todo: when the payload names a category other than the old one, the
    old and the new category are recounted. *)
Definition recountMoved (oldCategoryId : string) (target : option string)
    (m : TodoManager.TodoManager) : TodoManager.TodoManager :=
  match target with
  | Some c => if negb (String.eqb c oldCategoryId)
              then recount c (recount oldCategoryId m) else m
  | None => m
  end.

(** The payload of [updateTodo] after its completion block, for the
    current todo [cur]. *)
Definition completionHandled (cur : Todo.Todo) (updates updates' : Todo.TodoUpdates) : Prop :=
  match Todo.up_completed updates with
  | Some c =>
      if negb (Bool.eqb c (Todo.completed cur)) then
        if c then exists now, updates' = TodoManager.setCompletedAt (Some (DateAt now)) updates
        else updates' = TodoManager.setCompletedAt None updates
      else updates' = updates
  | None => updates' = updates
  end.

(** The payload passes the checks that [updateTodo] makes before it
    changes anything: the title, the description and the priority it
    carries are valid, and the category it names exists. *)
Definition passesChecks (m : TodoManager.TodoManager) (updates : Todo.TodoUpdates) : Prop :=
  (forall title, Todo.up_title updates = Some title -> Todo.validateTitle title = None)
  /\ (forall d, Todo.up_description updates = Some (Some d) ->
                Todo.validateDescription (Some d) = None)
  /\ (forall p, Todo.up_priority updates = Some p -> Todo.validatePriority p = None)
  /\ (forall c, Todo.up_categoryId updates = Some c ->
                existsb (TodoManager.categoryHasId c) (TodoManager.categories m) = true).

(** An error that is a failed save. *)
Definition saveFailed {A} (r : Result A) : Prop :=
  exists e, r = Throw e /\ code e = Some "SAVE_ERROR".





(** * Notions used in the further properties *)

(** The error of [ensureInitialized]. *)
Definition notInitialized : Error :=
  TodoManagerError "TodoManager must be initialized before use. Call initialize() first."
                   "NOT_INITIALIZED" NoDetails.

(** The method refuses to run: it throws [notInitialized] and leaves the
    coordinator and the world as they are. *)
Definition refused {A} (x : TodoManager.Method A) (s : TodoManager.TodoManager * World)
  : Prop :=
  x s = (Throw notInitialized, s).

(** [{ title: '   ', completed: false, priority: 'urgent', categoryId: 'c1',
    dueDate: new Date(NaN) }] *)
Definition blankUrgent : Todo.TodoInput :=
  {| Todo.in_title := "   "; Todo.in_description := None;
     Todo.in_completed := false; Todo.in_priority := "urgent";
     Todo.in_categoryId := "c1"; Todo.in_dueDate := Some InvalidDate;
     Todo.in_id := None; Todo.in_createdAt := None; Todo.in_completedAt := None |}.

(** What [toggleTodoCompletion] stores for the todo [t] when the world
    is [w]: a completed todo is marked incomplete, another one is marked
    completed at the next reading of the clock. *)
Definition toggled (t : Todo.Todo) (w : World) : Todo.Todo :=
  if Todo.completed t then TodoUtils.markIncomplete t
  else match fst (TodoUtils.markCompleted t w) with
       | Ok t' => t'
       | Throw _ => t
       end.

(** The world after [n] more readings of the clock. *)
Definition later (n : nat) (w : World) : World :=
  {| files := files w; observed := observed w; clock := clock w;
     ticks := n + ticks w; uuidSource := uuidSource w; drawn := drawn w |}.

(** [isOverdue] reads the clock for the todos that are not completed and
    have a due date. *)
Definition dated (t : Todo.Todo) : bool :=
  negb (Todo.completed t) && bool_decide (is_Some (Todo.dueDate t)).

(** The todo is pending and due before the [n]-th reading of the clock
    of [w], for some [n] from [first] up to (not including) [last]. *)
Definition overdueBetween (w : World) (first last : nat) (t : Todo.Todo) : Prop :=
  Todo.completed t = false
  /\ exists due n, Todo.dueDate t = Some (DateAt due)
                   /\ first <= n < last
                   /\ (due < clock w n)%Z.

(** [new TodoManager()] after a successful [initialize] on an empty
    store. *)
Definition defaultInitialized : TodoManager.TodoManager :=
  TodoManager.setInitialized true Sample.defaultManager.

(** The payload [{ categoryId: target }] that [deleteCategory] hands to
    [updateTodo], and the todo it makes of [t]. *)
Definition moveTo (target : string) : Todo.TodoUpdates :=
  {| Todo.up_title := None; Todo.up_description := None;
     Todo.up_completed := None; Todo.up_priority := None;
     Todo.up_categoryId := Some target;
     Todo.up_completedAt := None; Todo.up_dueDate := None;
     Todo.up_id := None; Todo.up_createdAt := None |}.

Definition moved (target : string) (t : Todo.Todo) : Todo.Todo :=
  Todo.applyUpdates t (moveTo target).

(** The move-to argument of [deleteCategory] is left out or falsy. *)
Definition noTarget (moveTosCategoryId : option string) : Prop :=
  moveTosCategoryId = None \/ moveTosCategoryId = Some "".

(** A colour whose three components are numbers from 0 to 255. *)
Definition inRange (rgb : CategoryUtils.RGB) : Prop :=
  exists r g b,
    rgb = {| CategoryUtils.r := Some r; CategoryUtils.g := Some g; CategoryUtils.b := Some b |}
    /\ (0 <= r <= 255)%Z /\ (0 <= g <= 255)%Z /\ (0 <= b <= 255)%Z.

(** A todo that [validateTodo] accepts in its in-memory form: the
    required text fields are not empty. *)
Definition storableTodo (t : Todo.Todo) : Prop :=
  Todo.id t <> "" /\ Todo.title t <> "" /\ Todo.priority t <> ""
  /\ Todo.categoryId t <> "".

(** A category that [validateCategory] accepts. *)
Definition storableCategory (c : Category.Category) : Prop :=
  Category.id c <> "" /\ Category.name c <> "" /\ Category.color c <> "".

(** [p] holds for the [n] integers from [z] on. *)
Fixpoint allFrom (n : nat) (z : Z) (p : Z -> bool) : bool :=
  match n with
  | O => true
  | S k => p z && allFrom k (z + 1) p
  end.

(** For a day [doe] of a 400-year era: the year of the era, the month
    and the day that [civilFromDays] computes are in range, and
    [daysFromCivil] computes [doe] from them; the days of January and
    February of the last year of the era are the last 60 days. *)
Definition eraDayOk (doe : Z) : bool :=
  let yoe := ((doe - doe / 1460 + doe / 36524 - doe / 146096) / 365)%Z in
  let doy := (doe - (365 * yoe + yoe / 4 - yoe / 100))%Z in
  let mp := ((5 * doy + 2) / 153)%Z in
  let d := (doy - (153 * mp + 2) / 5 + 1)%Z in
  let m := (if (mp <? 10)%Z then mp + 3 else mp - 9)%Z in
  let mp' := (if (m >? 2)%Z then m - 3 else m + 9)%Z in
  ((0 <=? yoe) && (yoe <=? 399) && (1 <=? m) && (m <=? 12) && (1 <=? d) && (d <=? 31)
   && (yoe * 365 + yoe / 4 - yoe / 100 + ((153 * mp' + 2) / 5 + d - 1) =? doe)
   && (if doe <? 146037 then yoe + (if m <=? 2 then 1 else 0) <=? 399
       else (yoe =? 399) && (m <=? 2)))%Z.

(** The time values of the years 0000 to 9999. *)
Definition fourDigitYear (ms : Z) : Prop :=
  (-62167219200000 <= ms <= 253402300799999)%Z.

(** * Properties *)

(** ** Strings *)

Section StringFacts.

Import JSString.

Lemma app_String (a : ascii) (s t : string) : String a s +:+ t = String a (s +:+ t).
Proof. reflexivity. Qed.

Lemma app_empty (t : string) : "" +:+ t = t.
Proof. reflexivity. Qed.

Lemma string_length_app (s t : string) :
  String.length (s +:+ t) = String.length s + String.length t.
Proof.
  induction s as [|a s IH]; [reflexivity|].
  rewrite app_String. cbn [String.length]. now rewrite IH.
Qed.

Lemma append_assoc (s t u : string) : (s +:+ t) +:+ u = s +:+ (t +:+ u).
Proof.
  induction s as [|a s IH]; [reflexivity|].
  rewrite !app_String. now rewrite IH.
Qed.

Lemma startsWith_spec (s p : string) :
  startsWith s p = true <-> exists r, s = p +:+ r.
Proof.
  revert s; induction p as [|b q IH]; intros s; simpl.
  - split; [intros _; now exists s | now destruct s].
  - destruct s as [|a r]; simpl.
    + split; [discriminate | intros [x Hx]; discriminate].
    + destruct (Ascii.eqb_spec a b) as [->|Hne].
      * rewrite IH. split; intros [x Hx]; exists x; rewrite app_String in *; congruence.
      * split; [discriminate | intros [x Hx]; rewrite app_String in Hx; congruence].
Qed.

Lemma rev_app_append (s acc : string) :
  String.rev_app s acc = String.rev_app s "" +:+ acc.
Proof.
  revert acc. induction s as [|a s IH]; intros acc; [reflexivity|].
  cbn [String.rev_app]. rewrite (IH (String a acc)), (IH (String a "")).
  now rewrite append_assoc.
Qed.

Lemma rev_append (s t : string) : String.rev (s +:+ t) = String.rev t +:+ String.rev s.
Proof.
  unfold String.rev. induction s as [|a s IH].
  - rewrite app_empty. cbn [String.rev_app]. generalize (String.rev_app t "").
    intros u. induction u as [|b u IHu]; [reflexivity|].
    rewrite app_String. now rewrite <- IHu.
  - rewrite app_String. cbn [String.rev_app].
    rewrite (rev_app_append (s +:+ t)), IH, (rev_app_append s (String a "")).
    now rewrite append_assoc.
Qed.

Lemma endsWith_append (r p : string) : endsWith (r +:+ p) p = true.
Proof.
  unfold endsWith. rewrite rev_append. apply startsWith_spec. eauto.
Qed.

Lemma includes_spec (s q : string) :
  includes s q = true <-> substring q s.
Proof.
  unfold substring. induction s as [|a r IH]; cbn [includes].
  - rewrite orb_false_r, startsWith_spec. split.
    + intros [x Hx]. now exists "", x.
    + intros (pre & post & H). destruct pre; [now exists post|discriminate].
  - rewrite orb_true_iff, startsWith_spec, IH. split.
    + intros [[x Hx] | (pre & post & H)].
      * now exists "", x.
      * exists (String a pre), post. rewrite app_String. now rewrite H.
    + intros (pre & post & H). destruct pre as [|c pre].
      * left. now exists post.
      * right. exists pre, post. rewrite app_String in H. congruence.
Qed.

Lemma includes_empty (s : string) : includes s "" = true.
Proof. destruct s; reflexivity. Qed.

Lemma stripPrefix_spec (p s r : string) :
  Fs.stripPrefix p s = Some r <-> s = p +:+ r.
Proof.
  revert s; induction p as [|a p IH]; intros s; simpl.
  - rewrite app_empty. split; congruence.
  - destruct s as [|b s]; [split; discriminate|].
    rewrite app_String.
    destruct (Ascii.eqb_spec a b) as [->|Hne].
    + rewrite IH. split; congruence.
    + split; [discriminate | congruence].
Qed.

End StringFacts.

(** ** Lists *)

Lemma List_filter_sublist {A} (p : A -> bool) (l : list A) :
sublist (List.filter p l) l.
Proof.
induction l as [|a l IH]; simpl; [constructor|].
destruct (p a); now constructor.
Qed.

Lemma NoDup_omap_inj {A B} (f : A -> option B) (l : list A) :
  (forall x y z, x ∈ l -> y ∈ l -> f x = Some z -> f y = Some z -> x = y) ->
  NoDup l -> NoDup (omap f l).
Proof.
  intros Hinj Hl. induction Hl as [|a l Ha Hl IH]; [constructor|].
  assert (IH' : NoDup (omap f l)).
  { apply IH. intros x y z Hx Hy. apply Hinj; now right. }
  cbn. destruct (f a) as [b|] eqn:Hb; [|exact IH'].
  constructor; [|exact IH'].
  rewrite list_elem_of_omap. intros (x & Hx & Hfx).
  assert (x = a) by (eapply Hinj; eauto; [now right | left]).
  now subst x.
Qed.

(** ** The monad *)

Lemma bind_ok {S A B} (m : M S A) (k : A -> M S B) s a s' :
m s = (Ok a, s') -> bind m k s = k a s'.
Proof. unfold bind. now intros ->. Qed.

Lemma bind_throw {S A B} (m : M S A) (k : A -> M S B) s e s' :
m s = (Throw e, s') -> bind m k s = (Throw e, s').
Proof. unfold bind. now intros ->. Qed.

Lemma ensureInitialized_ok (m : TodoManager.TodoManager) (w : World) :
TodoManager.isInitialized m = true ->
TodoManager.ensureInitialized (m, w) = (Ok tt, (m, w)).
Proof.
intros H. unfold TodoManager.ensureInitialized, bind, TodoManager.this, ret; simpl.
now rewrite H.
Qed.

Lemma ensureInitialized_throw (m : TodoManager.TodoManager) (w : World) :
TodoManager.isInitialized m = false ->
exists e, TodoManager.ensureInitialized (m, w) = (Throw e, (m, w))
          /\ code e = Some "NOT_INITIALIZED".
Proof.
intros H. unfold TodoManager.ensureInitialized, bind, TodoManager.this, throw; simpl.
rewrite H; simpl. eauto.
Qed.

(** ** C4: search *)

Section Search.

Import TodoManager.

Lemma matchesQuery_spec (q : string) (t : Todo.Todo) :
  matchesQuery (JSString.toLowerCase q) t = true <->
  substring (JSString.toLowerCase q) (JSString.toLowerCase (Todo.title t))
  \/ exists d, Todo.description t = Some d
               /\ substring (JSString.toLowerCase q) (JSString.toLowerCase d).
Proof.
  unfold matchesQuery. rewrite orb_true_iff, includes_spec.
  split; intros [H | H]; auto.
  - destruct (Todo.description t) as [d|]; [|discriminate].
    apply andb_true_iff in H as [_ H]. right. exists d. now rewrite <- includes_spec.
  - destruct H as (d & -> & H). destruct d as [|c d].
    + left. destruct H as (pre & post & H). simpl in H.
      destruct pre; [|discriminate]. rewrite app_empty in H.
      destruct (JSString.toLowerCase q); [|discriminate].
      apply includes_spec, includes_empty.
    + right. cbn [JSString.nonEmpty andb]. now apply includes_spec.
Qed.

(** C4 (as amended): on an initialized coordinator, [searchTodos q]
    returns, in their stored order, exactly the todos whose title or
    description contains [q] when both are compared in lower case, and
    changes nothing. *)
Theorem searchTodos_ignores_case (q : string) (m : TodoManager) (w : World) :
  isInitialized m = true ->
  exists found,
    searchTodos q (m, w) = (Ok found, (m, w))
    /\ sublist found (todos m)
    /\ forall t, In t found <->
         In t (todos m)
         /\ (substring (JSString.toLowerCase q) (JSString.toLowerCase (Todo.title t))
             \/ exists d, Todo.description t = Some d
                  /\ substring (JSString.toLowerCase q) (JSString.toLowerCase d)).
Proof.
  intros Hinit.
  exists (List.filter (matchesQuery (JSString.toLowerCase q)) (todos m)).
  split; [|split].
  - unfold searchTodos. rewrite (bind_ok _ _ _ _ _ (ensureInitialized_ok m w Hinit)).
    reflexivity.
  - apply List_filter_sublist.
  - intros t. now rewrite filter_In, matchesQuery_spec.
Qed.

Lemma searchTodos_ignores_case_witness :
  exists found,
    searchTodos "milk" (Sample.initialized [Sample.buyMilk] [Sample.work], Sample.emptyWorld)
    = (Ok found, (Sample.initialized [Sample.buyMilk] [Sample.work], Sample.emptyWorld))
    /\ sublist found [Sample.buyMilk]
    /\ forall t, In t found <->
         In t [Sample.buyMilk]
         /\ (substring (JSString.toLowerCase "milk") (JSString.toLowerCase (Todo.title t))
             \/ exists d, Todo.description t = Some d
                  /\ substring (JSString.toLowerCase "milk") (JSString.toLowerCase d)).
Proof.
  apply (searchTodos_ignores_case "milk"
           (Sample.initialized [Sample.buyMilk] [Sample.work]) Sample.emptyWorld).
  reflexivity.
Defined.

(** C4 (as stated) fails: the query [milk] finds the todo titled
    [Buy Milk], whose title does not contain [milk] and which has no
    description. *)
Lemma searchTodos_not_case_sensitive :
  fst (searchTodos "milk"
         (Sample.initialized [Sample.buyMilk] [Sample.work], Sample.emptyWorld))
  = Ok [Sample.buyMilk]
  /\ ~ substring "milk" (Todo.title Sample.buyMilk)
  /\ Todo.description Sample.buyMilk = None.
Proof.
  split; [reflexivity|split; [|reflexivity]].
  rewrite <- includes_spec. simpl. discriminate.
Qed.

End Search.

(** ** C1: first run *)

Section FirstRun.

Import TodoManager.

Lemma load_no_file (config : FileManager.FileManagerConfig) (w : World) :
  files w !! FileManager.dataPath config = None ->
  FileManager.load config w = (Ok FileManager.createEmptyData, w).
Proof.
  intros H.
  unfold FileManager.load, try_catch, FileManager.loadPrimary, bind,
    FileManager.fileExists, Fs.access.
  rewrite H. rewrite andb_false_r. reflexivity.
Qed.

Lemma addCategory_not_initialized (input : Category.CategoryInput)
    (m : TodoManager) (w : World) :
  isInitialized m = false ->
  exists e, addCategory input (m, w) = (Throw e, (m, w))
            /\ code e = Some "NOT_INITIALIZED".
Proof.
  intros H. destruct (ensureInitialized_throw m w H) as (e & He & Hc).
  exists e. split; [|exact Hc].
  unfold addCategory. now rewrite (bind_throw _ _ _ _ _ He).
Qed.

Lemma createDefaultCategoriesNow_not_initialized (m : TodoManager) (w : World) :
  isInitialized m = false ->
  createDefaultCategoriesNow (m, w) = (Ok tt, (m, w)).
Proof.
  intros H. unfold createDefaultCategoriesNow.
  induction Category.DEFAULT_CATEGORIES as [|input l IH]; [reflexivity|].
  cbn [forEach]. unfold bind at 1, try_catch.
  destruct (addCategory_not_initialized input m w H) as (e & He & _).
  unfold bind at 1. rewrite He. exact IH.
Qed.

(** C1 (the code at the failing input): a coordinator that is
    initialized on a store without a data file, with the creation of
    default categories enabled, ends up initialized with no category at
    all and no todo.  Every [addCategory] call made by
    [createDefaultCategories] is rejected with NOT_INITIALIZED, because
    [isInitialized] is set only afterwards, and the rejection is caught
    and logged. *)
Theorem initialize_creates_no_default_categories (m : TodoManager) (w : World) :
  isInitialized m = false ->
  createDefaultCategories (config m) = true ->
  files w !! FileManager.dataPath (fileManager m) = None ->
  exists m',
    initialize (m, w) = (Ok tt, (m', w))
    /\ isInitialized m' = true
    /\ categories m' = []
    /\ exists stats, getStatistics (m', w) = (Ok stats, (m', w))
                     /\ totalTodos stats = 0
                     /\ totalCategories stats = 0.
Proof.
  intros Hinit Hdef Hfile.
  exists (setInitialized true (setCategories [] (setTodos [] m))).
  assert (Hinit' : isInitialized (setCategories [] (setTodos [] m)) = false) by exact Hinit.
  split; [|split; [reflexivity|split; [reflexivity|]]].
  - unfold initialize, try_catch.
    unfold bind at 1. cbn [this fst].
    unfold bind at 1. unfold io at 1. cbn [snd fst].
    rewrite (load_no_file _ _ Hfile).
    unfold bind at 1. cbn [update fst snd FileManager.createEmptyData].
    unfold bind at 1. cbn [update fst snd].
    unfold bind at 1. cbn [this fst snd].
    unfold bind at 1.
    cbn [categories setCategories length Nat.eqb andb config setTodos].
    rewrite Hdef.
    rewrite (createDefaultCategoriesNow_not_initialized _ _ Hinit').
    reflexivity.
  - cbn. eexists. split; [reflexivity|]. split; reflexivity.
Qed.

Lemma initialize_creates_no_default_categories_witness :
  exists m',
    initialize (Sample.defaultManager, Sample.emptyWorld) = (Ok tt, (m', Sample.emptyWorld))
    /\ isInitialized m' = true
    /\ categories m' = []
    /\ exists stats, getStatistics (m', Sample.emptyWorld) = (Ok stats, (m', Sample.emptyWorld))
                     /\ totalTodos stats = 0
                     /\ totalCategories stats = 0.
Proof.
  apply (initialize_creates_no_default_categories Sample.defaultManager Sample.emptyWorld);
    reflexivity.
Defined.

End FirstRun.

(** ** C2: save followed by load *)

Section RoundTrip.

(** [JSON.stringify] calls the [toJSON] method of a [Date] before it
    calls the replacer: [dateSerializer] receives the ISO string (or
    [null]), its test [value instanceof Date] fails, and what is written
    is that string, not the tagged wrapper. *)
Lemma dateSerializer_never_sees_Date (n : nat) (d : Date) :
  JSON.SerializeJSONProperty (S n) FileManager.dateSerializer (JSDate d)
  = Ok (Some (JSON.toJSON (JSDate d)))
  /\ (JSON.toJSON (JSDate d) = JSNull \/ exists s, JSON.toJSON (JSDate d) = JSString s).
Proof.
  cbn [JSON.SerializeJSONProperty]. unfold JSON.toJSON.
  destruct (JSDate.toISOString d) as [s|]; split; cbn; eauto.
Qed.

Lemma mapResult_ok {A B} (f : A -> Result B) (g : A -> B) (l : list A) :
  Forall (fun a => f a = Ok (g a)) l -> JSON.mapResult f l = Ok (map g l).
Proof.
  induction 1 as [|a l Ha Hl IH]; cbn; [reflexivity|]. now rewrite Ha, IH.
Qed.

(** With enough fuel for the nesting of the value, serialisation
    succeeds and writes [written]. *)
Lemma SerializeJSONProperty_written (fuel : nat) (value : JSValue) :
  JS.depth value < fuel ->
  JSON.SerializeJSONProperty fuel FileManager.dateSerializer value = Ok (written value).
Proof.
  revert value. induction fuel as [|fuel IH]; intros value Hd; [lia|].
  destruct value as [| |b|n|s|d|elems|props]; try reflexivity.
  - cbn [JSON.SerializeJSONProperty written]. unfold JSON.toJSON.
    now destruct (JSDate.toISOString d).
  - cbn [JSON.SerializeJSONProperty JSON.toJSON FileManager.dateSerializer rbind written].
    rewrite (mapResult_ok _ (fun x => default JSNull (written x))); [reflexivity|].
    cbn [JS.depth] in Hd.
    assert (Hall : Forall (fun k => k <= fuel - 1) (map JS.depth elems))
      by (apply list_max_le; lia).
    rewrite Forall_map in Hall. eapply Forall_impl; [exact Hall|].
    cbn. intros x Hx. rewrite IH by lia. reflexivity.
  - cbn [JSON.SerializeJSONProperty JSON.toJSON FileManager.dateSerializer rbind written].
    rewrite (mapResult_ok _ (fun '(k, x) => option_map (pair k) (written x)));
      [reflexivity|].
    cbn [JS.depth] in Hd.
    assert (Hall : Forall (fun k => k <= fuel - 1)
                          (map (fun '(_, x) => JS.depth x) props))
      by (apply list_max_le; lia).
    rewrite Forall_map in Hall. eapply Forall_impl; [exact Hall|].
    cbn. intros [k x] Hx. rewrite IH by lia. reflexivity.
Qed.

(** [JSON.stringify] never exhausts its fuel. *)
Lemma stringify_written (value : JSValue) :
  JSON.stringify value FileManager.dateSerializer = Ok (written value).
Proof.
  unfold JSON.stringify. apply SerializeJSONProperty_written. lia.
Qed.

Lemma validateTodo_needs_Date (todo : JSValue) :
  JS.instanceofDate (JS.get todo "createdAt") = false ->
  exists e, FileManager.validateTodo todo = Throw e.
Proof.
  intros H. unfold FileManager.validateTodo. rewrite H.
  cbn [negb]. rewrite orb_true_r.
  repeat match goal with
         | |- context [if ?c then _ else _] => destruct c; [eauto|]
         end.
  eauto.
Qed.

(** A [save] that returns normally has serialised the envelope and left
    the text at the path of the data file. *)
Lemma save_content (config : FileManager.FileManagerConfig)
    (todos : list Todo.Todo) (categories : list Category.Category) (w : World) :
  fst (FileManager.save config todos categories w) = Ok tt ->
  exists lastModified text,
    JSON.stringify (FileManager.envelope todos categories lastModified)
                   FileManager.dateSerializer = Ok (Some text)
    /\ Fs.validPath (FileManager.dataPath config) = true
    /\ files (snd (FileManager.save config todos categories w))
         !! FileManager.dataPath config = Some (Json text).
Proof.
  intros Hok.
  destruct (FileManager.save config todos categories w) as [r w'] eqn:Hsave.
  cbn [fst snd] in *. subst r.
  unfold FileManager.save, try_catch, throw in Hsave.
  set (backup := if FileManager.autoBackup config then _ else _) in Hsave.
  unfold bind at 1 in Hsave.
  destruct (backup w) as [[[]|e] w1]; [|discriminate].
  unfold bind at 1 in Hsave. cbn [Fs.now] in Hsave.
  unfold bind at 1 in Hsave. unfold Fs.toISOString, liftR in Hsave.
  destruct (JSDate.toISOString _) as [lastModified|]; [|discriminate].
  unfold bind at 1 in Hsave.
  destruct (FileManager.validateData _) as [[]|e]; [|discriminate].
  unfold bind at 1 in Hsave.
  destruct (JSON.stringify _ _) as [[text|]|e] eqn:Htext; try discriminate.
  exists lastModified, text. split; [exact Htext|].
  unfold bind, Fs.writeFile, Fs.rename in Hsave.
  destruct (Fs.validPath (FileManager.dataPath config +:+ ".tmp")); cbn [negb andb] in Hsave;
    [|discriminate].
  destruct (Fs.validPath (FileManager.dataPath config)); cbn [negb] in Hsave;
    [|discriminate].
  cbn [files Fs.setFiles] in Hsave. rewrite lookup_insert_eq in Hsave.
  injection Hsave as <-. split; [reflexivity|].
  cbn [files Fs.setFiles]. now rewrite lookup_insert_eq.
Qed.

Lemma dateDeserializer_string (s : string) :
  FileManager.dateDeserializer (JSString s) = JSString s.
Proof.
  unfold FileManager.dateDeserializer. cbn [JS.typeofObject]. now rewrite andb_false_r.
Qed.

Lemma dateDeserializer_boolean (b : bool) :
  FileManager.dateDeserializer (JSBool b) = JSBool b.
Proof. now destruct b. Qed.

Lemma dateDeserializer_array (elems : list JSValue) :
  FileManager.dateDeserializer (JSArray elems) = JSArray elems.
Proof. reflexivity. Qed.

Ltac revive :=
  repeat (progress cbn -[FileManager.dateDeserializer FileManager.validateTodo
                         JSDate.toISOString]
          || rewrite dateDeserializer_string
          || rewrite dateDeserializer_boolean
          || rewrite dateDeserializer_array).

(** What [JSON.parse] with [dateDeserializer] makes of a written todo:
    its [createdAt] is not a [Date]. *)
Lemma revived_createdAt (t : Todo.Todo) :
  JS.instanceofDate
    (JS.get (JSON.InternalizeJSONProperty FileManager.dateDeserializer
               (default JSNull (written (Todo.toJS t)))) "createdAt") = false.
Proof.
  destruct t as [id title description completed priority categoryId
                 createdAt completedAt dueDate].
  destruct completedAt as [c|], description as [ds|], dueDate as [du|];
    cbn -[JSON.InternalizeJSONProperty JSDate.toISOString];
    repeat match goal with
           | |- context [JSDate.toISOString ?d] => destruct (JSDate.toISOString d)
           end;
    revive; reflexivity.
Qed.

(** The text [save] writes. *)
Lemma written_envelope (todos : list Todo.Todo) (categories : list Category.Category)
    (lastModified : string) :
  written (FileManager.envelope todos categories lastModified)
  = Some (JSObject
            [ ("todos", JSArray (map (fun x => default JSNull (written x))
                                     (map Todo.toJS todos)));
              ("categories", JSArray (map (fun x => default JSNull (written x))
                                          (map Category.toJS categories)));
              ("version", JSString "1.0.0");
              ("lastModified", JSString lastModified) ]).
Proof. reflexivity. Qed.

(** What [load] finds in a file written by [save] when there is a todo:
    the first todo does not pass [validateTodo]. *)
Lemma saved_todo_is_rejected (t : Todo.Todo) (ts : list Todo.Todo)
    (cats : list Category.Category) (lastModified : string) :
  exists e, FileManager.validateData
              (JSON.InternalizeJSONProperty FileManager.dateDeserializer
                 (default JSNull
                    (written (FileManager.envelope (t :: ts) cats lastModified))))
            = Throw e.
Proof.
  rewrite written_envelope.
  destruct (validateTodo_needs_Date _ (revived_createdAt t)) as [e He].
  cbn [map].
  generalize dependent (default JSNull (written (Todo.toJS t))). intros todo He.
  generalize (map (fun x => default JSNull (written x)) (map Todo.toJS ts)).
  generalize (map (fun x => default JSNull (written x)) (map Category.toJS cats)).
  intros categories todos.
  revive. unfold FileManager.dateDeserializer in *. revive. rewrite He. cbn. eauto.
Qed.

(** C2 (the code on every input with a todo): whenever [save] returns
    normally for record sets that hold at least one todo, the [load] that
    follows (backups disabled) does not return them: it fails with
    LOAD_ERROR.  [save] has written the dates as plain ISO strings, and
    [validateTodo] rejects a [createdAt] that is not a [Date]. *)
Theorem save_then_load_rejects_todos (config : FileManager.FileManagerConfig)
    (t : Todo.Todo) (ts : list Todo.Todo) (cats : list Category.Category) (w : World) :
  FileManager.autoBackup config = false ->
  fst (FileManager.save config (t :: ts) cats w) = Ok tt ->
  exists msg cause,
    fst (FileManager.load config (snd (FileManager.save config (t :: ts) cats w)))
    = Throw (FileManagerError msg "LOAD_ERROR" (Some cause)).
Proof.
  intros Hauto Hok.
  destruct (save_content config (t :: ts) cats w Hok)
    as (lastModified & text & Htext & Hvalid & Hfile).
  rewrite stringify_written in Htext.
  assert (Hw : written (FileManager.envelope (t :: ts) cats lastModified) = Some text)
    by congruence.
  destruct (saved_todo_is_rejected t ts cats lastModified) as [e He].
  rewrite Hw in He. cbn [default from_option id] in He.
  unfold FileManager.load, try_catch, FileManager.loadPrimary, bind at 1,
    FileManager.fileExists, Fs.access.
  rewrite Hvalid, Hfile. cbn [andb negb]. rewrite bool_decide_eq_true_2 by eauto.
  cbn [negb]. unfold bind at 1, Fs.readFile. rewrite Hvalid, Hfile. cbn [negb].
  cbn [FileManager.isBlank]. unfold bind at 1, liftR. cbn [FileManager.parse].
  unfold bind at 1. rewrite He. rewrite Hauto. cbn. eauto.
Qed.

Lemma save_then_load_rejects_todos_witness :
  exists msg cause,
    fst (FileManager.load (Sample.storeConfig false 5)
           (snd (FileManager.save (Sample.storeConfig false 5)
                   [Sample.buyMilk] [Sample.work] Sample.emptyWorld)))
    = Throw (FileManagerError msg "LOAD_ERROR" (Some cause)).
Proof.
  apply (save_then_load_rejects_todos (Sample.storeConfig false 5) Sample.buyMilk []
           [Sample.work] Sample.emptyWorld).
  - reflexivity.
  - vm_compute. reflexivity.
Defined.

(** The same at one input, in full: one well-formed todo and one category
    are saved; the save succeeds and writes [createdAt] as a plain ISO
    string; the load that follows rejects the file. *)
Lemma save_then_load_example :
  let config := Sample.storeConfig false 5 in
  let saved := FileManager.save config [Sample.buyMilk] [Sample.work] Sample.emptyWorld in
  fst saved = Ok tt
  /\ (exists data todo,
        files (snd saved) !! FileManager.dataPath config = Some (Json data)
        /\ FileManager.elements (JS.get data "todos") = [todo]
        /\ JS.get todo "createdAt" = JSString "2023-11-14T22:13:20.000Z")
  /\ fst (FileManager.load config (snd saved))
     = Throw (FileManagerError
                "Failed to load data: Invalid todo at index 0: Todo must have a valid createdAt date"
                "LOAD_ERROR"
                (Some (JSError "Error"
                   "Invalid todo at index 0: Todo must have a valid createdAt date"))).
Proof.
  split; [vm_compute; reflexivity|split].
  - eexists _, _. split; [vm_compute; reflexivity|]. split; reflexivity.
  - vm_compute. reflexivity.
Qed.

(** Without todos the categories do come back. *)
Lemma save_then_load_categories_only :
  let config := Sample.storeConfig false 5 in
  fst (FileManager.load config
         (snd (FileManager.save config [] [Sample.work; Sample.home] Sample.emptyWorld)))
  = Ok ([], [Sample.work; Sample.home]).
Proof. vm_compute. reflexivity. Qed.

End RoundTrip.

(** ** C3: atomic replacement of the data file *)

Section Atomicity.

Import Fs FileManager.

Variable path : string.

Lemma keeps_pure {A} (m : IO A) :
  (forall w, snd (m w) = w) -> keeps path m.
Proof.
  intros H w. exists []. rewrite H. repeat split; constructor.
Qed.

Lemma keeps_ret {A} (a : A) : keeps path (ret a).
Proof. now apply keeps_pure. Qed.

Lemma keeps_throw {A} (e : Error) : keeps path (throw e : IO A).
Proof. now apply keeps_pure. Qed.

Lemma keeps_liftR {A} (r : Result A) : keeps path (liftR r : IO A).
Proof. now apply keeps_pure. Qed.

Lemma keeps_access (p : string) : keeps path (access p).
Proof. now apply keeps_pure. Qed.

Lemma keeps_readdir (dir : string) : keeps path (readdir dir).
Proof. now apply keeps_pure. Qed.

Lemma keeps_readFile (p : string) : keeps path (readFile p).
Proof.
  apply keeps_pure. intros w. unfold readFile.
  destruct (negb (validPath p)); [reflexivity|]. now destruct (files w !! p).
Qed.

Lemma keeps_now : keeps path now.
Proof. intros w. exists []. repeat split; constructor. Qed.

Lemma keeps_toISOString (d : Date) : keeps path (toISOString d).
Proof. now apply keeps_pure. Qed.

Lemma keeps_bind {A B} (m : IO A) (k : A -> IO B) :
  keeps path m -> (forall a, keeps path (k a)) -> keeps path (bind m k).
Proof.
  intros Hm Hk w. unfold bind.
  destruct (Hm w) as (s1 & Ho1 & Hs1 & Hf1).
  destruct (m w) as [[a|e] w1]; cbn [snd] in *.
  - destruct (Hk a w1) as (s2 & Ho2 & Hs2 & Hf2).
    exists (s2 ++ s1)%list. rewrite Ho2, Ho1, app_assoc. split; [reflexivity|].
    split; [|congruence].
    apply Forall_app. split; [|exact Hs1].
    eapply Forall_impl; [exact Hs2|]. cbn. intros; congruence.
  - exists s1. auto.
Qed.

Lemma keeps_try_catch {A} (m : IO A) (h : Error -> IO A) :
  keeps path m -> (forall e, keeps path (h e)) -> keeps path (try_catch m h).
Proof.
  intros Hm Hh w. unfold try_catch.
  destruct (Hm w) as (s1 & Ho1 & Hs1 & Hf1).
  destruct (m w) as [[a|e] w1]; cbn [snd] in *.
  - exists s1. auto.
  - destruct (Hh e w1) as (s2 & Ho2 & Hs2 & Hf2).
    exists (s2 ++ s1)%list. rewrite Ho2, Ho1, app_assoc. split; [reflexivity|].
    split; [|congruence].
    apply Forall_app. split; [|exact Hs1].
    eapply Forall_impl; [exact Hs2|]. cbn. intros; congruence.
Qed.

Lemma keeps_writeFile (p : string) (data : FileContent) :
  p <> path -> keeps path (writeFile p data).
Proof.
  intros Hne w. unfold writeFile.
  destruct (negb (validPath p)).
  - exists []. repeat split; constructor.
  - eexists [_; _]. cbn. split; [reflexivity|].
    split; [|now rewrite !lookup_insert_ne].
    repeat constructor; now rewrite ?lookup_insert_ne.
Qed.

Lemma keeps_copyFile (src dest : string) :
  dest <> path -> keeps path (copyFile src dest).
Proof.
  intros Hne w. unfold copyFile.
  destruct (negb (validPath src && validPath dest)).
  - exists []. repeat split; constructor.
  - destruct (files w !! src) as [c|].
    + eexists [_; _]. cbn. split; [reflexivity|].
      split; [|now rewrite !lookup_insert_ne].
      repeat constructor; now rewrite ?lookup_insert_ne.
    + exists []. repeat split; constructor.
Qed.

Lemma keeps_unlink (p : string) :
  p <> path -> keeps path (unlink p).
Proof.
  intros Hne w. unfold unlink.
  destruct (negb (validPath p)).
  - exists []. repeat split; constructor.
  - destruct (files w !! p) as [c|].
    + eexists [_]. cbn. split; [reflexivity|].
      split; [|now rewrite lookup_delete_ne].
      repeat constructor; now rewrite lookup_delete_ne.
    + exists []. repeat split; constructor.
Qed.

Lemma keeps_forEach {A} (f : A -> IO unit) (l : list A) :
  (forall a, keeps path (f a)) -> keeps path (FileManager.forEach f l).
Proof.
  intros Hf. induction l as [|a l IH]; cbn [FileManager.forEach].
  - apply keeps_ret.
  - apply keeps_bind; auto.
Qed.

Lemma keeps_cleanupOldBackups (config : FileManagerConfig) :
  (forall dir name, backupDir config = Some dir -> join dir name <> path) ->
  keeps path (cleanupOldBackups config).
Proof.
  intros Hout. unfold cleanupOldBackups.
  destruct (backupDir config) as [dir|]; [|apply keeps_ret].
  destruct (backupLimit config) as [limit|]; [|apply keeps_ret].
  apply keeps_try_catch; [|intros; apply keeps_ret].
  apply keeps_bind; [apply keeps_readdir|]. intros backupFiles.
  destruct (_ <? _)%Z; [|apply keeps_ret].
  apply keeps_forEach. intros file. apply keeps_unlink. now apply Hout.
Qed.

Lemma keeps_createBackup (config : FileManagerConfig) :
  (forall dir name, backupDir config = Some dir -> join dir name <> path) ->
  keeps path (createBackup config).
Proof.
  intros Hout. unfold createBackup.
  destruct (backupDir config) as [dir|] eqn:Hdir; [|apply keeps_ret].
  apply keeps_bind; [apply keeps_access|]. intros present.
  destruct (negb present); [apply keeps_ret|].
  apply keeps_try_catch; [|intros; apply keeps_ret].
  apply keeps_bind; [apply keeps_now|]. intros date.
  apply keeps_bind; [apply keeps_toISOString|]. intros iso.
  apply keeps_bind; [apply keeps_copyFile; now apply Hout|]. intros _.
  destruct (bool_decide _); [|apply keeps_ret].
  apply keeps_cleanupOldBackups. intros d n Hd. apply Hout. congruence.
Qed.

Lemma tmp_differs (p : string) : p +:+ ".tmp" <> p.
Proof.
  intros H. apply (f_equal String.length) in H.
  rewrite string_length_app in H. cbn in H. lia.
Qed.

(** The last two steps of [save]: the temporary file is written, then
    renamed over the data file. *)
Lemma write_then_rename (text : FileContent) (w : World) :
  let m := bind (writeFile (path +:+ ".tmp") text)
                (fun _ => rename (path +:+ ".tmp") path) in
  exists before,
    Forall (fun fs : gmap string FileContent => fs !! path = files w !! path) before
    /\ match fst (m w) with
       | Ok _ => observed (snd (m w)) = (files (snd (m w)) :: before ++ observed w)%list
                 /\ files (snd (m w)) !! path = Some text
       | Throw _ => observed (snd (m w)) = (before ++ observed w)%list
                    /\ files (snd (m w)) !! path = files w !! path
       end.
Proof.
  cbn zeta. unfold bind, writeFile.
  destruct (validPath (path +:+ ".tmp")) eqn:Htmp; cbn [negb].
  2:{ exists []. split; [constructor|]. cbn. auto. }
  unfold rename. rewrite Htmp. cbn [andb].
  destruct (validPath path) eqn:Hp; cbn [negb].
  - cbn [files setFiles]. rewrite lookup_insert_eq.
    exists [ <[path +:+ ".tmp" := text]> (<[path +:+ ".tmp" := PartOf text]> (files w));
             <[path +:+ ".tmp" := PartOf text]> (files w) ].
    split.
    + repeat constructor; now rewrite ?lookup_insert_ne by apply tmp_differs.
    + cbn. split; [reflexivity|]. now rewrite lookup_insert_eq.
  - exists [ <[path +:+ ".tmp" := text]> (<[path +:+ ".tmp" := PartOf text]> (files w));
             <[path +:+ ".tmp" := PartOf text]> (files w) ].
    split.
    + repeat constructor; now rewrite ?lookup_insert_ne by apply tmp_differs.
    + cbn. split; [reflexivity|]. now rewrite !lookup_insert_ne by apply tmp_differs.
Qed.

End Atomicity.

(** C3: in every execution of [save], each state of the file system that
    becomes visible holds, at the path of the data file, either what was
    there before the call or the complete new text.  The new text appears
    only in the last state, the one made by the rename, and only when
    [save] returns normally; every earlier state, and every state of a
    [save] that fails, has the data file untouched.  (The backup files
    live at other paths than the data file.) *)
Theorem save_is_atomic (config : FileManager.FileManagerConfig)
    (todos : list Todo.Todo) (categories : list Category.Category) (w : World) :
  (forall dir name, FileManager.backupDir config = Some dir ->
                    Fs.join dir name <> FileManager.dataPath config) ->
  let path := FileManager.dataPath config in
  let result := FileManager.save config todos categories w in
  exists before,
    Forall (fun fs : gmap string FileContent => fs !! path = files w !! path) before
    /\ match fst result with
       | Ok _ =>
           exists lastModified text,
             JSON.stringify (FileManager.envelope todos categories lastModified)
                            FileManager.dateSerializer = Ok (Some text)
             /\ observed (snd result) = (files (snd result) :: before ++ observed w)%list
             /\ files (snd result) !! path = Some (Json text)
       | Throw _ =>
           observed (snd result) = (before ++ observed w)%list
           /\ files (snd result) !! path = files w !! path
       end.
Proof.
  intros Hout path result. subst result.
  destruct (FileManager.save config todos categories w) as [r w'] eqn:Hsave.
  cbn [fst snd].
  unfold FileManager.save, try_catch, throw in Hsave.
  (* the steps before the write keep the data file *)
  set (backup := if FileManager.autoBackup config then _ else _) in Hsave.
  assert (Hb : keeps path backup).
  { subst backup. destruct (FileManager.autoBackup config);
      [now apply keeps_createBackup | apply keeps_ret]. }
  unfold bind at 1 in Hsave.
  destruct (Hb w) as (s1 & Ho1 & Hs1 & Hf1).
  destruct (backup w) as [[[]|e] w1]; cbn [snd] in *.
  2:{ injection Hsave as <- <-. exists s1. auto. }
  unfold bind at 1 in Hsave. cbn [Fs.now] in Hsave.
  set (w2 := {| files := files w1; observed := observed w1; clock := clock w1;
                ticks := S (ticks w1); uuidSource := uuidSource w1; drawn := drawn w1 |})
    in Hsave.
  unfold bind at 1 in Hsave. unfold Fs.toISOString, liftR in Hsave.
  destruct (JSDate.toISOString _) as [lastModified|].
  2:{ injection Hsave as <- <-. exists s1. auto. }
  unfold bind at 1 in Hsave.
  destruct (FileManager.validateData _) as [[]|e].
  2:{ injection Hsave as <- <-. exists s1. auto. }
  unfold bind at 1 in Hsave.
  destruct (JSON.stringify _ _) as [[text|]|e] eqn:Htext.
  2,3: injection Hsave as <- <-; exists s1; auto.
  destruct (write_then_rename path (Json text) w2) as (s2 & Hs2 & Hfin).
  cbn zeta in Hfin. fold path in Hsave.
  exists (s2 ++ s1)%list. split.
  { apply Forall_app. split; [|exact Hs1].
    eapply Forall_impl; [exact Hs2|]. cbn. intros fs Hfs. now rewrite Hfs. }
  destruct (bind _ _ w2) as [[[]|e] w3]; cbn [fst snd] in *;
    injection Hsave as <- <-; destruct Hfin as [Ho3 Hf3].
  - exists lastModified, text.
    split; [exact Htext|]. split; [|exact Hf3].
    rewrite Ho3. cbn. now rewrite Ho1, app_assoc.
  - split.
    + rewrite Ho3. cbn. now rewrite Ho1, app_assoc.
    + now rewrite Hf3.
Qed.

Lemma save_is_atomic_witness :
  let config := Sample.storeConfig true 5 in
  let path := FileManager.dataPath config in
  let result := FileManager.save config [Sample.buyMilk] [Sample.work] Sample.usedWorld in
  exists before,
    Forall (fun fs : gmap string FileContent => fs !! path = files Sample.usedWorld !! path)
           before
    /\ match fst result with
       | Ok _ =>
           exists lastModified text,
             JSON.stringify
               (FileManager.envelope [Sample.buyMilk] [Sample.work] lastModified)
               FileManager.dateSerializer = Ok (Some text)
             /\ observed (snd result)
                = (files (snd result) :: before ++ observed Sample.usedWorld)%list
             /\ files (snd result) !! path = Some (Json text)
       | Throw _ =>
           observed (snd result) = (before ++ observed Sample.usedWorld)%list
           /\ files (snd result) !! path = files Sample.usedWorld !! path
       end.
Proof.
  apply (save_is_atomic (Sample.storeConfig true 5) [Sample.buyMilk] [Sample.work]
           Sample.usedWorld).
  intros dir name [= <-] H. vm_compute in H. discriminate H.
Defined.

(** ** Backup files *)

Section Backups.

Import Fs FileManager.

Lemma entries_spec (dir name : string) (fs : gmap string FileContent) :
  name ∈ entries dir fs <-> is_Some (fs !! join dir name).
Proof.
  unfold entries, join. rewrite list_elem_of_omap. split.
  - intros ([p c] & Hin & Hs). apply elem_of_map_to_list in Hin.
    apply stripPrefix_spec in Hs. subst p. rewrite append_assoc in Hin. eauto.
  - intros [c Hc]. exists (dir +:+ "/" +:+ name, c). split.
    + now apply elem_of_map_to_list.
    + apply stripPrefix_spec. now rewrite append_assoc.
Qed.

Lemma NoDup_entries (dir : string) (fs : gmap string FileContent) :
  NoDup (entries dir fs).
Proof.
  unfold entries. apply NoDup_omap_inj; [|apply NoDup_map_to_list].
  intros [p1 c1] [p2 c2] name H1 H2 Hs1 Hs2.
  apply stripPrefix_spec in Hs1, Hs2. subst p1 p2.
  apply elem_of_map_to_list in H1, H2. rewrite H1 in H2. congruence.
Qed.

Lemma validPath_join (dir name : string) : validPath (join dir name) = true.
Proof.
  unfold join, validPath. destruct dir; reflexivity.
Qed.

Lemma elem_of_todoBackups (file : string) (backupFiles : list string) :
  file ∈ todoBackups backupFiles <-> file ∈ backupFiles /\ isBackupFile file = true.
Proof.
  unfold todoBackups.
  rewrite elem_of_reverse, merge_sort_Permutation, list_elem_of_filter. tauto.
Qed.

Lemma NoDup_todoBackups (backupFiles : list string) :
  NoDup backupFiles -> NoDup (todoBackups backupFiles).
Proof.
  intros H. unfold todoBackups.
  rewrite reverse_Permutation, merge_sort_Permutation. now apply NoDup_filter.
Qed.

(** Most recent first: every name is at least as large as those after it. *)
Lemma todoBackups_descending (backupFiles : list string) :
  StronglySorted (flip String.le) (todoBackups backupFiles).
Proof.
  unfold todoBackups.
  generalize (StronglySorted_merge_sort String.le
                (filter (fun file => isBackupFile file = true) backupFiles)).
  generalize (merge_sort String.le
                (filter (fun file => isBackupFile file = true) backupFiles)).
  intros l Hl. induction Hl as [|x l Hl IH Hx].
  - constructor.
  - rewrite reverse_cons. apply StronglySorted_app_2.
    + intros y z Hy Hz. apply list_elem_of_singleton in Hz. subst z.
      rewrite elem_of_reverse in Hy. rewrite Forall_forall in Hx.
      unfold flip. now apply Hx.
    + exact IH.
    + repeat constructor.
Qed.

Lemma todoBackups_latest (backupFiles : list string) (latest : string) (rest : list string) :
  todoBackups backupFiles = latest :: rest ->
  latest ∈ backupFiles /\ isBackupFile latest = true
  /\ forall file, file ∈ backupFiles -> isBackupFile file = true -> String.le file latest.
Proof.
  intros H.
  assert (Hin : latest ∈ todoBackups backupFiles) by (rewrite H; left).
  apply elem_of_todoBackups in Hin as [Hin Hb]. split; [exact Hin|]. split; [exact Hb|].
  intros file Hf Hfb.
  assert (Hin' : file ∈ todoBackups backupFiles) by now apply elem_of_todoBackups.
  generalize (todoBackups_descending backupFiles). rewrite H in *. intros Hs.
  apply elem_of_cons in Hin' as [->|Hin']; [reflexivity|].
  apply StronglySorted_inv in Hs as [_ Hs]. rewrite Forall_forall in Hs.
  now apply Hs.
Qed.

End Backups.

(** ** C5: recovery from a backup *)

Section Recovery.

Import Fs FileManager.

Lemma loadPrimary_world (config : FileManagerConfig) (w : World) :
  snd (loadPrimary config w) = w.
Proof.
  unfold loadPrimary, bind, fileExists, access, readFile, liftR, migrateData, ret.
  destruct (validPath (dataPath config) && _); cbn [negb]; [|reflexivity].
  destruct (negb (validPath (dataPath config))); [reflexivity|].
  destruct (files w !! dataPath config) as [c|]; [|reflexivity].
  destruct (isBlank c); [reflexivity|].
  destruct (parse c) as [v|]; [|reflexivity].
  now destruct (validateData v).
Qed.

Lemma readBackup_world (p : string) (w : World) : snd (readBackup p w) = w.
Proof.
  unfold readBackup, bind, readFile, liftR, ret.
  destruct (negb (validPath p)); [reflexivity|].
  destruct (files w !! p) as [c|]; [|reflexivity].
  destruct (parse c) as [v|]; [|reflexivity].
  now destruct (validateData v).
Qed.

Lemma readBackup_ok (p : string) (w : World) (data : JSValue) :
  validPath p = true ->
  files w !! p = Some (Json data) ->
  validateData (JSON.InternalizeJSONProperty dateDeserializer data) = Ok tt ->
  fst (readBackup p w)
  = Ok (recordSets (JSON.InternalizeJSONProperty dateDeserializer data)).
Proof.
  intros Hp Hf Hv. unfold readBackup, bind, readFile, liftR, ret.
  rewrite Hp, Hf. cbn. now rewrite Hv.
Qed.

(** What [load] does once its [try] block has failed, backups being
    enabled. *)
Lemma load_after_failure (config : FileManagerConfig) (w : World) (e : Error) :
  fst (loadPrimary config w) = Throw e ->
  autoBackup config = true ->
  load config w = loadFromBackup config w.
Proof.
  intros He Hauto. unfold load, try_catch.
  generalize (loadPrimary_world config w).
  destruct (loadPrimary config w) as [r w1]. cbn in *. intros ->. subst r.
  now rewrite Hauto.
Qed.

Lemma loadFromBackup_result (config : FileManagerConfig) (w : World) (dir : string) :
  backupDir config = Some dir ->
  fst (loadFromBackup config w)
  = match todoBackups (entries dir (files w)) with
    | [] =>
        Throw (FileManagerError "Failed to load from backup: No backup files found"
                 "BACKUP_LOAD_ERROR"
                 (Some (FileManagerError "No backup files found" "NO_BACKUPS" None)))
    | latest :: _ =>
        match fst (readBackup (join dir latest) w) with
        | Ok sets => Ok sets
        | Throw cause =>
            Throw (FileManagerError ("Failed to load from backup: " +:+ message cause)
                                    "BACKUP_LOAD_ERROR" (Some cause))
        end
    end.
Proof.
  intros Hdir. unfold loadFromBackup. rewrite Hdir.
  unfold try_catch, bind, readdir.
  destruct (todoBackups (entries dir (files w))) as [|latest rest]; [reflexivity|].
  destruct (readBackup (join dir latest) w) as [[sets|cause] w1]; reflexivity.
Qed.

(** C5 (as amended): when the [try] block of [load] fails and backups are
    enabled, [load] turns to the backup directory.  The backup chosen is
    the one whose file name is greatest; if it can be read, parsed and
    validated, [load] returns its record sets.  If that fails, [load]
    fails with BACKUP_LOAD_ERROR, whose cause is the failure of the
    recovery; without any backup file the cause is NO_BACKUPS; without a
    backup directory [load] fails with NO_BACKUP_PATH.  None of these
    errors is a LOAD_ERROR and none carries the original failure. *)
Theorem load_recovers_from_latest_backup (config : FileManagerConfig) (w : World)
    (e : Error) :
  fst (loadPrimary config w) = Throw e ->
  autoBackup config = true ->
  match backupDir config with
  | None =>
      fst (load config w)
      = Throw (FileManagerError "No backup path configured" "NO_BACKUP_PATH" None)
  | Some dir =>
      match todoBackups (entries dir (files w)) with
      | [] =>
          fst (load config w)
          = Throw (FileManagerError "Failed to load from backup: No backup files found"
                     "BACKUP_LOAD_ERROR"
                     (Some (FileManagerError "No backup files found" "NO_BACKUPS" None)))
      | latest :: _ =>
          (isBackupFile latest = true
           /\ is_Some (files w !! join dir latest)
           /\ forall file, is_Some (files w !! join dir file) ->
                           isBackupFile file = true -> String.le file latest)
          /\ fst (load config w)
             = match fst (readBackup (join dir latest) w) with
               | Ok sets => Ok sets
               | Throw cause =>
                   Throw (FileManagerError
                            ("Failed to load from backup: " +:+ message cause)
                            "BACKUP_LOAD_ERROR" (Some cause))
               end
          /\ forall data,
               files w !! join dir latest = Some (Json data) ->
               validateData (JSON.InternalizeJSONProperty dateDeserializer data) = Ok tt ->
               fst (load config w)
               = Ok (recordSets (JSON.InternalizeJSONProperty dateDeserializer data))
      end
  end.
Proof.
  intros He Hauto. rewrite (load_after_failure config w e He Hauto).
  destruct (backupDir config) as [dir|] eqn:Hdir.
  2:{ unfold loadFromBackup. now rewrite Hdir. }
  rewrite (loadFromBackup_result config w dir Hdir).
  destruct (todoBackups (entries dir (files w))) as [|latest rest] eqn:Hb; [reflexivity|].
  apply todoBackups_latest in Hb as (Hin & Hbk & Hmax).
  split; [|split].
  - split; [exact Hbk|]. split; [now apply entries_spec|].
    intros file Hf. apply Hmax. now apply entries_spec.
  - reflexivity.
  - intros data Hf Hv.
    now rewrite (readBackup_ok (join dir latest) w data (validPath_join _ _) Hf Hv).
Qed.

Lemma load_recovers_from_latest_backup_witness :
  let config := Sample.storeConfig true 5 in
  let w := Sample.recoverableWorld in
  let latest := "todos-backup-2023-11-15T08-00-00-000Z.json" in
  (isBackupFile latest = true
   /\ is_Some (files w !! join "./data/backups" latest)
   /\ forall file, is_Some (files w !! join "./data/backups" file) ->
                   isBackupFile file = true -> String.le file latest)
  /\ fst (load config w)
     = match fst (readBackup (join "./data/backups" latest) w) with
       | Ok sets => Ok sets
       | Throw cause =>
           Throw (FileManagerError ("Failed to load from backup: " +:+ message cause)
                                   "BACKUP_LOAD_ERROR" (Some cause))
       end
  /\ forall data,
       files w !! join "./data/backups" latest = Some (Json data) ->
       validateData (JSON.InternalizeJSONProperty dateDeserializer data) = Ok tt ->
       fst (load config w)
       = Ok (recordSets (JSON.InternalizeJSONProperty dateDeserializer data)).
Proof.
  exact (load_recovers_from_latest_backup (Sample.storeConfig true 5)
           Sample.recoverableWorld
           (JSError "SyntaxError" "Unexpected token in JSON")
           eq_refl eq_refl).
Defined.

(** C5 (as stated) fails: the data file is damaged, backups are enabled
    and there is no backup file; [load] fails with BACKUP_LOAD_ERROR
    caused by NO_BACKUPS, not with a LOAD_ERROR, and the failure of the
    data file (a syntax error) is not in it. *)
Lemma load_failure_is_not_LOAD_ERROR :
  let config := Sample.storeConfig true 5 in
  fst (loadPrimary config Sample.damagedWorld)
  = Throw (JSError "SyntaxError" "Unexpected token in JSON")
  /\ autoBackup config = true
  /\ todoBackups (entries "./data/backups" (files Sample.damagedWorld)) = []
  /\ fst (load config Sample.damagedWorld)
     = Throw (FileManagerError "Failed to load from backup: No backup files found"
                "BACKUP_LOAD_ERROR"
                (Some (FileManagerError "No backup files found" "NO_BACKUPS" None)))
  /\ ~ (exists msg cause,
          fst (load config Sample.damagedWorld)
          = Throw (FileManagerError msg "LOAD_ERROR" cause)).
Proof.
  repeat split; try (vm_compute; reflexivity).
  intros (msg & cause & H). vm_compute in H. discriminate H.
Qed.

End Recovery.

(** ** C9: rotation of the backups *)

Section Rotation.

Import Fs FileManager.

Lemma join_inj (dir a b : string) : join dir a = join dir b -> a = b.
Proof.
  unfold join. intros H. apply String.app_inj in H. now apply String.app_inj in H.
Qed.

Lemma forEach_unlink (dir : string) (names : list string) (w : World) :
  NoDup names ->
  (forall f, f ∈ names -> is_Some (files w !! join dir f)) ->
  exists w',
    FileManager.forEach (fun file => unlink (join dir file)) names w = (Ok tt, w')
    /\ ticks w' = ticks w /\ clock w' = clock w
    /\ forall p, files w' !! p
                 = if bool_decide (p ∈ map (join dir) names) then None else files w !! p.
Proof.
  intros Hnd. revert w. induction Hnd as [|a names Ha Hnd IH]; intros w Hex.
  - exists w. cbn. auto.
  - cbn [FileManager.forEach]. unfold bind, unlink at 1.
    rewrite validPath_join. cbn [negb].
    destruct (Hex a) as [c Hc]; [left|]. rewrite Hc.
    destruct (IH (setFiles w (delete (join dir a) (files w)))) as (w' & Hrun & Ht & Hcl & Hf).
    { intros f Hf. cbn. rewrite lookup_delete_ne.
      - apply Hex. now right.
      - intros Heq. apply join_inj in Heq. now subst f. }
    exists w'. rewrite Hrun. repeat split; auto.
    intros p. rewrite Hf. cbn [map files setFiles].
    destruct (decide (p = join dir a)) as [->|Hne].
    + rewrite lookup_delete_eq.
      rewrite (bool_decide_eq_true_2 (join dir a ∈ join dir a :: map (join dir) names))
        by left.
      now destruct (bool_decide _).
    + rewrite lookup_delete_ne by congruence.
      destruct (bool_decide (p ∈ map (join dir) names)) eqn:Hin.
      * apply bool_decide_eq_true_1 in Hin.
        now rewrite bool_decide_eq_true_2 by now right.
      * apply bool_decide_eq_false_1 in Hin.
        rewrite bool_decide_eq_false_2; [reflexivity|].
        intros H. apply elem_of_cons in H as [?|?]; congruence.
Qed.

Lemma descending_unique (l1 l2 : list string) :
  StronglySorted (flip String.le) l1 -> StronglySorted (flip String.le) l2 ->
  NoDup l1 -> NoDup l2 -> (forall f, f ∈ l1 <-> f ∈ l2) -> l1 = l2.
Proof.
  intros H1 H2 N1 N2 Heq.
  assert (Ha : AntiSymm eq (flip String.le)).
  { intros x y Hxy Hyx. unfold flip in *. now apply (anti_symm String.le). }
  apply (StronglySorted_unique (flip String.le)); auto.
  now apply NoDup_Permutation.
Qed.

Lemma StronglySorted_take {A} (R : relation A) (n : nat) (l : list A) :
  StronglySorted R l -> StronglySorted R (take n l).
Proof.
  intros H. rewrite <- (take_drop n l) in H. now apply StronglySorted_app_1_l in H.
Qed.

Lemma elem_of_take_NoDup {A} (n : nat) (l : list A) (x : A) :
  NoDup l -> x ∈ take n l <-> x ∈ l /\ x ∉ drop n l.
Proof.
  intros H. rewrite <- (take_drop n l) in H. apply NoDup_app in H as (_ & Hdisj & _).
  rewrite <- (take_drop n l) at 2. rewrite elem_of_app. split.
  - intros Hx. split; [now left | now apply Hdisj].
  - intros [[Hx|Hx] Hn]; [exact Hx | contradiction].
Qed.

Lemma cleanupOldBackups_spec (config : FileManagerConfig) (w : World)
    (dir : string) (limit : Z) :
  backupDir config = Some dir -> backupLimit config = Some limit -> (0 < limit)%Z ->
  exists w',
    cleanupOldBackups config w = (Ok tt, w')
    /\ ticks w' = ticks w /\ clock w' = clock w
    /\ backupsIn dir w' = take (Z.to_nat limit) (backupsIn dir w)
    /\ forall p, (forall n, join dir n <> p) -> files w' !! p = files w !! p.
Proof.
  intros Hdir Hlim Hpos. unfold cleanupOldBackups. rewrite Hdir, Hlim.
  unfold try_catch, bind at 1, readdir.
  fold (backupsIn dir w).
  assert (Hnd : NoDup (backupsIn dir w)) by apply NoDup_todoBackups, NoDup_entries.
  destruct (limit <? Z.of_nat (length (backupsIn dir w)))%Z eqn:Hlt.
  - unfold slice. replace (limit <? 0)%Z with false by (symmetry; apply Z.ltb_ge; lia).
    destruct (forEach_unlink dir (drop (Z.to_nat limit) (backupsIn dir w)) w)
      as (w' & Hrun & Ht & Hc & Hf).
    { eapply sublist_NoDup; [exact Hnd | apply sublist_drop]. }
    { intros f Hin. apply entries_spec.
      eapply elem_of_todoBackups, elem_of_sublist; [exact Hin | apply sublist_drop]. }
    exists w'. rewrite Hrun. repeat split; auto.
    + apply descending_unique.
      * apply todoBackups_descending.
      * apply StronglySorted_take, todoBackups_descending.
      * apply NoDup_todoBackups, NoDup_entries.
      * eapply sublist_NoDup; [exact Hnd | apply sublist_take].
      * intros f. unfold backupsIn at 1.
        rewrite elem_of_todoBackups, entries_spec, Hf, (elem_of_take_NoDup _ _ _ Hnd).
        unfold backupsIn. rewrite elem_of_todoBackups, entries_spec.
        destruct (bool_decide _) eqn:Hin.
        -- apply bool_decide_eq_true_1, list_elem_of_fmap in Hin as (g & Hg & Hin).
           apply join_inj in Hg. subst g. split.
           ++ intros [[? [=]] _].
           ++ intros [_ Hn]. contradiction.
        -- apply bool_decide_eq_false_1 in Hin. split.
           ++ intros [Hs Hb]. split; [now split|].
              intros Hd. apply Hin, list_elem_of_fmap. eauto.
           ++ intros [[Hs Hb] _]. now split.
    + intros p Hp. rewrite Hf. rewrite bool_decide_eq_false_2; [reflexivity|].
      intros Hin. apply list_elem_of_fmap in Hin as (g & Hg & _). now apply (Hp g).
  - exists w. repeat split; auto.
    symmetry. apply take_ge. apply Z.ltb_ge in Hlt. lia.
Qed.

Lemma toISOString_DateAt (t : Z) :
  JSDate.toISOString (DateAt t) = Some (default "" (JSDate.toISOString (DateAt t))).
Proof.
  unfold JSDate.toISOString. now destruct (JSDate.civilFromDays _) as [[y m] d].
Qed.

Lemma isBackupFile_backupFileName (timestamp : string) :
  isBackupFile (backupFileName timestamp) = true.
Proof.
  unfold isBackupFile, backupFileName. apply andb_true_iff. split.
  - apply startsWith_spec. eauto.
  - rewrite <- append_assoc. apply endsWith_append.
Qed.

Lemma backupsIn_insert (dir name : string) (c : FileContent) (w w1 : World) :
  isBackupFile name = true ->
  files w1 = <[join dir name := c]> (files w) ->
  forall f, f ∈ backupsIn dir w1 <-> f = name \/ f ∈ backupsIn dir w.
Proof.
  intros Hb Hf f. unfold backupsIn.
  rewrite !elem_of_todoBackups, !entries_spec, Hf.
  destruct (decide (f = name)) as [->|Hne].
  - rewrite lookup_insert_eq. split; [auto|]. intros _. split; [eauto|exact Hb].
  - rewrite lookup_insert_ne by (intros H; apply join_inj in H; congruence).
    split; [auto|]. intros [?|?]; [contradiction|assumption].
Qed.

(** One call of [createBackup], when a backup directory and a positive
    limit are configured and the data file exists. *)
Lemma createBackup_spec (config : FileManagerConfig) (w : World)
    (dir : string) (limit : Z) (c : FileContent) :
  backupDir config = Some dir -> backupLimit config = Some limit -> (0 < limit)%Z ->
  validPath (dataPath config) = true ->
  files w !! dataPath config = Some c ->
  (forall n, join dir n <> dataPath config) ->
  exists w' all,
    createBackup config w = (Ok tt, w')
    /\ ticks w' = S (ticks w) /\ clock w' = clock w
    /\ files w' !! dataPath config = Some c
    /\ StronglySorted (flip String.le) all /\ NoDup all
    /\ (forall f, f ∈ all <-> f = backupNameAt (clock w (ticks w)) \/ f ∈ backupsIn dir w)
    /\ backupsIn dir w' = take (Z.to_nat limit) all.
Proof.
  intros Hdir Hlim Hpos Hvalid Hc Hout.
  set (name := backupNameAt (clock w (ticks w))).
  set (w0 := {| files := files w; observed := observed w; clock := clock w;
                ticks := S (ticks w); uuidSource := uuidSource w; drawn := drawn w |}).
  set (wp := setFiles w0 (<[join dir name := PartOf c]> (files w0))).
  set (w1 := setFiles wp (<[join dir name := c]> (files wp))).
  destruct (cleanupOldBackups_spec config w1 dir limit Hdir Hlim Hpos)
    as (w' & Hrun & Ht & Hcl & Hb & Hother).
  exists w', (backupsIn dir w1).
  assert (Hfiles : files w1 = <[join dir name := c]> (files w)).
  { subst w1 wp w0. cbn. apply insert_insert_eq. }
  split.
  { unfold createBackup. rewrite Hdir.
    unfold bind at 1, fileExists, access. rewrite Hvalid, Hc.
    cbn [andb negb]. rewrite bool_decide_eq_true_2 by eauto. cbn [negb].
    unfold try_catch, bind at 1. cbn [now]. fold w0.
    unfold bind at 1, toISOString, liftR. rewrite toISOString_DateAt.
    unfold bind at 1, copyFile. rewrite Hvalid, validPath_join. cbn [andb negb].
    cbn [files w0]. rewrite Hc.
    match goal with
    | |- context [ (if ?b then ?x else ?y) ?ww ] => change ww with w1
    end.
    rewrite Hlim, bool_decide_eq_true_2 by eauto.
    now rewrite Hrun. }
  split; [exact Ht|]. split; [exact Hcl|].
  split.
  { rewrite Hother by apply Hout. rewrite Hfiles.
    rewrite lookup_insert_ne; [exact Hc | apply Hout]. }
  split; [apply todoBackups_descending|].
  split; [apply NoDup_todoBackups, NoDup_entries|].
  split; [|exact Hb].
  apply (backupsIn_insert dir name c w w1); [apply isBackupFile_backupFileName|exact Hfiles].
Qed.

Lemma backupNames_S (n : nat) (w : World) :
  backupNames (S n) w = (backupNames n w ++ [backupNameAt (clock w (ticks w + n))])%list.
Proof.
  unfold backupNames. now rewrite seq_S, map_app.
Qed.

(** As long as the limit is not exceeded every backup made is kept. *)
Lemma backups_below_limit (config : FileManagerConfig) (dir : string) (limit : Z)
    (c : FileContent) (w : World) (k : nat) :
  backupDir config = Some dir -> backupLimit config = Some limit -> (0 < limit)%Z ->
  validPath (dataPath config) = true ->
  files w !! dataPath config = Some c ->
  (forall n, join dir n <> dataPath config) ->
  backupsIn dir w = [] ->
  NoDup (backupNames k w) ->
  k <= Z.to_nat limit ->
  ticks (afterBackups config k w) = ticks w + k
  /\ clock (afterBackups config k w) = clock w
  /\ files (afterBackups config k w) !! dataPath config = Some c
  /\ backupsIn dir (afterBackups config k w) ≡ₚ backupNames k w.
Proof.
  intros Hdir Hlim Hpos Hvalid Hc Hout Hempty.
  induction k as [|k IH]; intros Hnd Hk.
  - cbn. rewrite Hempty. repeat split; auto.
  - rewrite backupNames_S in Hnd |- *.
    apply NoDup_app in Hnd as (Hnd & Hfresh & _).
    destruct (IH Hnd ltac:(lia)) as (Ht & Hcl & Hf & Hb).
    cbn [afterBackups].
    set (wk := afterBackups config k w) in *.
    destruct (createBackup_spec config wk dir limit c Hdir Hlim Hpos Hvalid Hf Hout)
      as (w' & all & Hrun & Ht' & Hcl' & Hf' & Hsorted & Hndall & Hall & Hb').
    rewrite Hrun. cbn [snd]. rewrite Ht', Hcl', Ht, Hcl in *.
    split; [lia|]. split; [reflexivity|]. split; [exact Hf'|].
    assert (Hperm : all ≡ₚ (backupNames k w ++ [backupNameAt (clock w (ticks w + k))])%list).
    { apply NoDup_Permutation; [exact Hndall| |].
      - apply NoDup_app. repeat split; [exact Hnd | exact Hfresh | apply NoDup_singleton].
      - intros f. rewrite Hall, Hb, elem_of_app, list_elem_of_singleton. tauto. }
    rewrite Hb', take_ge; [exact Hperm|].
    rewrite Hperm, length_app. unfold backupNames.
    rewrite length_map, length_seq. cbn. lia.
Qed.

(** C9: with a backup directory and a positive limit [N] configured and
    the data file present (outside the backup directory), a call of
    [createBackup] leaves in the directory the [N] greatest names among
    the backup files that were there and the new one: the excess files,
    those with the smallest names, are deleted.  Starting from a directory
    without backup files, [N + 1] backups with distinct names leave
    exactly [N] backup files, the [N] greatest of the [N + 1] names. *)
Theorem backups_are_rotated (config : FileManagerConfig) (dir : string) (limit : Z)
    (c : FileContent) (w : World) :
  backupDir config = Some dir -> backupLimit config = Some limit -> (0 < limit)%Z ->
  validPath (dataPath config) = true ->
  files w !! dataPath config = Some c ->
  (forall n, join dir n <> dataPath config) ->
  (exists all,
     StronglySorted (flip String.le) all /\ NoDup all
     /\ (forall f, f ∈ all <-> f = backupNameAt (clock w (ticks w)) \/ f ∈ backupsIn dir w)
     /\ backupsIn dir (snd (createBackup config w)) = take (Z.to_nat limit) all
     /\ forall f, f ∈ drop (Z.to_nat limit) all ->
                  files (snd (createBackup config w)) !! join dir f = None)
  /\ (backupsIn dir w = [] ->
      NoDup (backupNames (S (Z.to_nat limit)) w) ->
      exists all,
        all ≡ₚ backupNames (S (Z.to_nat limit)) w
        /\ StronglySorted (flip String.le) all
        /\ backupsIn dir (afterBackups config (S (Z.to_nat limit)) w)
           = take (Z.to_nat limit) all
        /\ length (backupsIn dir (afterBackups config (S (Z.to_nat limit)) w))
           = Z.to_nat limit).
Proof.
  intros Hdir Hlim Hpos Hvalid Hc Hout. split.
  - destruct (createBackup_spec config w dir limit c Hdir Hlim Hpos Hvalid Hc Hout)
      as (w' & all & Hrun & _ & _ & _ & Hsorted & Hnd & Hall & Hb).
    exists all. rewrite Hrun. cbn [snd]. repeat split; auto.
    + now apply Hall.
    + now apply Hall.
    + intros f Hf.
      assert (Hnot : f ∉ backupsIn dir w').
      { rewrite Hb. intros Hin. apply (elem_of_take_NoDup _ _ _ Hnd) in Hin. tauto. }
      destruct (files w' !! join dir f) as [x|] eqn:Hx; [|reflexivity].
      exfalso. apply Hnot. unfold backupsIn. apply elem_of_todoBackups. split.
      * apply entries_spec. eauto.
      * assert (Hin : f ∈ all) by (eapply elem_of_sublist; [exact Hf | apply sublist_drop]).
        apply Hall in Hin as [->|Hin]; [apply isBackupFile_backupFileName|].
        now apply elem_of_todoBackups in Hin.
  - intros Hempty Hnd.
    set (N := Z.to_nat limit) in *.
    rewrite backupNames_S in Hnd. apply NoDup_app in Hnd as (Hnd & Hfresh & _).
    destruct (backups_below_limit config dir limit c w N Hdir Hlim Hpos Hvalid Hc Hout
                Hempty Hnd ltac:(lia)) as (Ht & Hcl & Hf & Hb).
    cbn [afterBackups].
    set (wN := afterBackups config N w) in *.
    destruct (createBackup_spec config wN dir limit c Hdir Hlim Hpos Hvalid Hf Hout)
      as (w' & all & Hrun & _ & _ & _ & Hsorted & Hndall & Hall & Hb').
    rewrite Hrun. cbn [snd]. rewrite Ht, Hcl in Hall.
    assert (Hperm : all ≡ₚ backupNames (S N) w).
    { rewrite backupNames_S. apply NoDup_Permutation; [exact Hndall| |].
      - apply NoDup_app. repeat split; [exact Hnd | exact Hfresh | apply NoDup_singleton].
      - intros f. rewrite Hall, Hb, elem_of_app, list_elem_of_singleton. tauto. }
    exists all. split; [exact Hperm|]. split; [exact Hsorted|]. split; [exact Hb'|].
    rewrite Hb', length_take, Hperm.
    unfold backupNames. rewrite length_map, length_seq. lia.
Qed.

End Rotation.

Lemma backups_are_rotated_witness :
  let config := Sample.storeConfig true 2 in
  let w := Sample.usedWorld in
  (exists all,
     StronglySorted (flip String.le) all /\ NoDup all
     /\ (forall f, f ∈ all <->
                   f = backupNameAt (clock w (ticks w)) \/ f ∈ backupsIn "./data/backups" w)
     /\ backupsIn "./data/backups" (snd (FileManager.createBackup config w)) = take 2 all
     /\ forall f, f ∈ drop 2 all ->
                  files (snd (FileManager.createBackup config w))
                    !! Fs.join "./data/backups" f = None)
  /\ (exists all,
        all ≡ₚ backupNames 3 w
        /\ StronglySorted (flip String.le) all
        /\ backupsIn "./data/backups" (afterBackups config 3 w) = take 2 all
        /\ length (backupsIn "./data/backups" (afterBackups config 3 w)) = 2).
Proof.
  destruct (backups_are_rotated (Sample.storeConfig true 2) "./data/backups" 2
              (Json (FileManager.envelope [] [Sample.work] "2023-11-14T22:13:20.000Z"))
              Sample.usedWorld) as [Hone Hmany];
    [reflexivity | reflexivity | lia | reflexivity | reflexivity
    | intros n H; vm_compute in H; discriminate H | ].
  split; [exact Hone|].
  apply Hmany; [vm_compute; reflexivity|].
  refine (bool_decide_unpack _ _). vm_compute. exact I.
Defined.

(** ** Counting todos *)

Section Counting.

Import TodoManager.

Lemma findIndex_Some {A} (p : A -> bool) (l : list A) (i : nat) :
  findIndex p l = Some i ->
  exists x, l !! i = Some x /\ p x = true
            /\ forall j y, j < i -> l !! j = Some y -> p y = false.
Proof.
  revert i. induction l as [|a l IH]; intros i; cbn [findIndex]; [discriminate|].
  destruct (p a) eqn:Hp.
  - intros [= <-]. exists a. repeat split; auto. intros j y Hj. lia.
  - destruct (findIndex p l) as [k|]; [|discriminate]. intros [= <-].
    destruct (IH k eq_refl) as (x & Hx & Hpx & Hbefore).
    exists x. repeat split; auto.
    intros [|j] y Hj; cbn.
    + now intros [= <-].
    + apply Hbefore. lia.
Qed.

Lemma findIndex_None {A} (p : A -> bool) (l : list A) :
  findIndex p l = None -> forall x, x ∈ l -> p x = false.
Proof.
  induction l as [|a l IH]; cbn [findIndex]; intros H x Hx.
  - inversion Hx.
  - destruct (p a) eqn:Hp; [discriminate|].
    destruct (findIndex p l); [discriminate|].
    apply elem_of_cons in Hx as [->|Hx]; auto.
Qed.

Lemma findIndex_existsb {A} (p : A -> bool) (l : list A) :
  existsb p l = bool_decide (is_Some (findIndex p l)).
Proof.
  induction l as [|a l IH]; cbn; [reflexivity|].
  destruct (p a); [reflexivity|]. rewrite IH. cbn.
  now destruct (findIndex p l).
Qed.









End Counting.

(** ** Steps of the coordinator *)

Section Steps.

Import TodoManager.

Lemma categoryExists_ok (id : string) (m : TodoManager) (w : World) :
  isInitialized m = true ->
  categoryExists id (m, w) = (Ok (existsb (categoryHasId id) (categories m)), (m, w)).
Proof.
  intros H. unfold categoryExists.
  now rewrite (bind_ok _ _ _ _ _ (ensureInitialized_ok m w H)).
Qed.

Lemma getTodosByCategory_ok (categoryId : string) (m : TodoManager) (w : World) :
  isInitialized m = true ->
  getTodosByCategory categoryId (m, w)
  = (Ok (List.filter (inCategory categoryId) (todos m)), (m, w)).
Proof.
  intros H. unfold getTodosByCategory.
  now rewrite (bind_ok _ _ _ _ _ (ensureInitialized_ok m w H)).
Qed.

Lemma updateCategoryTodoCount_ok (categoryId : string) (m : TodoManager) (w : World) :
  isInitialized m = true ->
  updateCategoryTodoCount categoryId (m, w) = (Ok tt, (recount categoryId m, w)).
Proof.
  intros H. unfold updateCategoryTodoCount, recount.
  unfold bind at 1. cbn [this fst].
  destruct (findIndex (categoryHasId categoryId) (categories m)) as [i|]; [|reflexivity].
  now rewrite (bind_ok _ _ _ _ _ (getTodosByCategory_ok categoryId m w H)).
Qed.

(** Saving never changes the coordinator; it fails with SAVE_ERROR only. *)
Lemma save_state (m : TodoManager) (w : World) :
  isInitialized m = true ->
  exists r w', save (m, w) = (r, (m, w'))
               /\ (r = Ok tt \/ exists e, r = Throw e /\ code e = Some "SAVE_ERROR")
               /\ r = match fst (FileManager.save (fileManager m) (todos m) (categories m) w)
                      with
                      | Ok _ => Ok tt
                      | Throw e =>
                          Throw (TodoManagerError ("Failed to save data: " +:+ message e)
                                                  "SAVE_ERROR" (CausedBy e))
                      end.
Proof.
  intros H. unfold save.
  rewrite (bind_ok _ _ _ _ _ (ensureInitialized_ok m w H)).
  unfold try_catch, bind, this, io. cbn [fst snd].
  destruct (FileManager.save (fileManager m) (todos m) (categories m) w) as [[[]|e] w'];
    cbn; eauto 8.
Qed.

Lemma autoSaveIfEnabled_state (m : TodoManager) (w : World) :
  isInitialized m = true ->
  exists r w', autoSaveIfEnabled (m, w) = (r, (m, w'))
               /\ (r = Ok tt \/ exists e, r = Throw e /\ code e = Some "SAVE_ERROR")
               /\ (autoSave (config m) = false -> r = Ok tt)
               /\ (isOk (fst (FileManager.save (fileManager m) (todos m) (categories m) w))
                   = true -> r = Ok tt).
Proof.
  intros H. unfold autoSaveIfEnabled, bind, this. cbn [fst].
  destruct (autoSave (config m)).
  - destruct (save_state m w H) as (r & w' & Heq & Hr & Hfm).
    exists r, w'. repeat split; auto; [discriminate|].
    intros Hok. rewrite Hfm.
    now destruct (fst (FileManager.save _ _ _ w)).
  - exists (Ok tt), w. repeat split; auto.
Qed.

Lemma autoSaveIfEnabled_manager (m : TodoManager) (w : World) :
  fst (snd (autoSaveIfEnabled (m, w))) = m.
Proof.
  destruct (isInitialized m) eqn:Hinit.
  - destruct (autoSaveIfEnabled_state m w Hinit) as (r & w' & -> & _). reflexivity.
  - unfold autoSaveIfEnabled, bind at 1, this. cbn [fst].
    destruct (autoSave (config m)); [|reflexivity].
    unfold save. destruct (ensureInitialized_throw m w Hinit) as (e & He & _).
    now rewrite (bind_throw _ _ _ _ _ He).
Qed.

Lemma autoSaveIfEnabled_off (m : TodoManager) (w : World) :
  autoSave (config m) = false -> autoSaveIfEnabled (m, w) = (Ok tt, (m, w)).
Proof. intros H. unfold autoSaveIfEnabled, bind, this. cbn [fst]. now rewrite H. Qed.

(** The outcome of the automatic save. *)
Lemma autoSaveIfEnabled_result (m : TodoManager) (w : World) :
  isInitialized m = true ->
  exists w',
    autoSaveIfEnabled (m, w)
    = (if autoSave (config m) then
         match fst (FileManager.save (fileManager m) (todos m) (categories m) w) with
         | Ok _ => Ok tt
         | Throw e =>
             Throw (TodoManagerError ("Failed to save data: " +:+ message e) "SAVE_ERROR"
                                     (CausedBy e))
         end
       else Ok tt, (m, w')).
Proof.
  intros H. unfold autoSaveIfEnabled, bind, this. cbn [fst].
  destruct (autoSave (config m)); [|eauto].
  destruct (save_state m w H) as (r & w' & Heq & _ & ->). eauto.
Qed.

(** What [FileManager.save] throws. *)
Lemma save_error_shape (config : FileManager.FileManagerConfig)
    (ts : list Todo.Todo) (cs : list Category.Category) (w : World) (e : Error) :
  fst (FileManager.save config ts cs w) = Throw e ->
  exists cause,
    e = FileManagerError ("Failed to save data: " +:+ message cause) "SAVE_ERROR"
                         (Some cause).
Proof.
  unfold FileManager.save, try_catch, throw.
  match goal with
  | |- fst (let (r, s') := ?body w in _) = _ -> _ => destruct (body w) as [[[]|e0] w']
  end; cbn [fst]; [discriminate|].
  intros [= <-]. eauto.
Qed.

Lemma save_needs_dataPath (config : FileManager.FileManagerConfig)
    (ts : list Todo.Todo) (cs : list Category.Category) (w : World) :
  FileManager.dataPath config = "" ->
  exists cause,
    fst (FileManager.save config ts cs w)
    = Throw (FileManagerError ("Failed to save data: " +:+ message cause) "SAVE_ERROR"
                              (Some cause)).
Proof.
  intros Hpath.
  destruct (fst (FileManager.save config ts cs w)) as [[]|e] eqn:Hsave.
  - destruct (save_content config ts cs w Hsave) as (_ & _ & _ & Hvalid & _).
    rewrite Hpath in Hvalid. discriminate Hvalid.
  - destruct (save_error_shape config ts cs w e Hsave) as [cause ->]. eauto.
Qed.

Lemma recount_todos (cid : string) (m : TodoManager) : todos (recount cid m) = todos m.
Proof. unfold recount. now destruct (findIndex _ _). Qed.

Lemma recount_isInitialized (cid : string) (m : TodoManager) :
  isInitialized (recount cid m) = isInitialized m.
Proof. unfold recount. now destruct (findIndex _ _). Qed.

Lemma recount_config (cid : string) (m : TodoManager) :
  config (recount cid m) = config m /\ fileManager (recount cid m) = fileManager m.
Proof. unfold recount. now destruct (findIndex _ _). Qed.

Lemma alter_setTodoCount_ids (n : Z) (i : nat) (cats : list Category.Category) :
  map Category.id (alter (setTodoCount n) i cats) = map Category.id cats.
Proof.
  revert i. induction cats as [|c cats IH]; intros [|i]; cbn; auto.
  now rewrite (IH i).
Qed.

Lemma recount_ids (cid : string) (m : TodoManager) :
  map Category.id (categories (recount cid m)) = map Category.id (categories m).
Proof.
  unfold recount. destruct (findIndex _ _); [|reflexivity].
  apply alter_setTodoCount_ids.
Qed.






End Steps.

(** ** What each operation does to the coordinator *)

Ltac enter Hinit H :=
  rewrite (bind_ok _ _ _ _ _ (ensureInitialized_ok _ _ Hinit)) in H.

Ltac finish H := injection H as <- <- <-.

Section Operations.

Import TodoManager.

Lemma addTodo_state (input : Todo.TodoInput) (m : TodoManager) (w : World)
    (r : Result Todo.Todo) (m' : TodoManager) (w' : World) :
  isInitialized m = true ->
  addTodo input (m, w) = (r, (m', w')) ->
  (m' = m /\ exists e, r = Throw e /\ code e <> Some "SAVE_ERROR")
  \/ exists now1 now2,
       let t := Todo.createTodo (uuidSource w (drawn w)) (DateAt now1) (DateAt now2) input in
       Todo.validateTodoInput input = []
       /\ existsb (categoryHasId (Todo.in_categoryId input)) (categories m) = true
       /\ m' = recount (Todo.in_categoryId input) (setTodos (todos m ++ [t]) m)
       /\ (r = Ok t \/ saveFailed r).
Proof.
  intros Hinit H. unfold addTodo in H. enter Hinit H.
  destruct (bool_decide (Todo.validateTodoInput input = [])) eqn:Hvalid; cbn [negb] in H.
  2:{ finish H. left. split; [reflexivity|]. eexists. split; [reflexivity|discriminate]. }
  apply bool_decide_eq_true_1 in Hvalid.
  rewrite (bind_ok _ _ _ _ _ (categoryExists_ok _ m w Hinit)) in H.
  destruct (existsb _ (categories m)) eqn:Hexists; cbn [negb] in H.
  2:{ finish H. left. split; [reflexivity|]. eexists. split; [reflexivity|discriminate]. }
  unfold bind at 1, io at 1 in H. cbn [snd fst Fs.uuidv4] in H.
  unfold bind at 1, io at 1 in H. cbn [snd fst Fs.now] in H.
  set (now1 := clock w (ticks w)) in H.
  assert (Hnow2 : exists now2 w2,
            (if Todo.in_completed input then io Fs.now else ret (DateAt now1))
              (m, {| files := files w; observed := observed w; clock := clock w;
                     ticks := S (ticks w); uuidSource := uuidSource w;
                     drawn := S (drawn w) |})
            = (Ok (DateAt now2), (m, w2))).
  { destruct (Todo.in_completed input); cbn; eauto. }
  destruct Hnow2 as (now2 & w2 & Hnow2).
  rewrite (bind_ok _ _ _ _ _ Hnow2) in H.
  unfold bind at 1 in H. cbn [update fst snd] in H.
  set (t := Todo.createTodo _ _ _ input) in H.
  set (m1 := setTodos (todos m ++ [t]) m) in H.
  rewrite (bind_ok _ _ _ _ _ (updateCategoryTodoCount_ok _ m1 w2 Hinit)) in H.
  assert (Hinit2 : isInitialized (recount (Todo.in_categoryId input) m1) = true)
    by now rewrite recount_isInitialized.
  destruct (autoSaveIfEnabled_state _ w2 Hinit2) as (rs & w3 & Hsave & Hrs & _).
  unfold bind at 1 in H. rewrite Hsave in H.
  right. exists now1, now2. fold t. fold m1.
  destruct rs as [[]|e]; finish H; repeat split; auto.
  right. destruct Hrs as [[=]|(e' & [= <-] & Hcode)]. exists e. auto.
Qed.

Lemma handleCompletion_spec (cur : Todo.Todo) (updates : Todo.TodoUpdates)
    (m : TodoManager) (w : World) :
  exists updates' w1,
    handleCompletion cur updates (m, w) = (Ok updates', (m, w1))
    /\ completionHandled cur updates updates'
    /\ Todo.up_categoryId updates' = Todo.up_categoryId updates.
Proof.
  unfold handleCompletion, completionHandled.
  destruct (Todo.up_completed updates) as [c|]; [|eauto 6].
  destruct (negb (Bool.eqb c (Todo.completed cur))); [|eauto 6].
  destruct c; [|eauto 6].
  unfold bind, io. cbn. eauto 8.
Qed.

Lemma recountMoved_ok (old : string) (target : option string) (m : TodoManager) (w : World) :
  isInitialized m = true ->
  match target with
  | Some c =>
      if negb (String.eqb c old)
      then bind (updateCategoryTodoCount old) (fun _ => updateCategoryTodoCount c)
      else ret tt
  | None => ret tt
  end (m, w) = (Ok tt, (recountMoved old target m, w)).
Proof.
  intros H. unfold recountMoved. destruct target as [c|]; [|reflexivity].
  destruct (negb (String.eqb c old)); [|reflexivity].
  rewrite (bind_ok _ _ _ _ _ (updateCategoryTodoCount_ok old m w H)).
  apply updateCategoryTodoCount_ok. now rewrite recount_isInitialized.
Qed.

Lemma recountMoved_isInitialized (old : string) (target : option string) (m : TodoManager) :
  isInitialized (recountMoved old target m) = isInitialized m.
Proof.
  unfold recountMoved. destruct target as [c|]; [|reflexivity].
  destruct (negb _); [|reflexivity]. now rewrite !recount_isInitialized.
Qed.

Lemma updateTodo_state (id : string) (updates : Todo.TodoUpdates) (m : TodoManager)
    (w : World) (r : Result bool) (m' : TodoManager) (w' : World) :
  isInitialized m = true ->
  updateTodo id updates (m, w) = (r, (m', w')) ->
  (m' = m /\ exists e, r = Throw e /\ code e <> Some "SAVE_ERROR")
  \/ exists i cur updates',
       findIndex (todoHasId id) (todos m) = Some i
       /\ todos m !! i = Some cur
       /\ completionHandled cur updates updates'
       /\ (forall c, Todo.up_categoryId updates = Some c ->
                     existsb (categoryHasId c) (categories m) = true)
       /\ m' = recountMoved (Todo.categoryId cur) (Todo.up_categoryId updates)
                 (setTodos (<[i := Todo.applyUpdates cur updates']> (todos m)) m)
       /\ (r = Ok true \/ saveFailed r).
Proof.
  intros Hinit H. unfold updateTodo in H. enter Hinit H.
  unfold bind at 1 in H. cbn [this fst] in H.
  destruct (findIndex (todoHasId id) (todos m)) as [i|] eqn:Hfind.
  2:{ finish H. left. split; [reflexivity|]. eexists. split; [reflexivity|discriminate]. }
  destruct (todos m !! i) as [cur|] eqn:Hcur.
  2:{ finish H. left. split; [reflexivity|]. eexists. split; [reflexivity|discriminate]. }
  unfold bind at 1, validationError at 1 in H.
  destruct (match Todo.up_title updates with Some t => _ | None => _ end) as [msg|].
  { finish H. left. split; [reflexivity|]. eexists. split; [reflexivity|discriminate]. }
  cbn [ret] in H.
  unfold bind at 1, validationError at 1 in H.
  destruct (match Todo.up_description updates with Some (Some d) => _ | _ => _ end) as [msg|].
  { finish H. left. split; [reflexivity|]. eexists. split; [reflexivity|discriminate]. }
  cbn [ret] in H.
  unfold bind at 1, validationError at 1 in H.
  destruct (match Todo.up_priority updates with Some p => _ | None => _ end) as [msg|].
  { finish H. left. split; [reflexivity|]. eexists. split; [reflexivity|discriminate]. }
  cbn [ret] in H.
  assert (Hcat : (forall c, Todo.up_categoryId updates = Some c ->
                            existsb (categoryHasId c) (categories m) = true)
                 \/ exists c, Todo.up_categoryId updates = Some c
                              /\ existsb (categoryHasId c) (categories m) = false).
  { destruct (Todo.up_categoryId updates) as [c|]; [|left; discriminate].
    destruct (existsb (categoryHasId c) (categories m)) eqn:Hex.
    - left. now intros ? [= <-].
    - right. eauto. }
  unfold bind at 1 in H.
  destruct Hcat as [Hcat | (c & Hc & Hex)].
  2:{ rewrite Hc in H.
      rewrite (bind_ok _ _ _ _ _ (categoryExists_ok c m w Hinit)), Hex in H.
      cbn in H. finish H. left. split; [reflexivity|].
      eexists. split; [reflexivity|discriminate]. }
  assert (Hcheck : match Todo.up_categoryId updates with
                   | Some c =>
                       bind (categoryExists c) (fun found =>
                         if negb found then
                           throw (TodoManagerError
                                    ("Category with ID " +:+ c +:+ " does not exist")
                                    "CATEGORY_NOT_FOUND" (Fields [("categoryId", c)]))
                         else ret tt)
                   | None => ret tt
                   end (m, w) = (Ok tt, (m, w))).
  { destruct (Todo.up_categoryId updates) as [c|]; [|reflexivity].
    rewrite (bind_ok _ _ _ _ _ (categoryExists_ok c m w Hinit)), (Hcat c eq_refl).
    reflexivity. }
  rewrite Hcheck in H. clear Hcheck.
  destruct (handleCompletion_spec cur updates m w) as (updates' & w1 & Hh & Hdone & Hsame).
  rewrite (bind_ok _ _ _ _ _ Hh) in H.
  unfold bind at 1 in H. cbn [update fst snd] in H.
  set (m1 := setTodos (<[i := Todo.applyUpdates cur updates']> (todos m)) m) in H.
  rewrite Hsame in H.
  rewrite (bind_ok _ _ _ _ _ (recountMoved_ok _ _ m1 w1 Hinit)) in H.
  assert (Hinit2 : isInitialized
                     (recountMoved (Todo.categoryId cur) (Todo.up_categoryId updates) m1)
                   = true) by now rewrite recountMoved_isInitialized.
  destruct (autoSaveIfEnabled_state _ w1 Hinit2) as (rs & w3 & Hsave & Hrs & _).
  unfold bind at 1 in H. rewrite Hsave in H.
  right. exists i, cur, updates'. fold m1.
  destruct rs as [[]|e]; finish H; repeat split; auto.
  right. destruct Hrs as [[=]|(e' & [= <-] & Hcode)]. exists e. auto.
Qed.

(** [updateTodo] on an existing todo, with a payload that passes the
    checks: the change is made, whatever the automatic save does
    afterwards. *)
Lemma updateTodo_accepted (id : string) (updates : Todo.TodoUpdates) (m : TodoManager)
    (w : World) (i : nat) (cur : Todo.Todo) :
  isInitialized m = true ->
  findIndex (todoHasId id) (todos m) = Some i ->
  todos m !! i = Some cur ->
  passesChecks m updates ->
  exists updates',
    completionHandled cur updates updates'
    /\ fst (snd (updateTodo id updates (m, w)))
       = recountMoved (Todo.categoryId cur) (Todo.up_categoryId updates)
           (setTodos (<[i := Todo.applyUpdates cur updates']> (todos m)) m)
    /\ (fst (updateTodo id updates (m, w)) = Ok true
        \/ saveFailed (fst (updateTodo id updates (m, w)))).
Proof.
  intros Hinit Hfind Hcur (Htitle & Hdesc & Hprio & Hcat).
  destruct (updateTodo id updates (m, w)) as [r [m' w']] eqn:H. cbn [fst snd].
  apply (updateTodo_state _ _ _ _ _ _ _ Hinit) in H as Hstate.
  destruct Hstate as [[-> (e & -> & Hcode)]
                     | (i' & cur' & updates' & Hi & Hcur' & Hdone & _ & -> & Hr)].
  2:{ assert (i' = i) by congruence. subst i'.
      assert (cur' = cur) by congruence. subst cur'. eauto. }
  exfalso. unfold updateTodo in H. enter Hinit H.
  unfold bind at 1 in H. cbn [this fst] in H. rewrite Hfind, Hcur in H.
  unfold bind at 1, validationError at 1 in H.
  destruct (match Todo.up_title updates with Some t => _ | None => _ end)
    as [msg|] eqn:Et.
  { destruct (Todo.up_title updates) as [t|]; [|discriminate Et].
    rewrite (Htitle t eq_refl) in Et. discriminate Et. }
  cbn [ret] in H.
  unfold bind at 1, validationError at 1 in H.
  destruct (match Todo.up_description updates with Some (Some d) => _ | _ => _ end)
    as [msg|] eqn:Ed.
  { destruct (Todo.up_description updates) as [[d|]|]; try discriminate Ed.
    rewrite (Hdesc d eq_refl) in Ed. discriminate Ed. }
  cbn [ret] in H.
  unfold bind at 1, validationError at 1 in H.
  destruct (match Todo.up_priority updates with Some p => _ | None => _ end)
    as [msg|] eqn:Ep.
  { destruct (Todo.up_priority updates) as [p|]; [|discriminate Ep].
    rewrite (Hprio p eq_refl) in Ep. discriminate Ep. }
  cbn [ret] in H.
  assert (Hcheck : match Todo.up_categoryId updates with
                   | Some c =>
                       bind (categoryExists c) (fun found =>
                         if negb found then
                           throw (TodoManagerError
                                    ("Category with ID " +:+ c +:+ " does not exist")
                                    "CATEGORY_NOT_FOUND" (Fields [("categoryId", c)]))
                         else ret tt)
                   | None => ret tt
                   end (m, w) = (Ok tt, (m, w))).
  { destruct (Todo.up_categoryId updates) as [c|]; [|reflexivity].
    rewrite (bind_ok _ _ _ _ _ (categoryExists_ok c m w Hinit)), (Hcat c eq_refl).
    reflexivity. }
  unfold bind at 1 in H. rewrite Hcheck in H. clear Hcheck.
  destruct (handleCompletion_spec cur updates m w) as (updates' & w1 & Hh & Hdone & Hsame).
  rewrite (bind_ok _ _ _ _ _ Hh) in H.
  unfold bind at 1 in H. cbn [update fst snd] in H.
  set (m1 := setTodos (<[i := Todo.applyUpdates cur updates']> (todos m)) m) in H.
  rewrite Hsame in H.
  rewrite (bind_ok _ _ _ _ _ (recountMoved_ok _ _ m1 w1 Hinit)) in H.
  assert (Hinit2 : isInitialized
                     (recountMoved (Todo.categoryId cur) (Todo.up_categoryId updates) m1)
                   = true) by now rewrite recountMoved_isInitialized.
  destruct (autoSaveIfEnabled_state _ w1 Hinit2) as (rs & w3 & Hsave & Hrs & _).
  unfold bind at 1 in H. rewrite Hsave in H.
  destruct rs as [[]|e0]; [discriminate H|].
  injection H as <- _ _.
  destruct Hrs as [[=]|(e' & [= <-] & Hcode')]. contradiction.
Qed.

(** [addTodo] with a valid input whose category exists: the todo is
    stored, whatever the automatic save does afterwards. *)
Lemma addTodo_accepted (input : Todo.TodoInput) (m : TodoManager) (w : World) :
  isInitialized m = true ->
  Todo.validateTodoInput input = [] ->
  existsb (categoryHasId (Todo.in_categoryId input)) (categories m) = true ->
  exists now1 now2,
    let t := Todo.createTodo (uuidSource w (drawn w)) (DateAt now1) (DateAt now2) input in
    fst (snd (addTodo input (m, w)))
    = recount (Todo.in_categoryId input) (setTodos (todos m ++ [t]) m)
    /\ (fst (addTodo input (m, w)) = Ok t \/ saveFailed (fst (addTodo input (m, w)))).
Proof.
  intros Hinit Hvalid Hexists.
  destruct (addTodo input (m, w)) as [r [m' w']] eqn:H. cbn [fst snd].
  apply (addTodo_state _ _ _ _ _ _ Hinit) in H as Hstate.
  destruct Hstate as [[-> (e & -> & Hcode)] | (now1 & now2 & _ & _ & -> & Hr)]; [|eauto].
  exfalso. unfold addTodo in H. enter Hinit H.
  rewrite bool_decide_eq_true_2 in H by exact Hvalid. cbn [negb] in H.
  rewrite (bind_ok _ _ _ _ _ (categoryExists_ok _ m w Hinit)), Hexists in H.
  cbn [negb] in H.
  unfold bind at 1, io at 1 in H. cbn [snd fst Fs.uuidv4] in H.
  unfold bind at 1, io at 1 in H. cbn [snd fst Fs.now] in H.
  assert (Hnow2 : exists now2 w2,
            (if Todo.in_completed input then io Fs.now
             else ret (DateAt (clock w (ticks w))))
              (m, {| files := files w; observed := observed w; clock := clock w;
                     ticks := S (ticks w); uuidSource := uuidSource w;
                     drawn := S (drawn w) |})
            = (Ok (DateAt now2), (m, w2))).
  { destruct (Todo.in_completed input); cbn; eauto. }
  destruct Hnow2 as (now2 & w2 & Hnow2).
  rewrite (bind_ok _ _ _ _ _ Hnow2) in H.
  unfold bind at 1 in H. cbn [update fst snd] in H.
  set (t := Todo.createTodo _ _ _ input) in H.
  set (m1 := setTodos (todos m ++ [t]) m) in H.
  rewrite (bind_ok _ _ _ _ _ (updateCategoryTodoCount_ok _ m1 w2 Hinit)) in H.
  assert (Hinit2 : isInitialized (recount (Todo.in_categoryId input) m1) = true)
    by now rewrite recount_isInitialized.
  destruct (autoSaveIfEnabled_state _ w2 Hinit2) as (rs & w3 & Hsave & Hrs & _).
  unfold bind at 1 in H. rewrite Hsave in H.
  destruct rs as [[]|e0]; [discriminate H|].
  injection H as <- _ _.
  destruct Hrs as [[=]|(e' & [= <-] & Hcode')]. contradiction.
Qed.

Lemma deleteTodo_state (id : string) (m : TodoManager) (w : World)
    (r : Result bool) (m' : TodoManager) (w' : World) :
  isInitialized m = true ->
  deleteTodo id (m, w) = (r, (m', w')) ->
  (m' = m /\ exists e, r = Throw e /\ code e <> Some "SAVE_ERROR")
  \/ exists i todo,
       findIndex (todoHasId id) (todos m) = Some i
       /\ todos m !! i = Some todo
       /\ m' = recount (Todo.categoryId todo) (setTodos (delete i (todos m)) m)
       /\ (r = Ok true \/ saveFailed r).
Proof.
  intros Hinit H. unfold deleteTodo in H. enter Hinit H.
  unfold bind at 1 in H. cbn [this fst] in H.
  destruct (findIndex (todoHasId id) (todos m)) as [i|] eqn:Hfind.
  2:{ finish H. left. split; [reflexivity|]. eexists. split; [reflexivity|discriminate]. }
  destruct (todos m !! i) as [todo|] eqn:Htodo.
  2:{ finish H. left. split; [reflexivity|]. eexists. split; [reflexivity|discriminate]. }
  unfold bind at 1 in H. cbn [update fst snd] in H.
  set (m1 := setTodos (delete i (todos m)) m) in H.
  rewrite (bind_ok _ _ _ _ _ (updateCategoryTodoCount_ok _ m1 w Hinit)) in H.
  assert (Hinit2 : isInitialized (recount (Todo.categoryId todo) m1) = true)
    by now rewrite recount_isInitialized.
  destruct (autoSaveIfEnabled_state _ w Hinit2) as (rs & w3 & Hsave & Hrs & _).
  unfold bind at 1 in H. rewrite Hsave in H.
  right. exists i, todo. fold m1.
  destruct rs as [[]|e]; finish H; repeat split; auto.
  right. destruct Hrs as [[=]|(e' & [= <-] & Hcode)]. exists e. auto.
Qed.

(** The payload that [toggleTodoCompletion] hands to [updateTodo]. *)
Lemma toggleTodoCompletion_unfold (id : string) (m : TodoManager) (w : World) :
  isInitialized m = true ->
  toggleTodoCompletion id (m, w)
  = match find (todoHasId id) (todos m) with
    | None => todoNotFound id (m, w)
    | Some todo =>
        updateTodo id {| Todo.up_title := None; Todo.up_description := None;
                         Todo.up_completed := Some (negb (Todo.completed todo));
                         Todo.up_priority := None; Todo.up_categoryId := None;
                         Todo.up_completedAt := None; Todo.up_dueDate := None;
                         Todo.up_id := None; Todo.up_createdAt := None |} (m, w)
    end.
Proof.
  intros Hinit. unfold toggleTodoCompletion, getTodoById.
  rewrite (bind_ok _ _ _ _ _ (ensureInitialized_ok m w Hinit)).
  unfold bind at 1. rewrite (bind_ok _ _ _ _ _ (ensureInitialized_ok m w Hinit)).
  unfold bind at 1. cbn [this ret fst].
  now destruct (find (todoHasId id) (todos m)).
Qed.

Lemma find_findIndex {A} (p : A -> bool) (l : list A) (x : A) :
  find p l = Some x -> exists i, findIndex p l = Some i /\ l !! i = Some x.
Proof.
  induction l as [|a l IH]; cbn; [discriminate|].
  destruct (p a).
  - intros [= <-]. now exists 0.
  - intros H. destruct (IH H) as (i & Hi & Hx). exists (S i). now rewrite Hi.
Qed.

Lemma addCategory_state (input : Category.CategoryInput) (m : TodoManager) (w : World)
    (r : Result Category.Category) (m' : TodoManager) (w' : World) :
  isInitialized m = true ->
  addCategory input (m, w) = (r, (m', w')) ->
  (Category.validateCategoryInput input <> [] /\ m' = m
   /\ exists e, r = Throw e /\ code e = Some "VALIDATION_ERROR")
  \/ (Category.validateCategoryInput input = []
      /\ Category.isNameUnique (Category.in_name input) (categories m) = false /\ m' = m
      /\ exists e, r = Throw e /\ code e = Some "DUPLICATE_CATEGORY_NAME")
  \/ (Category.validateCategoryInput input = []
      /\ Category.isNameUnique (Category.in_name input) (categories m) = true
      /\ m' = setCategories
                (categories m ++ [Category.createCategory (uuidSource w (drawn w)) input]) m
      /\ (r = Ok (Category.createCategory (uuidSource w (drawn w)) input) \/ saveFailed r)).
Proof.
  intros Hinit H. unfold addCategory in H. enter Hinit H.
  destruct (bool_decide (Category.validateCategoryInput input = [])) eqn:Hvalid;
    cbn [negb] in H.
  2:{ finish H. left. apply bool_decide_eq_false_1 in Hvalid. eauto 6. }
  apply bool_decide_eq_true_1 in Hvalid. right.
  unfold bind at 1 in H. cbn [this fst] in H.
  destruct (Category.isNameUnique (Category.in_name input) (categories m)) eqn:Huniq;
    cbn [negb] in H.
  2:{ finish H. left. eauto 8. }
  right.
  unfold bind at 1, io at 1 in H. cbn [snd fst Fs.uuidv4] in H.
  unfold bind at 1 in H. cbn [update fst snd] in H.
  set (m1 := setCategories _ m) in H.
  assert (Hinit2 : isInitialized m1 = true) by exact Hinit.
  match type of H with
  | _ (_, ?w1) = _ =>
      destruct (autoSaveIfEnabled_state m1 w1 Hinit2) as (rs & w3 & Hsave & Hrs & _)
  end.
  unfold bind at 1 in H. rewrite Hsave in H.
  destruct rs as [[]|e]; finish H; repeat split; auto.
  right. destruct Hrs as [[=]|(e' & [= <-] & Hcode)]. exists e. auto.
Qed.

(** [addCategory] with a valid input of a new name: the category is
    stored, whatever the automatic save does afterwards. *)
Lemma addCategory_accepted (input : Category.CategoryInput) (m : TodoManager) (w : World) :
  isInitialized m = true ->
  Category.validateCategoryInput input = [] ->
  Category.isNameUnique (Category.in_name input) (categories m) = true ->
  let c := Category.createCategory (uuidSource w (drawn w)) input in
  exists rs w',
    addCategory input (m, w)
    = (match rs with Ok _ => Ok c | Throw e => Throw e end,
       (setCategories (categories m ++ [c]) m, w'))
    /\ (autoSave (config m) = false -> rs = Ok tt)
    /\ (rs = Ok tt \/ exists e, rs = Throw e /\ code e = Some "SAVE_ERROR").
Proof.
  intros Hinit Hvalid Huniq c. unfold addCategory.
  rewrite (bind_ok _ _ _ _ _ (ensureInitialized_ok m w Hinit)).
  rewrite bool_decide_eq_true_2 by exact Hvalid. cbn [negb].
  unfold bind at 1. cbn [this fst]. rewrite Huniq. cbn [negb].
  unfold bind at 1, io at 1. cbn [snd fst Fs.uuidv4].
  unfold bind at 1. cbn [update fst snd]. fold c.
  set (m1 := setCategories (categories m ++ [c]) m).
  set (w1 := {| files := files w; observed := observed w; clock := clock w;
                ticks := ticks w; uuidSource := uuidSource w; drawn := S (drawn w) |}).
  assert (Hinit1 : isInitialized m1 = true) by exact Hinit.
  destruct (autoSaveIfEnabled_state m1 w1 Hinit1) as (rs & w3 & Hsave & Hrs & Hoff & _).
  unfold bind at 1. rewrite Hsave.
  exists rs, w3. split; [now destruct rs as [[]|e]|]. split; [exact Hoff|exact Hrs].
Qed.

Lemma updateCategory_state (id : string) (updates : Category.CategoryUpdates)
    (m : TodoManager) (w : World) (r : Result bool) (m' : TodoManager) (w' : World) :
  isInitialized m = true ->
  updateCategory id updates (m, w) = (r, (m', w')) ->
  (m' = m /\ exists e, r = Throw e /\ code e <> Some "SAVE_ERROR")
  \/ exists i cur,
       findIndex (categoryHasId id) (categories m) = Some i
       /\ categories m !! i = Some cur
       /\ m' = setCategories (<[i := applyCategoryUpdates cur updates]> (categories m)) m
       /\ (r = Ok true \/ saveFailed r).
Proof.
  intros Hinit H. unfold updateCategory in H. enter Hinit H.
  unfold bind at 1 in H. cbn [this fst] in H.
  destruct (findIndex (categoryHasId id) (categories m)) as [i|] eqn:Hfind.
  2:{ finish H. left. split; [reflexivity|]. eexists. split; [reflexivity|discriminate]. }
  destruct (categories m !! i) as [cur|] eqn:Hcur.
  2:{ finish H. left. split; [reflexivity|]. eexists. split; [reflexivity|discriminate]. }
  unfold bind at 1 in H.
  destruct (Category.up_name updates) as [name|].
  - unfold bind at 1, validationError at 1 in H.
    destruct (Category.validateName name) as [msg|].
    { finish H. left. split; [reflexivity|]. eexists. split; [reflexivity|discriminate]. }
    cbn [ret] in H.
    destruct (negb (Category.isNameUnique name _)).
    { finish H. left. split; [reflexivity|]. eexists. split; [reflexivity|discriminate]. }
    cbn [ret] in H.
    unfold bind at 1, validationError at 1 in H.
    destruct (match Category.up_color updates with Some c => _ | None => _ end) as [msg|].
    { finish H. left. split; [reflexivity|]. eexists. split; [reflexivity|discriminate]. }
    cbn [ret] in H.
    unfold bind at 1 in H. cbn [update fst snd] in H.
    set (m1 := setCategories _ m) in H.
    assert (Hinit2 : isInitialized m1 = true) by exact Hinit.
    destruct (autoSaveIfEnabled_state m1 w Hinit2) as (rs & w3 & Hsave & Hrs & _).
    unfold bind at 1 in H. rewrite Hsave in H.
    right. exists i, cur.
    destruct rs as [[]|e]; finish H; repeat split; auto.
    right. destruct Hrs as [[=]|(e' & [= <-] & Hcode)]. exists e. auto.
  - cbn [ret] in H.
    unfold bind at 1, validationError at 1 in H.
    destruct (match Category.up_color updates with Some c => _ | None => _ end) as [msg|].
    { finish H. left. split; [reflexivity|]. eexists. split; [reflexivity|discriminate]. }
    cbn [ret] in H.
    unfold bind at 1 in H. cbn [update fst snd] in H.
    set (m1 := setCategories _ m) in H.
    assert (Hinit2 : isInitialized m1 = true) by exact Hinit.
    destruct (autoSaveIfEnabled_state m1 w Hinit2) as (rs & w3 & Hsave & Hrs & _).
    unfold bind at 1 in H. rewrite Hsave in H.
    right. exists i, cur.
    destruct rs as [[]|e]; finish H; repeat split; auto.
    right. destruct Hrs as [[=]|(e' & [= <-] & Hcode)]. exists e. auto.
Qed.

End Operations.

(** ** C7: the derived counts *)

Section DerivedCounts.

Import TodoManager.












Lemma deleteCategory_state (id : string) (target : option string) (m : TodoManager)
    (w : World) (r : Result bool) (m' : TodoManager) (w' : World) :
  isInitialized m = true ->
  deleteCategory id target (m, w) = (r, (m', w')) ->
  (findIndex (categoryHasId id) (categories m) = None /\ m' = m
   /\ exists e, r = Throw e /\ code e = Some "CATEGORY_NOT_FOUND")
  \/ exists i rl ml wl,
       findIndex (categoryHasId id) (categories m) = Some i
       /\ resolveTodos target (List.filter (inCategory id) (todos m)) (m, w)
          = (rl, (ml, wl))
       /\ match rl with
          | Throw e => m' = ml /\ r = Throw e
          | Ok _ =>
              m' = setCategories (delete i (categories ml)) ml
              /\ (isInitialized ml = true ->
                  (r = Ok true \/ saveFailed r)
                  /\ (autoSave (config ml) = false -> r = Ok true)
                  /\ (isOk (fst (FileManager.save (fileManager ml) (todos ml)
                                   (delete i (categories ml)) wl)) = true -> r = Ok true))
          end.
Proof.
  intros Hinit H. unfold deleteCategory in H. enter Hinit H.
  unfold bind at 1 in H. cbn [this fst] in H.
  destruct (findIndex (categoryHasId id) (categories m)) as [i|] eqn:Hfind.
  2:{ finish H. left. eauto 6. }
  right.
  rewrite (bind_ok _ _ _ _ _ (getTodosByCategory_ok id m w Hinit)) in H.
  unfold bind at 1 in H.
  destruct (resolveTodos target _ (m, w)) as [rl [ml wl]] eqn:Hloop.
  exists i, rl, ml, wl. split; [reflexivity|]. split; [reflexivity|].
  destruct rl as [[]|e].
  2:{ now finish H. }
  unfold bind at 1 in H. cbn [update fst snd] in H.
  set (m1 := setCategories (delete i (categories ml)) ml) in *.
  destruct (isInitialized ml) eqn:Hml.
  - assert (Hinit2 : isInitialized m1 = true) by exact Hml.
    destruct (autoSaveIfEnabled_state m1 wl Hinit2) as (rs & w3 & Hsave & Hrs & Hoff & Hok).
    unfold bind at 1 in H. rewrite Hsave in H.
    destruct rs as [[]|e]; finish H; (split; [reflexivity|]); intros _.
    + repeat split; auto.
    + split; [|split].
      * right. destruct Hrs as [[=]|(e' & [= <-] & Hcode)]. exists e. auto.
      * intros Hauto. now specialize (Hoff Hauto).
      * intros Hs. now specialize (Hok Hs).
  - unfold bind at 1 in H.
    generalize (autoSaveIfEnabled_manager m1 wl).
    destruct (autoSaveIfEnabled (m1, wl)) as [[[]|e] [m2 w2]]; cbn [fst snd];
      intros ->; finish H; (split; [reflexivity|discriminate]).
Qed.



Lemma recountMoved_todos (old : string) (target : option string) (m : TodoManager) :
  todos (recountMoved old target m) = todos m.
Proof.
  unfold recountMoved. destruct target as [c|]; [|reflexivity].
  destruct (negb _); [|reflexivity]. now rewrite !recount_todos.
Qed.


(** C7 (the code at the failing input): [createCategory] writes
    [todoCount: 0] before it spreads the input, so [addCategory] stores
    the [todoCount] that the caller's object carries.  For every valid
    input with a new name, on an initialized coordinator, the category is
    stored with that count and the todos are left as they are, whether
    the automatic save succeeds or not; the counts then disagree whenever
    the number is not the number of todos that refer to the category. *)
Theorem addCategory_stores_caller_todoCount (input : Category.CategoryInput) (n : Z)
    (m : TodoManager) (w : World) :
  isInitialized m = true ->
  Category.validateCategoryInput input = [] ->
  Category.isNameUnique (Category.in_name input) (categories m) = true ->
  Category.in_todoCount input = Some n ->
  let c := Category.createCategory (uuidSource w (drawn w)) input in
  let m' := fst (snd (addCategory input (m, w))) in
  Category.todoCount c = n
  /\ categories m' = (categories m ++ [c])%list
  /\ todos m' = todos m
  /\ (autoSave (config m) = false -> fst (addCategory input (m, w)) = Ok c)
  /\ (n <> countIn (Category.id c) (todos m) -> ~ countsAgree m').
Proof.
  intros Hinit Hvalid Huniq Hn c m'.
  assert (Hc : Category.todoCount c = n) by (subst c; cbn; now rewrite Hn).
  destruct (addCategory_accepted input m w Hinit Hvalid Huniq)
    as (rs & w3 & Hrun & Hoff & _). fold c in Hrun.
  subst m'. rewrite Hrun. cbn [fst snd].
  split; [exact Hc|]. split; [reflexivity|]. split; [reflexivity|].
  split; [intros Hauto; now rewrite (Hoff Hauto)|].
  intros Hne Hcounts. apply Hne. rewrite <- Hc.
  apply (Hcounts c). cbn [categories setCategories]. apply elem_of_app. right. left.
Qed.

End DerivedCounts.


Lemma addCategory_stores_caller_todoCount_witness :
  let s := TodoManager.addCategory Sample.countedErrands (Sample.busy, Sample.emptyWorld) in
  exists c,
    fst s = Ok c
    /\ Category.todoCount c = 5%Z
    /\ TodoManager.categories (fst (snd s)) = [Sample.workWithOne; Sample.home; c]
    /\ countIn (Category.id c) (TodoManager.todos (fst (snd s))) = 0%Z
    /\ ~ countsAgree (fst (snd s)).
Proof.
  cbn zeta.
  destruct (addCategory_stores_caller_todoCount Sample.countedErrands 5 Sample.busy
              Sample.emptyWorld eq_refl eq_refl eq_refl eq_refl)
    as (Hcount & Hcats & Htodos & Hoff & Hbad).
  eexists. split; [exact (Hoff eq_refl)|]. split; [exact Hcount|].
  split; [exact Hcats|]. split; [now rewrite Htodos|].
  apply Hbad. discriminate.
Defined.

(** ** C8: uniqueness of category names *)

Section UniqueNames.

Import TodoManager.

Lemma isNameUnique_false (name : string) (cats : list Category.Category) :
  Category.isNameUnique name cats = false <->
  exists c, c ∈ cats
            /\ JSString.toLowerCase (Category.name c) = JSString.toLowerCase name.
Proof.
  unfold Category.isNameUnique. rewrite negb_false_iff, existsb_exists.
  split; intros (c & Hc & H); exists c.
  - split; [now apply list_elem_of_In|]. now apply String.eqb_eq.
  - split; [now apply list_elem_of_In|]. now apply String.eqb_eq.
Qed.

Lemma elem_of_otherCategories (id : string) (c : Category.Category)
    (cats : list Category.Category) :
  c ∈ List.filter (fun cat => negb (categoryHasId id cat)) cats
  <-> c ∈ cats /\ Category.id c <> id.
Proof.
  rewrite !list_elem_of_In, filter_In. unfold categoryHasId.
  destruct (String.eqb_spec (Category.id c) id); cbn; intuition congruence.
Qed.

(** [addCategory] with a valid input whose name is taken. *)
Lemma addCategory_duplicate (input : Category.CategoryInput) (m : TodoManager) (w : World) :
  isInitialized m = true ->
  Category.validateCategoryInput input = [] ->
  Category.isNameUnique (Category.in_name input) (categories m) = false ->
  exists e, addCategory input (m, w) = (Throw e, (m, w))
            /\ code e = Some "DUPLICATE_CATEGORY_NAME".
Proof.
  intros Hinit Hvalid Huniq. unfold addCategory.
  rewrite (bind_ok _ _ _ _ _ (ensureInitialized_ok m w Hinit)).
  rewrite bool_decide_eq_true_2 by exact Hvalid. cbn [negb].
  unfold bind at 1. cbn [this fst]. rewrite Huniq. cbn [negb].
  eexists. split; reflexivity.
Qed.

(** The steps of [updateCategory] for a payload that carries a name
    only. *)
Lemma updateCategory_rename (id name : string) (m : TodoManager) (w : World)
    (i : nat) (cur : Category.Category) :
  isInitialized m = true ->
  findIndex (categoryHasId id) (categories m) = Some i ->
  categories m !! i = Some cur ->
  Category.validateName name = None ->
  let renamed := {| Category.id := Category.id cur; Category.name := name;
                    Category.color := Category.color cur;
                    Category.todoCount := Category.todoCount cur |} in
  if Category.isNameUnique name
       (List.filter (fun cat => negb (categoryHasId id cat)) (categories m))
  then exists w',
         updateCategory id (Sample.renameTo name) (m, w)
         = (if autoSave (config m) then
              match fst (FileManager.save (fileManager m) (todos m)
                           (<[i := renamed]> (categories m)) w) with
              | Ok _ => Ok true
              | Throw e =>
                  Throw (TodoManagerError ("Failed to save data: " +:+ message e)
                                          "SAVE_ERROR" (CausedBy e))
              end
            else Ok true,
            (setCategories (<[i := renamed]> (categories m)) m, w'))
  else exists e,
         updateCategory id (Sample.renameTo name) (m, w) = (Throw e, (m, w))
         /\ code e = Some "DUPLICATE_CATEGORY_NAME".
Proof.
  intros Hinit Hfind Hcur Hvalid renamed.
  destruct (Category.isNameUnique name _) eqn:Huniq.
  - assert (Hinit1 : isInitialized (setCategories (<[i := renamed]> (categories m)) m)
                     = true) by exact Hinit.
    destruct (autoSaveIfEnabled_result _ w Hinit1) as [w' Hsave].
    exists w'. unfold updateCategory.
    rewrite (bind_ok _ _ _ _ _ (ensureInitialized_ok m w Hinit)).
    unfold bind at 1. cbn [this fst]. rewrite Hfind, Hcur.
    cbn [Sample.renameTo Category.up_name Category.up_color].
    unfold bind at 1. unfold bind at 1, validationError at 1.
    rewrite Hvalid. cbn [ret]. rewrite Huniq. cbn [negb ret].
    unfold bind at 1, validationError at 1. cbn [ret].
    unfold bind at 1. cbn [update fst snd].
    change (applyCategoryUpdates cur (Sample.renameTo name)) with renamed.
    unfold bind at 1. rewrite Hsave. cbn [config setCategories].
    destruct (autoSave (config m)); [|reflexivity].
    cbn [fileManager todos categories setCategories].
    now destruct (fst (FileManager.save _ _ _ w)).
  - unfold updateCategory.
    rewrite (bind_ok _ _ _ _ _ (ensureInitialized_ok m w Hinit)).
    unfold bind at 1. cbn [this fst]. rewrite Hfind, Hcur.
    cbn [Sample.renameTo Category.up_name Category.up_color].
    unfold bind at 1. unfold bind at 1, validationError at 1.
    rewrite Hvalid. cbn [ret]. rewrite Huniq. cbn [negb].
    eexists. split; reflexivity.
Qed.

(** C8 (as amended): on an initialized coordinator and for an input that
    passes validation, [addCategory] fails with DUPLICATE_CATEGORY_NAME
    exactly when some category has the same name up to case, and then
    changes nothing.  A category that [addCategory] has stored stands in
    the way of every later valid input with the same name up to case.
    [updateCategory] with a valid new name fails with that error exactly
    when a category with another id has the same name up to case; so a
    category is renamed to a case variant of its own name when no other
    category stands in the way: the new name is stored, and the call
    returns true when auto-save is off or the save succeeds and throws
    SAVE_ERROR when the automatic save fails. *)
Theorem category_names_are_unique :
  (forall input m w,
     isInitialized m = true ->
     Category.validateCategoryInput input = [] ->
     ((exists e, fst (addCategory input (m, w)) = Throw e
                 /\ code e = Some "DUPLICATE_CATEGORY_NAME")
      <-> exists c, c ∈ categories m
                    /\ JSString.toLowerCase (Category.name c)
                       = JSString.toLowerCase (Category.in_name input))
     /\ ((exists c, c ∈ categories m
                    /\ JSString.toLowerCase (Category.name c)
                       = JSString.toLowerCase (Category.in_name input)) ->
         snd (addCategory input (m, w)) = (m, w)))
  /\ (forall first second m w,
        isInitialized m = true ->
        Category.validateCategoryInput first = [] ->
        Category.isNameUnique (Category.in_name first) (categories m) = true ->
        Category.validateCategoryInput second = [] ->
        JSString.toLowerCase (Category.in_name second)
        = JSString.toLowerCase (Category.in_name first) ->
        let s1 := snd (addCategory first (m, w)) in
        (exists c, categories (fst s1) = (categories m ++ [c])%list
                   /\ Category.name c = Category.in_name first)
        /\ exists e, addCategory second s1 = (Throw e, s1)
                     /\ code e = Some "DUPLICATE_CATEGORY_NAME")
  /\ (forall id name m w cur,
        isInitialized m = true ->
        find (categoryHasId id) (categories m) = Some cur ->
        Category.validateName name = None ->
        let run := updateCategory id (Sample.renameTo name) (m, w) in
        let renamed := {| Category.id := Category.id cur; Category.name := name;
                          Category.color := Category.color cur;
                          Category.todoCount := Category.todoCount cur |} in
        ((exists e, fst run = Throw e /\ code e = Some "DUPLICATE_CATEGORY_NAME")
         <-> exists c, c ∈ categories m /\ Category.id c <> id
                       /\ JSString.toLowerCase (Category.name c)
                          = JSString.toLowerCase name)
        /\ (JSString.toLowerCase name = JSString.toLowerCase (Category.name cur) ->
            (forall c, c ∈ categories m -> Category.id c <> id ->
                       JSString.toLowerCase (Category.name c)
                       <> JSString.toLowerCase name) ->
            exists i,
              categories m !! i = Some cur
              /\ categories (fst (snd run)) = <[i := renamed]> (categories m)
              /\ fst run
                 = if autoSave (config m) then
                     match fst (FileManager.save (fileManager m) (todos m)
                                  (<[i := renamed]> (categories m)) w) with
                     | Ok _ => Ok true
                     | Throw e =>
                         Throw (TodoManagerError ("Failed to save data: " +:+ message e)
                                                 "SAVE_ERROR" (CausedBy e))
                     end
                   else Ok true)).
Proof.
  split; [|split].
  - intros input m w Hinit Hvalid.
    rewrite <- isNameUnique_false.
    destruct (Category.isNameUnique (Category.in_name input) (categories m)) eqn:Hu.
    + split; [|discriminate].
      split; [|discriminate].
      intros (e & He & Hcode).
      destruct (addCategory input (m, w)) as [r [m' w']] eqn:H. cbn [fst] in He. subst r.
      apply (addCategory_state _ _ _ _ _ _ Hinit) in H
        as [(Hv & _) | [(_ & Hu' & _) | (_ & _ & _ & Hr)]]; [contradiction|congruence|].
      destruct Hr as [[=] | (e' & [= <-] & Hcode')]. congruence.
    + destruct (addCategory_duplicate input m w Hinit Hvalid Hu) as (e & Hrun & Hcode).
      rewrite Hrun. cbn [fst snd]. split; [|reflexivity].
      split; [reflexivity|]. eauto.
  - intros first second m w Hinit Hvalid1 Huniq Hvalid Hsame s1.
    destruct (addCategory_accepted first m w Hinit Hvalid1 Huniq)
      as (rs & w1 & Hrun & _). cbn zeta in Hrun.
    subst s1. rewrite Hrun. cbn [fst snd categories setCategories].
    split; [eexists; split; reflexivity|].
    apply addCategory_duplicate; [exact Hinit|exact Hvalid|].
    apply isNameUnique_false. eexists. split.
    + cbn [categories setCategories]. apply elem_of_app. right. left.
    + cbn. now rewrite Hsame.
  - intros id name m w cur Hinit Hfind Hvalid run renamed.
    apply find_findIndex in Hfind as (i & Hi & Hcur).
    assert (Hother : Category.isNameUnique name
              (List.filter (fun cat => negb (categoryHasId id cat)) (categories m)) = false
            <-> exists c, c ∈ categories m /\ Category.id c <> id
                          /\ JSString.toLowerCase (Category.name c)
                             = JSString.toLowerCase name).
    { rewrite isNameUnique_false. split; intros (c & Hc & Hn); exists c.
      - apply elem_of_otherCategories in Hc. tauto.
      - split; [apply elem_of_otherCategories|]; tauto. }
    pose proof (updateCategory_rename id name m w i cur Hinit Hi Hcur Hvalid) as Hrun.
    cbn zeta in Hrun. fold renamed in Hrun. fold run in Hrun.
    destruct (Category.isNameUnique name _) eqn:Hu.
    + destruct Hrun as [w' Hrun]. split.
      * rewrite <- Hother. split; [|discriminate].
        intros (e & He & Hcode). subst run. rewrite Hrun in He. cbn [fst] in He.
        destruct (autoSave (config m)); [|discriminate He].
        destruct (fst (FileManager.save _ _ _ w)); [discriminate He|].
        injection He as <-. discriminate Hcode.
      * intros _ _. exists i. subst run. rewrite Hrun. cbn [fst snd].
        split; [exact Hcur|]. split; reflexivity.
    + destruct Hrun as (e & Hrun & Hcode). split.
      * rewrite <- Hother. split; [reflexivity|].
        intros _. exists e. subst run. rewrite Hrun. auto.
      * intros _ Hnone. destruct (proj1 Hother eq_refl) as (c & Hc & Hid & Hn).
        now destruct (Hnone c Hc Hid).
Qed.

End UniqueNames.

Lemma category_names_are_unique_witness :
  let s0 := (Sample.initialized [] [], Sample.emptyWorld) in
  let s1 := snd (TodoManager.addCategory Sample.upperWork s0) in
  (exists e,
     TodoManager.addCategory Sample.lowerWork s1 = (Throw e, s1)
     /\ code e = Some "DUPLICATE_CATEGORY_NAME")
  /\ map Category.name (TodoManager.categories (fst s1)) = ["Work"]
  /\ fst (TodoManager.updateCategory "id-0" (Sample.renameTo "WORK") s1) = Ok true
  /\ map Category.name
         (TodoManager.categories
            (fst (snd (TodoManager.updateCategory "id-0" (Sample.renameTo "WORK") s1))))
     = ["WORK"].
Proof.
  cbn zeta.
  destruct category_names_are_unique as (_ & Hthen & Hrename).
  split; [|split; [reflexivity|]].
  - apply (Hthen Sample.upperWork Sample.lowerWork (Sample.initialized [] [])
                 Sample.emptyWorld eq_refl eq_refl eq_refl eq_refl eq_refl).
  - pose proof (eq_refl : TodoManager.categories
                            (fst (snd (TodoManager.addCategory Sample.upperWork
                                         (Sample.initialized [] [], Sample.emptyWorld))))
                          = [Category.createCategory "id-0" Sample.upperWork]) as Hcats.
    pose proof (eq_refl : TodoManager.isInitialized
                            (fst (snd (TodoManager.addCategory Sample.upperWork
                                         (Sample.initialized [] [], Sample.emptyWorld))))
                          = true) as Hinit.
    pose proof (eq_refl : TodoManager.autoSave (TodoManager.config
                            (fst (snd (TodoManager.addCategory Sample.upperWork
                                         (Sample.initialized [] [], Sample.emptyWorld)))))
                          = false) as Hauto.
    destruct (TodoManager.addCategory Sample.upperWork
                (Sample.initialized [] [], Sample.emptyWorld)) as [r [m1 w1]] eqn:Hrun.
    cbn [fst snd] in *.
    destruct (Hrename "id-0" "WORK" m1 w1 (Category.createCategory "id-0" Sample.upperWork)
                Hinit) as [_ Hdone].
    + now rewrite Hcats.
    + reflexivity.
    + cbn zeta in Hdone. destruct Hdone as (i & Hi & Hstored & Hr).
      * reflexivity.
      * intros c Hc Hid. rewrite Hcats in Hc. apply list_elem_of_singleton in Hc.
        subst c. now destruct Hid.
      * rewrite Hr, Hauto, Hstored. split; [reflexivity|].
        rewrite Hcats in Hi |- *. destruct i as [|i]; [reflexivity|discriminate Hi].
Defined.

(** C8 (as stated) fails in two places.  The coordinator holds a category
    named Work and [addCategory] is given the name work with a colour that
    is no hex code: the call fails with VALIDATION_ERROR, not with
    DUPLICATE_CATEGORY_NAME.  And on [new TodoManager()], whose automatic
    save cannot succeed, renaming the only category Work to WORK throws
    SAVE_ERROR. *)
Lemma category_name_checks_have_exceptions :
  let s1 := snd (TodoManager.initialize (Sample.defaultManager, Sample.emptyWorld)) in
  let s2 := snd (TodoManager.addCategory Sample.upperWork s1) in
  (exists c, c ∈ TodoManager.categories Sample.busy
             /\ JSString.toLowerCase (Category.name c)
                = JSString.toLowerCase (Category.in_name Sample.greenWork))
  /\ (exists e, fst (TodoManager.addCategory Sample.greenWork
                       (Sample.busy, Sample.emptyWorld)) = Throw e
                /\ code e = Some "VALIDATION_ERROR")
  /\ TodoManager.isInitialized (fst s2) = true
  /\ map Category.name (TodoManager.categories (fst s2)) = ["Work"]
  /\ (exists e, fst (TodoManager.updateCategory "id-0" (Sample.renameTo "WORK") s2)
                = Throw e
                /\ code e = Some "SAVE_ERROR").
Proof.
  cbn zeta. split; [|split; [|split; [|split]]].
  - exists Sample.workWithOne. split; [left|reflexivity].
  - eexists. split; reflexivity.
  - reflexivity.
  - reflexivity.
  - pose proof (eq_refl : match fst (TodoManager.updateCategory "id-0"
                                       (Sample.renameTo "WORK")
                                       (snd (TodoManager.addCategory Sample.upperWork
                                          (snd (TodoManager.initialize
                                                  (Sample.defaultManager,
                                                   Sample.emptyWorld)))))) with
                          | Ok _ => None
                          | Throw e => code e
                          end = Some "SAVE_ERROR") as Hcode.
    destruct (fst (TodoManager.updateCategory _ _ _)) as [b|e]; [discriminate Hcode|].
    exists e. split; [reflexivity|exact Hcode].
Qed.

(** ** C10: deleting a category without todos *)

Section DeleteEmptyCategory.

Import TodoManager.

(** C10 (as amended): on an initialized coordinator, deleting a category
    that has no todos removes it whatever the reassignment target is,
    also when the target names no category: the target is looked at only
    when there are todos to move.  The call returns true when auto-save
    is off or the save succeeds; when the automatic save fails it throws
    SAVE_ERROR, and the category is removed all the same. *)
Theorem deleteCategory_without_todos_ignores_target (id : string) (target : option string)
    (m : TodoManager) (w : World) (i : nat) :
  isInitialized m = true ->
  findIndex (categoryHasId id) (categories m) = Some i ->
  List.filter (inCategory id) (todos m) = [] ->
  let remaining := delete i (categories m) in
  fst (snd (deleteCategory id target (m, w))) = setCategories remaining m
  /\ fst (deleteCategory id target (m, w))
     = if autoSave (config m) then
         match fst (FileManager.save (fileManager m) (todos m) remaining w) with
         | Ok _ => Ok true
         | Throw e =>
             Throw (TodoManagerError ("Failed to save data: " +:+ message e) "SAVE_ERROR"
                                     (CausedBy e))
         end
       else Ok true.
Proof.
  intros Hinit Hfind Hempty remaining.
  assert (Hinit1 : isInitialized (setCategories remaining m) = true) by exact Hinit.
  destruct (autoSaveIfEnabled_result _ w Hinit1) as [w' Hsave].
  assert (Hrun : deleteCategory id target (m, w)
                 = (if autoSave (config m) then
                      match fst (FileManager.save (fileManager m) (todos m) remaining w) with
                      | Ok _ => Ok true
                      | Throw e =>
                          Throw (TodoManagerError ("Failed to save data: " +:+ message e)
                                                  "SAVE_ERROR" (CausedBy e))
                      end
                    else Ok true, (setCategories remaining m, w'))).
  { unfold deleteCategory.
    rewrite (bind_ok _ _ _ _ _ (ensureInitialized_ok m w Hinit)).
    unfold bind at 1. cbn [this fst]. rewrite Hfind.
    rewrite (bind_ok _ _ _ _ _ (getTodosByCategory_ok id m w Hinit)), Hempty.
    unfold bind at 1. cbn [resolveTodos length Nat.ltb Nat.leb ret].
    unfold bind at 1. cbn [update fst snd]. fold remaining.
    unfold bind at 1. rewrite Hsave. cbn [config setCategories].
    destruct (autoSave (config m)); [|reflexivity].
    cbn [fileManager todos categories setCategories].
    now destruct (fst (FileManager.save _ _ _ w)). }
  rewrite Hrun. split; reflexivity.
Qed.

Lemma deleteCategory_without_todos_ignores_target_witness :
  fst (deleteCategory "c2" (Some "no-such-category") (Sample.busy, Sample.emptyWorld))
  = Ok true
  /\ categories (fst (snd (deleteCategory "c2" (Some "no-such-category")
                             (Sample.busy, Sample.emptyWorld))))
     = [Sample.workWithOne].
Proof.
  destruct (deleteCategory_without_todos_ignores_target "c2" (Some "no-such-category")
              Sample.busy Sample.emptyWorld 1 eq_refl eq_refl eq_refl) as [Hm Hr].
  split; [exact Hr | now rewrite Hm].
Defined.

(** C10 (as stated) fails: on [new TodoManager()], whose automatic save
    cannot succeed, the only category (stored by an [addCategory]) has no
    todos; deleting it, with a target that names no category, removes it
    and throws SAVE_ERROR instead of returning true. *)
Lemma deleteCategory_throws_after_removal :
  let s1 := snd (initialize (Sample.defaultManager, Sample.emptyWorld)) in
  let s2 := snd (addCategory Sample.upperWork s1) in
  let run := deleteCategory "id-0" (Some "no-such-category") s2 in
  isInitialized (fst s2) = true
  /\ map Category.id (categories (fst s2)) = ["id-0"]
  /\ todos (fst s2) = []
  /\ (exists e, fst run = Throw e /\ code e = Some "SAVE_ERROR")
  /\ categories (fst (snd run)) = [].
Proof.
  cbn zeta. split; [reflexivity|]. split; [reflexivity|]. split; [reflexivity|].
  split; [|reflexivity].
  pose proof (eq_refl : match fst (deleteCategory "id-0" (Some "no-such-category")
                                     (snd (addCategory Sample.upperWork
                                        (snd (initialize (Sample.defaultManager,
                                                          Sample.emptyWorld)))))) with
                        | Ok _ => None
                        | Throw e => code e
                        end = Some "SAVE_ERROR") as Hcode.
  destruct (fst (deleteCategory _ _ _)) as [b|e]; [discriminate Hcode|].
  exists e. split; [reflexivity|exact Hcode].
Qed.

End DeleteEmptyCategory.

(** ** C6: completion *)

Section Completion.

Import TodoManager.













End Completion.

(** * Further properties of the coordinator *)

Section Uninitialized.

Import TodoManager.

Lemma ensureInitialized_refused (m : TodoManager) (w : World) :
  isInitialized m = false -> ensureInitialized (m, w) = (Throw notInitialized, (m, w)).
Proof.
  intros H. unfold ensureInitialized, bind, this, throw. cbn. now rewrite H.
Qed.

Lemma refused_bind {A B} (x : Method A) (k : A -> Method B) (s : TodoManager * World) :
  refused x s -> refused (bind x k) s.
Proof. unfold refused. intros H. now rewrite (bind_throw _ _ _ _ _ H). Qed.

(** X1: before [initialize] has succeeded, every operation and every
    query of the coordinator throws NOT_INITIALIZED and changes neither
    the coordinator nor the world. *)
Theorem uninitialized_coordinator_refuses (m : TodoManager) (w : World) :
  isInitialized m = false ->
  (forall op, refused (perform op) (m, w))
  /\ refused save (m, w)
  /\ (forall id, refused (getTodoById id) (m, w))
  /\ refused getAllTodos (m, w)
  /\ (forall categoryId, refused (getTodosByCategory categoryId) (m, w))
  /\ (forall completed, refused (getTodosByStatus completed) (m, w))
  /\ refused getOverdueTodos (m, w)
  /\ (forall priority, refused (getTodosByPriority priority) (m, w))
  /\ (forall query, refused (searchTodos query) (m, w))
  /\ (forall id, refused (getCategoryById id) (m, w))
  /\ refused getAllCategories (m, w)
  /\ (forall id, refused (categoryExists id) (m, w))
  /\ refused getStatistics (m, w).
Proof.
  intros H. pose proof (ensureInitialized_refused m w H) as He.
  repeat split; intros;
    try (destruct op; cbn [perform]; apply refused_bind);
    apply refused_bind; exact He.
Qed.

Lemma uninitialized_coordinator_refuses_witness :
  refused (perform (AddTodo Sample.callAnn)) (Sample.defaultManager, Sample.emptyWorld)
  /\ refused getStatistics (Sample.defaultManager, Sample.emptyWorld).
Proof.
  destruct (uninitialized_coordinator_refuses Sample.defaultManager Sample.emptyWorld
              eq_refl) as (Hop & Hrest).
  split; [apply Hop|]. apply Hrest.
Defined.

End Uninitialized.

Section Initialize.

Import TodoManager.

Lemma updateCountsFrom_refused (i : nat) (c : Category.Category)
    (cs : list Category.Category) (m : TodoManager) (w : World) :
  isInitialized m = false -> refused (updateCountsFrom i (c :: cs)) (m, w).
Proof.
  intros H. cbn [updateCountsFrom]. apply refused_bind.
  unfold getTodosByCategory. apply refused_bind. now apply ensureInitialized_refused.
Qed.

(** X2: [initialize] on a store that holds at least one category fails
    with INITIALIZATION_ERROR: the loaded record sets are stored, then
    [updateCategoryTodoCounts] asks [getTodosByCategory], which refuses
    because [isInitialized] is set only afterwards.  The coordinator stays
    uninitialized. *)
Theorem initialize_fails_on_stored_categories (m : TodoManager) (w w1 : World)
    (ts : list Todo.Todo) (c : Category.Category) (cs : list Category.Category) :
  isInitialized m = false ->
  FileManager.load (fileManager m) w = (Ok (ts, c :: cs), w1) ->
  exists m',
    initialize (m, w)
    = (Throw (TodoManagerError
                ("Failed to initialize TodoManager: " +:+ message notInitialized)
                "INITIALIZATION_ERROR" (CausedBy notInitialized)),
       (m', w1))
    /\ isInitialized m' = false
    /\ todos m' = ts
    /\ categories m' = c :: cs.
Proof.
  intros Hinit Hload.
  exists (setCategories (c :: cs) (setTodos ts m)).
  split; [|repeat split; exact Hinit].
  unfold initialize, try_catch.
  unfold bind at 1. cbn [this fst].
  unfold bind at 1, io at 1. cbn [snd fst]. rewrite Hload.
  unfold bind at 1. cbn [update fst snd].
  unfold bind at 1. cbn [update fst snd].
  unfold bind at 1. cbn [this fst snd].
  unfold bind at 1. cbn [categories setCategories length Nat.eqb andb ret].
  unfold bind at 1, updateCategoryTodoCounts, bind at 1. cbn [this fst categories setCategories].
  assert (Hinit' : isInitialized (setCategories (c :: cs) (setTodos ts m)) = false)
    by exact Hinit.
  rewrite (updateCountsFrom_refused 0 c cs _ w1 Hinit'). reflexivity.
Qed.

Lemma initialize_fails_on_stored_categories_witness :
  exists m',
    initialize (TodoManager.new {| cfg_fileManager := Some (Sample.storeConfig false 5);
                                   cfg_autoSave := None;
                                   cfg_createDefaultCategories := None |},
                Sample.usedWorld)
    = (Throw (TodoManagerError
                ("Failed to initialize TodoManager: " +:+ message notInitialized)
                "INITIALIZATION_ERROR" (CausedBy notInitialized)),
       (m', Sample.usedWorld))
    /\ isInitialized m' = false
    /\ todos m' = []
    /\ categories m' = [Sample.work].
Proof.
  apply (initialize_fails_on_stored_categories _ Sample.usedWorld Sample.usedWorld []
           Sample.work []).
  - reflexivity.
  - reflexivity.
Defined.

End Initialize.

Section TodoOperations.

Import TodoManager.

(** X3: [addTodo] checks before it acts.  An input that fails validation
    is rejected with VALIDATION_ERROR, all the messages in the details; a
    valid input whose category is unknown is rejected with
    CATEGORY_NOT_FOUND.  In both cases nothing changes: no todo is stored,
    no identifier is drawn, the clock is not read, nothing is saved. *)
Theorem addTodo_rejects_without_effect (input : Todo.TodoInput) (m : TodoManager)
    (w : World) :
  isInitialized m = true ->
  (Todo.validateTodoInput input <> [] ->
   addTodo input (m, w)
   = (Throw (TodoManagerError
               ("Invalid todo input: "
                +:+ String.concat ", " (Todo.validateTodoInput input))
               "VALIDATION_ERROR" (Messages (Todo.validateTodoInput input))),
      (m, w)))
  /\ (Todo.validateTodoInput input = [] ->
      existsb (categoryHasId (Todo.in_categoryId input)) (categories m) = false ->
      addTodo input (m, w)
      = (Throw (TodoManagerError
                  ("Category with ID " +:+ Todo.in_categoryId input +:+ " does not exist")
                  "CATEGORY_NOT_FOUND"
                  (Fields [("categoryId", Todo.in_categoryId input)])),
         (m, w))).
Proof.
  intros Hinit. split.
  - intros Hbad. unfold addTodo.
    rewrite (bind_ok _ _ _ _ _ (ensureInitialized_ok m w Hinit)).
    now rewrite bool_decide_eq_false_2.
  - intros Hgood Hmissing. unfold addTodo.
    rewrite (bind_ok _ _ _ _ _ (ensureInitialized_ok m w Hinit)).
    rewrite bool_decide_eq_true_2 by exact Hgood. cbn [negb].
    rewrite (bind_ok _ _ _ _ _ (categoryExists_ok _ m w Hinit)), Hmissing.
    reflexivity.
Qed.

Lemma addTodo_rejects_without_effect_witness :
  addTodo blankUrgent (Sample.busy, Sample.emptyWorld)
  = (Throw (TodoManagerError
              ("Invalid todo input: "
               +:+ String.concat ", " (Todo.validateTodoInput blankUrgent))
              "VALIDATION_ERROR" (Messages (Todo.validateTodoInput blankUrgent))),
     (Sample.busy, Sample.emptyWorld))
  /\ Todo.validateTodoInput blankUrgent
     = ["Title cannot be empty"; "Priority must be one of: low, medium, high";
        "Due date must be a valid date"].
Proof.
  split; [|reflexivity].
  apply (proj1 (addTodo_rejects_without_effect blankUrgent Sample.busy Sample.emptyWorld
                  eq_refl)).
  discriminate.
Defined.

Lemma find_app_fresh {A} (p : A -> bool) (l : list A) (x : A) :
  (forall a, a ∈ l -> p a = false) -> p x = true -> find p (l ++ [x]) = Some x.
Proof.
  intros Hl Hx. induction l as [|a l IH]; cbn.
  - now rewrite Hx.
  - rewrite (Hl a) by left. apply IH. intros b Hb. apply Hl. now right.
Qed.

Lemma find_app_found {A} (p : A -> bool) (l : list A) (x y : A) :
  find p l = Some y -> find p (l ++ [x]) = Some y.
Proof.
  induction l as [|a l IH]; cbn; [discriminate|]. now destruct (p a).
Qed.

(** X4: [addTodo] with a valid input whose category exists stores a
    todo at the end of the list, with the fields of the input, and
    returns it (unless the automatic save fails); its identifier is the
    one that the input object carries, and the generated one when it
    carries none.  [getTodoById] of that identifier then finds the new
    todo if no stored todo had the identifier, and the older todo
    otherwise. *)
Theorem addTodo_then_getTodoById (input : Todo.TodoInput) (m : TodoManager) (w : World) :
  isInitialized m = true ->
  Todo.validateTodoInput input = [] ->
  existsb (categoryHasId (Todo.in_categoryId input)) (categories m) = true ->
  let run := addTodo input (m, w) in
  exists t,
    (fst run = Ok t \/ saveFailed (fst run))
    /\ todos (fst (snd run)) = (todos m ++ [t])%list
    /\ Todo.id t = default (uuidSource w (drawn w)) (Todo.in_id input)
    /\ Todo.title t = Todo.in_title input
    /\ Todo.categoryId t = Todo.in_categoryId input
    /\ Todo.completed t = Todo.in_completed input
    /\ ((forall t0, t0 ∈ todos m -> Todo.id t0 <> Todo.id t) ->
        getTodoById (Todo.id t) (snd run) = (Ok (Some t), snd run))
    /\ (forall t0, find (todoHasId (Todo.id t)) (todos m) = Some t0 ->
                   getTodoById (Todo.id t) (snd run) = (Ok (Some t0), snd run)).
Proof.
  intros Hinit Hvalid Hexists run.
  destruct (addTodo_accepted input m w Hinit Hvalid Hexists)
    as (now1 & now2 & Hm' & Hr). cbn zeta in Hm', Hr. fold run in Hm', Hr.
  set (t := Todo.createTodo _ _ _ input) in *.
  destruct (snd run) as [m' w'] eqn:Hs'. cbn [fst] in Hm'.
  assert (Hinit' : isInitialized m' = true)
    by (rewrite Hm'; now rewrite recount_isInitialized).
  assert (Htodos : todos m' = (todos m ++ [t])%list)
    by (rewrite Hm'; now rewrite recount_todos).
  assert (Hget : getTodoById (Todo.id t) (m', w')
                 = (Ok (find (todoHasId (Todo.id t)) (todos m ++ [t])), (m', w'))).
  { unfold getTodoById.
    rewrite (bind_ok _ _ _ _ _ (ensureInitialized_ok m' w' Hinit')).
    unfold bind, this, ret. cbn [fst]. now rewrite Htodos. }
  exists t. split; [exact Hr|]. split; [exact Htodos|]. split; [reflexivity|].
  split; [reflexivity|]. split; [reflexivity|]. split; [reflexivity|]. split.
  - intros Hfresh. rewrite Hget, find_app_fresh; [reflexivity| |].
    + intros t0 Ht0. unfold todoHasId. apply String.eqb_neq. now apply Hfresh.
    + unfold todoHasId. apply String.eqb_refl.
  - intros t0 Hfound. now rewrite Hget, (find_app_found _ _ _ _ Hfound).
Qed.

Lemma addTodo_then_getTodoById_witness :
  exists t,
    fst (addTodo Sample.callAnn (Sample.busy, Sample.emptyWorld)) = Ok t
    /\ todos (fst (snd (addTodo Sample.callAnn (Sample.busy, Sample.emptyWorld))))
       = [Sample.buyMilk; t]
    /\ Todo.id t = "id-0"
    /\ fst (getTodoById "id-0" (snd (addTodo Sample.callAnn
                                       (Sample.busy, Sample.emptyWorld))))
       = Ok (Some t).
Proof.
  destruct (addTodo_then_getTodoById Sample.callAnn Sample.busy Sample.emptyWorld
              eq_refl eq_refl eq_refl) as (t & Hr & Htodos & Hid & _ & _ & _ & Hget & _).
  change (Todo.id t = "id-0") in Hid.
  exists t. split; [|split; [exact Htodos|split; [exact Hid|]]].
  - destruct Hr as [Hr | (e & He & _)]; [exact Hr|].
    pose proof (eq_refl : isOk (fst (addTodo Sample.callAnn
                                       (Sample.busy, Sample.emptyWorld))) = true) as Hok.
    rewrite He in Hok. discriminate Hok.
  - rewrite Hid in Hget. rewrite Hget; [reflexivity|].
    intros t0 Ht0. apply list_elem_of_In in Ht0. cbn in Ht0.
    destruct Ht0 as [<-|[]]. discriminate.
Defined.

Lemma delete_findIndex_filter (id : string) (l : list Todo.Todo) (i : nat) :
  NoDup (map Todo.id l) ->
  findIndex (todoHasId id) l = Some i ->
  delete i l = List.filter (fun t => negb (todoHasId id t)) l.
Proof.
  revert i. induction l as [|a l IH]; intros i Hnd Hi; [discriminate|].
  cbn [map] in Hnd. apply NoDup_cons in Hnd as [Ha Hnd].
  cbn [findIndex] in Hi. cbn [List.filter].
  destruct (todoHasId id a) eqn:Hid.
  - injection Hi as <-. cbn [negb delete list_delete].
    unfold todoHasId in Hid. apply String.eqb_eq in Hid. subst id.
    symmetry. rewrite <- (filter_ext_in (fun _ => true)).
    + clear. induction l as [|b l IH]; cbn; [reflexivity|]. now rewrite IH.
    + intros b Hb. symmetry. apply negb_true_iff. unfold todoHasId.
      apply String.eqb_neq. intros Heq. apply Ha. rewrite <- Heq.
      apply list_elem_of_fmap. exists b. split; [reflexivity|].
      now apply list_elem_of_In.
  - destruct (findIndex (todoHasId id) l) as [j|] eqn:Hj; [|discriminate].
    injection Hi as <-. cbn [negb]. cbn. f_equal. now apply IH.
Qed.

Lemma find_filter_negb {A} (p : A -> bool) (l : list A) :
  find p (List.filter (fun a => negb (p a)) l) = None.
Proof.
  induction l as [|a l IH]; cbn; [reflexivity|].
  destruct (p a) eqn:Hp; cbn; [exact IH|]. now rewrite Hp.
Qed.

(** X5: when the identifiers of the stored todos are distinct, a
    [deleteTodo] that returns removes exactly the todos with that
    identifier (one todo), keeps the others in order, and [getTodoById]
    no longer finds the identifier. *)
Theorem deleteTodo_then_getTodoById (id : string) (m : TodoManager) (w : World)
    (m' : TodoManager) (w' : World) :
  isInitialized m = true ->
  NoDup (map Todo.id (todos m)) ->
  deleteTodo id (m, w) = (Ok true, (m', w')) ->
  todos m' = List.filter (fun t => negb (todoHasId id t)) (todos m)
  /\ S (length (todos m')) = length (todos m)
  /\ getTodoById id (m', w') = (Ok None, (m', w')).
Proof.
  intros Hinit Hnd H.
  apply (deleteTodo_state _ _ _ _ _ _ Hinit) in H
    as [[_ (e & [=] & _)] | (i & todo & Hi & Htodo & -> & _)].
  set (m' := recount _ _).
  assert (Hinit' : isInitialized m' = true)
    by (subst m'; now rewrite recount_isInitialized).
  assert (Htodos : todos m' = List.filter (fun t => negb (todoHasId id t)) (todos m)).
  { subst m'. rewrite recount_todos. cbn [todos setTodos].
    now apply delete_findIndex_filter. }
  split; [exact Htodos|]. split.
  - subst m'. rewrite recount_todos. cbn [todos setTodos].
    rewrite length_delete by (now rewrite Htodo).
    apply lookup_lt_Some in Htodo. lia.
  - unfold getTodoById.
    rewrite (bind_ok _ _ _ _ _ (ensureInitialized_ok m' w' Hinit')).
    unfold bind, this, ret. cbn [fst]. rewrite Htodos. now rewrite find_filter_negb.
Qed.

Lemma deleteTodo_then_getTodoById_witness :
  exists m' w',
    deleteTodo "t1" (Sample.busy, Sample.emptyWorld) = (Ok true, (m', w'))
    /\ todos m' = []
    /\ getTodoById "t1" (m', w') = (Ok None, (m', w')).
Proof.
  pose proof (eq_refl : fst (deleteTodo "t1" (Sample.busy, Sample.emptyWorld)) = Ok true)
    as Hok.
  destruct (deleteTodo "t1" (Sample.busy, Sample.emptyWorld))
    as [[[]|e] [m' w']] eqn:Hrun; try discriminate Hok.
  exists m', w'. split; [reflexivity|].
  destruct (deleteTodo_then_getTodoById "t1" Sample.busy Sample.emptyWorld m' w' eq_refl)
    as (Htodos & _ & Hget).
  - refine (bool_decide_unpack _ _). vm_compute. exact I.
  - exact Hrun.
  - split; [exact Htodos | exact Hget].
Defined.

End TodoOperations.

Section TodoUpdates.

Import TodoManager.


(** X6: [updateTodo] changes one todo at most, the first one with the
    given identifier: the number and the order of the todos stay, and
    the todos at the other positions, so every todo with another
    identifier, are left as they are, whatever the payload and whether
    the call returns or throws.  The identifiers and the creation dates
    stay unless the payload object carries an [id] or a [createdAt] of
    its own; when it does and the payload passes the checks of the
    method, they are stored in the todo like any other property of the
    payload. *)
Theorem updateTodo_changes_one_todo (id : string) (updates : Todo.TodoUpdates)
    (m : TodoManager) (w : World) :
  let run := updateTodo id updates (m, w) in
  let m' := fst (snd run) in
  length (todos m') = length (todos m)
  /\ (forall i j, findIndex (todoHasId id) (todos m) = Some i -> j <> i ->
                  todos m' !! j = todos m !! j)
  /\ (forall j t, todos m !! j = Some t -> Todo.id t <> id -> todos m' !! j = Some t)
  /\ (Todo.up_id updates = None -> map Todo.id (todos m') = map Todo.id (todos m))
  /\ (Todo.up_createdAt updates = None ->
      map Todo.createdAt (todos m') = map Todo.createdAt (todos m))
  /\ (forall i cur,
        isInitialized m = true ->
        findIndex (todoHasId id) (todos m) = Some i ->
        todos m !! i = Some cur ->
        passesChecks m updates ->
        exists t',
          todos m' !! i = Some t'
          /\ Todo.id t' = default (Todo.id cur) (Todo.up_id updates)
          /\ Todo.createdAt t' = default (Todo.createdAt cur) (Todo.up_createdAt updates)).
Proof.
  cbn zeta.
  assert (Hids : forall cur updates',
            completionHandled cur updates updates' ->
            Todo.id (Todo.applyUpdates cur updates')
            = default (Todo.id cur) (Todo.up_id updates)
            /\ Todo.createdAt (Todo.applyUpdates cur updates')
               = default (Todo.createdAt cur) (Todo.up_createdAt updates)).
  { intros cur updates' Hdone. unfold completionHandled in Hdone.
    destruct (Todo.up_completed updates) as [c|]; [|now subst].
    destruct (negb _); [|now subst].
    destruct c; [destruct Hdone as [now ->]|subst]; now split. }
  assert (Hlast : forall i cur,
            isInitialized m = true ->
            findIndex (todoHasId id) (todos m) = Some i ->
            todos m !! i = Some cur ->
            passesChecks m updates ->
            exists t',
              todos (fst (snd (updateTodo id updates (m, w)))) !! i = Some t'
              /\ Todo.id t' = default (Todo.id cur) (Todo.up_id updates)
              /\ Todo.createdAt t'
                 = default (Todo.createdAt cur) (Todo.up_createdAt updates)).
  { intros i cur Hinit Hi Hcur Hchecks.
    destruct (updateTodo_accepted id updates m w i cur Hinit Hi Hcur Hchecks)
      as (updates' & Hdone & -> & _).
    exists (Todo.applyUpdates cur updates').
    rewrite recountMoved_todos. cbn [todos setTodos].
    split; [apply list_lookup_insert_eq; eapply lookup_lt_Some; eauto|].
    now apply Hids. }
  destruct (isInitialized m) eqn:Hinit.
  2:{ assert (Hrefused : refused (updateTodo id updates) (m, w)).
      { unfold updateTodo. apply refused_bind. now apply ensureInitialized_refused. }
      clear Hlast. unfold refused in Hrefused. revert Hrefused.
      generalize (updateTodo id updates (m, w)). intros run ->. cbn [fst snd].
      repeat split; auto. intros i cur [=]. }
  revert Hlast.
  destruct (updateTodo id updates (m, w)) as [r [m' w']] eqn:H. cbn [fst snd].
  intros Hlast.
  apply (updateTodo_state _ _ _ _ _ _ _ Hinit) in H
    as [[-> (e & -> & _)] | (i & cur & updates' & Hi & Hcur & Hdone & _ & -> & _)].
  { repeat split; auto. }
  destruct (Hids cur updates' Hdone) as [Hid Hcreated].
  rewrite recountMoved_todos. cbn [todos setTodos].
  split; [apply length_insert|]. split; [|split; [|split; [|split]]].
  - intros i' j Hi' Hne. assert (i' = i) by congruence. subst i'.
    now apply list_lookup_insert_ne.
  - intros j t Hj Hne. rewrite list_lookup_insert_ne; [exact Hj|].
    intros <-. apply findIndex_Some in Hi as (x & Hx & Hp & _).
    unfold todoHasId in Hp. apply String.eqb_eq in Hp. congruence.
  - intros Hnone. rewrite list_fmap_insert, Hid, Hnone. cbn [default from_option].
    apply list_insert_id. now rewrite list_lookup_fmap, Hcur.
  - intros Hnone. rewrite list_fmap_insert, Hcreated, Hnone. cbn [default from_option].
    apply list_insert_id. now rewrite list_lookup_fmap, Hcur.
  - intros i0 cur0 _ Hi0 Hcur0 Hchecks.
    rewrite recountMoved_todos in Hlast. apply Hlast; auto.
Qed.

Lemma updateTodo_changes_one_todo_witness :
  fst (updateTodo "t1" Sample.renumber (Sample.busy, Sample.emptyWorld)) = Ok true
  /\ exists t',
       todos (fst (snd (updateTodo "t1" Sample.renumber (Sample.busy, Sample.emptyWorld))))
       !! 0 = Some t'
       /\ Todo.id t' = "t9"
       /\ Todo.createdAt t' = Todo.createdAt Sample.buyMilk.
Proof.
  split; [reflexivity|].
  destruct (updateTodo_changes_one_todo "t1" Sample.renumber Sample.busy Sample.emptyWorld)
    as (_ & _ & _ & _ & _ & Hstored).
  apply (Hstored 0 Sample.buyMilk eq_refl eq_refl eq_refl).
  repeat split; discriminate.
Defined.

Lemma findIndex_find {A} (p : A -> bool) (l : list A) (i : nat) (x : A) :
  findIndex p l = Some i -> l !! i = Some x -> find p l = Some x.
Proof.
  revert i. induction l as [|a l IH]; intros i; cbn [findIndex find]; [discriminate|].
  destruct (p a).
  - now intros [= <-] [= <-].
  - destruct (findIndex p l) as [k|]; [|discriminate]. intros [= <-]. cbn. now apply IH.
Qed.

Lemma bind_ret_manager {A B} (x : Method A) (b : B) (s : TodoManager * World) :
  fst (snd (bind x (fun _ => ret b) s)) = fst (snd (x s)).
Proof. unfold bind, ret. now destruct (x s) as [[a|e] s']. Qed.

(** What [toggleTodoCompletion] leaves in the list of todos. *)
Lemma toggleTodoCompletion_todos (id : string) (m : TodoManager) (w : World)
    (i : nat) (t : Todo.Todo) :
  isInitialized m = true ->
  findIndex (todoHasId id) (todos m) = Some i ->
  todos m !! i = Some t ->
  let m' := fst (snd (toggleTodoCompletion id (m, w))) in
  m' = setTodos (<[i := toggled t w]> (todos m)) m.
Proof.
  intros Hinit Hi Ht. cbn zeta.
  rewrite (toggleTodoCompletion_unfold id m w Hinit), (findIndex_find _ _ _ _ Hi Ht).
  unfold updateTodo.
  rewrite (bind_ok _ _ _ _ _ (ensureInitialized_ok m w Hinit)).
  unfold bind at 1. cbn [this fst]. rewrite Hi, Ht.
  cbn [Todo.up_title Todo.up_description Todo.up_priority Todo.up_categoryId validationError].
  unfold bind at 1. cbn [ret]. unfold bind at 1. cbn [ret].
  unfold bind at 1. cbn [ret]. unfold bind at 1. cbn [ret].
  unfold handleCompletion, toggled, TodoUtils.markCompleted.
  cbn [Todo.up_completed].
  destruct (Todo.completed t) eqn:Hc; cbn [negb Bool.eqb].
  - unfold bind at 1. cbn [ret update fst snd].
    unfold bind at 1. cbn [ret update fst snd setCompletedAt Todo.up_categoryId].
    unfold bind at 1. cbn [ret].
    rewrite (bind_ret_manager autoSaveIfEnabled true), autoSaveIfEnabled_manager.
    cbn [Todo.applyUpdates setCompletedAt Todo.up_title Todo.up_description
         Todo.up_completed Todo.up_priority Todo.up_categoryId Todo.up_completedAt
         Todo.up_dueDate default from_option Datatypes.id].
    reflexivity.
  - unfold bind at 1, bind at 1, io at 1. cbn [Fs.now ret snd fst].
    unfold bind at 1. cbn [ret update fst snd].
    unfold bind at 1. cbn [ret update fst snd setCompletedAt Todo.up_categoryId].
    rewrite bind_ret_manager, autoSaveIfEnabled_manager.
    cbn [Todo.applyUpdates setCompletedAt Todo.up_title Todo.up_description
         Todo.up_completed Todo.up_priority Todo.up_categoryId Todo.up_completedAt
         Todo.up_dueDate default from_option Datatypes.id].
    reflexivity.
Qed.

(** X7: [toggleTodoCompletion] replaces the first todo with the given
    identifier by [TodoUtils.markIncomplete] of it when it was completed,
    and by [TodoUtils.markCompleted] of it (stamped with the next reading
    of the clock) when it was not; nothing else in the coordinator
    changes, whether the auto-save that follows succeeds or not. *)
Theorem toggleTodoCompletion_marks (id : string) (m : TodoManager) (w : World)
    (i : nat) (t : Todo.Todo) :
  isInitialized m = true ->
  findIndex (todoHasId id) (todos m) = Some i ->
  todos m !! i = Some t ->
  let m' := fst (snd (toggleTodoCompletion id (m, w))) in
  todos m' = <[i := toggled t w]> (todos m)
  /\ categories m' = categories m
  /\ Todo.completed (toggled t w) = negb (Todo.completed t)
  /\ (is_Some (Todo.completedAt (toggled t w)) <-> Todo.completed t = false).
Proof.
  intros Hinit Hi Ht. cbn zeta.
  rewrite (toggleTodoCompletion_todos id m w i t Hinit Hi Ht).
  split; [reflexivity|]. split; [reflexivity|].
  unfold toggled. destruct (Todo.completed t); cbn.
  - split; [reflexivity|]. split; [intros [x [=]]|discriminate].
  - split; [reflexivity|]. split; eauto.
Qed.

Lemma toggleTodoCompletion_marks_witness :
  let m' := fst (snd (toggleTodoCompletion "t1" (Sample.busy, Sample.emptyWorld))) in
  todos m' = <[0 := toggled Sample.buyMilk Sample.emptyWorld]> (todos Sample.busy)
  /\ categories m' = categories Sample.busy
  /\ Todo.completed (toggled Sample.buyMilk Sample.emptyWorld)
     = negb (Todo.completed Sample.buyMilk)
  /\ (is_Some (Todo.completedAt (toggled Sample.buyMilk Sample.emptyWorld))
      <-> Todo.completed Sample.buyMilk = false).
Proof.
  exact (toggleTodoCompletion_marks "t1" Sample.busy Sample.emptyWorld 0 Sample.buyMilk
           eq_refl eq_refl eq_refl).
Defined.

Lemma findIndex_insert_same {A} (p : A -> bool) (l : list A) (i : nat) (x : A) :
  findIndex p l = Some i -> p x = true -> findIndex p (<[i := x]> l) = Some i.
Proof.
  revert i. induction l as [|a l IH]; intros i; cbn [findIndex]; [discriminate|].
  destruct (p a) eqn:Hp.
  - intros [= <-] Hx. cbn. now rewrite Hx.
  - destruct (findIndex p l) as [k|] eqn:Hk; [|discriminate]. intros [= <-] Hx.
    change (<[S k := x]> (a :: l)) with (a :: <[k := x]> l).
    cbn [findIndex]. rewrite Hp, (IH k eq_refl Hx). reflexivity.
Qed.

(** X8: toggling twice gives back the list of todos, when the todo was
    not completed and carried no completion date: the completion date set
    by the first call is removed by the second. *)
Theorem toggleTodoCompletion_twice (id : string) (m : TodoManager) (w : World)
    (i : nat) (t : Todo.Todo) :
  isInitialized m = true ->
  findIndex (todoHasId id) (todos m) = Some i ->
  todos m !! i = Some t ->
  Todo.completed t = false ->
  Todo.completedAt t = None ->
  let s1 := snd (toggleTodoCompletion id (m, w)) in
  let s2 := snd (toggleTodoCompletion id s1) in
  todos (fst s1) !! i = Some (toggled t w)
  /\ Todo.completedAt (toggled t w) = Some (DateAt (clock w (ticks w)))
  /\ todos (fst s2) = todos m.
Proof.
  intros Hinit Hi Ht Hc Hat. cbn zeta.
  pose proof (toggleTodoCompletion_todos id m w i t Hinit Hi Ht) as H1. cbn zeta in H1.
  destruct (toggleTodoCompletion id (m, w)) as [r1 [m1 w1]]. cbn [fst snd] in *.
  subst m1. cbn [todos setTodos].
  assert (Hlt : i < length (todos m)) by (eapply lookup_lt_Some; eauto).
  assert (Hid : todoHasId id (toggled t w) = true).
  { apply findIndex_Some in Hi as (x & Hx & Hp & _).
    assert (x = t) by congruence. subst x.
    unfold toggled. rewrite Hc. exact Hp. }
  split; [now rewrite list_lookup_insert_eq|].
  split; [unfold toggled; now rewrite Hc|].
  rewrite (toggleTodoCompletion_todos id _ w1 i (toggled t w)); cbn [todos setTodos].
  - rewrite list_insert_insert_eq.
    apply list_insert_id. rewrite Ht. f_equal.
    unfold toggled at 1. unfold toggled at 1. rewrite Hc. cbn.
    destruct t; cbn in *; now subst.
  - exact Hinit.
  - now apply findIndex_insert_same.
  - now rewrite list_lookup_insert_eq.
Qed.

Lemma toggleTodoCompletion_twice_witness :
  let s1 := snd (toggleTodoCompletion "t1" (Sample.busy, Sample.emptyWorld)) in
  let s2 := snd (toggleTodoCompletion "t1" s1) in
  todos (fst s1) !! 0 = Some (toggled Sample.buyMilk Sample.emptyWorld)
  /\ Todo.completedAt (toggled Sample.buyMilk Sample.emptyWorld)
     = Some (DateAt (clock Sample.emptyWorld (ticks Sample.emptyWorld)))
  /\ todos (fst s2) = todos Sample.busy.
Proof.
  exact (toggleTodoCompletion_twice "t1" Sample.busy Sample.emptyWorld 0 Sample.buyMilk
           eq_refl eq_refl eq_refl eq_refl eq_refl).
Defined.

End TodoUpdates.

Section Queries.

Import TodoManager.

Lemma later_0 (w : World) : later 0 w = w.
Proof. now destruct w. Qed.

Lemma later_later (n k : nat) (w : World) : later n (later k w) = later (n + k) w.
Proof. unfold later. cbn. f_equal. lia. Qed.

Lemma overdueBetween_mono (w : World) (a b a' b' : nat) (t : Todo.Todo) :
  a' <= a -> b <= b' -> overdueBetween w a b t -> overdueBetween w a' b' t.
Proof.
  intros Ha Hb (Hc & due & n & Hd & Hn & Hlt). split; [exact Hc|].
  exists due, n. repeat split; auto; lia.
Qed.

(** The loop of [getOverdueTodos]. *)
Lemma filterM_isOverdue (l : list Todo.Todo) (m : TodoManager) (w : World) :
  exists l',
    let k := length (List.filter dated l) in
    filterM isOverdue l (m, w) = (Ok l', (m, later k w))
    /\ sublist l' l
    /\ length l' <= length (List.filter (fun t => negb (Todo.completed t)) l)
    /\ Forall (overdueBetween w (ticks w) (k + ticks w)) l'
    /\ forall lo,
         (forall n, ticks w <= n < k + ticks w -> (lo <= clock w n)%Z) ->
         forall t due, t ∈ l -> Todo.completed t = false ->
                       Todo.dueDate t = Some (DateAt due) -> (due < lo)%Z -> t ∈ l'.
Proof.
  revert w. induction l as [|t l IH]; intros w.
  - exists []. cbn. rewrite later_0.
    split; [reflexivity|]. split; [constructor|]. split; [lia|]. split; [constructor|].
    intros lo _ t due Ht. inversion Ht.
  - cbn [filterM List.filter].
    assert (Hdated : forall due, Todo.completed t = false ->
                                 Todo.dueDate t = Some due -> dated t = true).
    { intros due Hc Hdue. unfold dated.
      rewrite Hc, Hdue. now rewrite bool_decide_eq_true_2 by eauto. }
    match goal with
    | |- ?G => assert (Hskip : dated t = false -> isOverdue t = ret false -> G)
    end.
    { intros Hd He. rewrite Hd, He.
      destruct (IH w) as (l' & Hrun & Hsub & Hlen & Hall & Hcomplete).
      cbn zeta in *. exists l'.
      unfold bind at 1. cbn [ret]. rewrite (bind_ok _ _ _ _ _ Hrun). cbn [ret].
      split; [reflexivity|]. split; [now constructor|]. split.
      { destruct (negb (Todo.completed t)); cbn [length]; lia. }
      split; [exact Hall|].
      intros lo Hlo t0 due0 Ht0 Hc0 Hd0 Hlt.
      apply elem_of_cons in Ht0 as [->|Ht0]; [|eapply Hcomplete; eauto].
      rewrite (Hdated _ Hc0 Hd0) in Hd. discriminate Hd. }
    destruct (Todo.dueDate t) as [due|] eqn:Hdue.
    2:{ apply Hskip.
        - unfold dated. rewrite Hdue. apply andb_false_r.
        - unfold isOverdue. now rewrite Hdue. }
    destruct (Todo.completed t) eqn:Hc.
    { apply Hskip.
      - unfold dated. now rewrite Hc.
      - unfold isOverdue. now rewrite Hdue, Hc. }
    clear Hskip. rewrite (Hdated due eq_refl eq_refl).
    unfold isOverdue at 1. rewrite Hdue, Hc. cbn [negb length].
    destruct (IH (later 1 w)) as (l' & Hrun & Hsub & Hlen & Hall & Hcomplete).
    cbn zeta in *.
    set (k := length (List.filter dated l)) in *.
    unfold bind at 1, bind at 1, io at 1. cbn [Fs.now fst snd ret].
    change {| files := files w; observed := observed w; clock := clock w;
              ticks := S (ticks w); uuidSource := uuidSource w; drawn := drawn w |}
      with (later 1 w).
    rewrite (bind_ok _ _ _ _ _ Hrun). cbn [ret].
    rewrite later_later. replace (k + 1) with (S k) by lia.
    assert (Hall' : Forall (overdueBetween w (ticks w) (S k + ticks w)) l').
    { eapply Forall_impl; [exact Hall|]. intros t0 Ht0.
      apply (overdueBetween_mono w (ticks (later 1 w)) (k + ticks (later 1 w)));
        [cbn; lia | cbn; lia | exact Ht0]. }
    assert (Hrest : forall lo,
              (forall n, ticks w <= n < S k + ticks w -> (lo <= clock w n)%Z) ->
              forall t0 due0, t0 ∈ l -> Todo.completed t0 = false ->
                              Todo.dueDate t0 = Some (DateAt due0) -> (due0 < lo)%Z ->
                              t0 ∈ l').
    { intros lo Hlo t0 due0 Ht0 Hc0 Hd0 Hlt.
      apply (Hcomplete lo) with (due := due0); auto.
      intros n Hn. cbn [later ticks clock] in *. apply Hlo. lia. }
    destruct due as [due|].
    + cbn [JSDate.lt]. destruct (Z.ltb_spec due (clock w (ticks w))) as [Hlt|Hge].
      * exists (t :: l'). split; [reflexivity|]. split; [now constructor|].
        split; [cbn [length]; lia|]. split.
        { constructor; [|exact Hall'].
          split; [exact Hc|]. exists due, (ticks w). repeat split; auto; lia. }
        intros lo Hlo t0 due0 Ht0 Hc0 Hd0 Hlt0.
        apply elem_of_cons in Ht0 as [->|Ht0]; [left|right; eapply Hrest; eauto].
      * exists l'. split; [reflexivity|]. split; [now constructor|].
        split; [cbn [length]; lia|]. split; [exact Hall'|].
        intros lo Hlo t0 due0 Ht0 Hc0 Hd0 Hlt0.
        apply elem_of_cons in Ht0 as [->|Ht0]; [|eapply Hrest; eauto].
        assert (due0 = due) by congruence. subst due0.
        specialize (Hlo (ticks w) ltac:(lia)). lia.
    + cbn [JSDate.lt]. exists l'. split; [reflexivity|]. split; [now constructor|].
      split; [cbn [length]; lia|]. split; [exact Hall'|].
      intros lo Hlo t0 due0 Ht0 Hc0 Hd0 Hlt0.
      apply elem_of_cons in Ht0 as [->|Ht0]; [congruence|eapply Hrest; eauto].
Qed.

(** X9: [getOverdueTodos] changes nothing but the clock, which it reads
    once for every todo that is not completed and has a due date.  It
    returns, in stored order, only todos that are not completed and whose
    due date is a valid date before one of these readings (a todo whose
    due date is an invalid date is never returned); and it returns every
    pending todo due before all of these readings. *)
Theorem getOverdueTodos_selects_pending_past_due (m : TodoManager) (w : World) :
  isInitialized m = true ->
  exists overdue,
    let k := length (List.filter dated (todos m)) in
    getOverdueTodos (m, w) = (Ok overdue, (m, later k w))
    /\ sublist overdue (todos m)
    /\ Forall (overdueBetween w (ticks w) (k + ticks w)) overdue
    /\ (forall t, Todo.dueDate t = Some InvalidDate -> t ∉ overdue)
    /\ forall lo,
         (forall n, ticks w <= n < k + ticks w -> (lo <= clock w n)%Z) ->
         forall t due, t ∈ todos m -> Todo.completed t = false ->
                       Todo.dueDate t = Some (DateAt due) -> (due < lo)%Z ->
                       t ∈ overdue.
Proof.
  intros Hinit.
  destruct (filterM_isOverdue (todos m) m w) as (l' & Hrun & Hsub & _ & Hall & Hcomplete).
  exists l'. cbn zeta in *. unfold getOverdueTodos.
  rewrite (bind_ok _ _ _ _ _ (ensureInitialized_ok m w Hinit)).
  unfold bind at 1. cbn [this fst].
  split; [exact Hrun|]. split; [exact Hsub|]. split; [exact Hall|].
  split; [|exact Hcomplete].
  intros t Hinv Hin. rewrite Forall_forall in Hall.
  destruct (Hall t Hin) as (_ & due & n & Hd & _). congruence.
Qed.

Lemma getOverdueTodos_selects_pending_past_due_witness :
  exists overdue,
    let k := length (List.filter dated (todos Sample.busy)) in
    getOverdueTodos (Sample.busy, Sample.emptyWorld)
    = (Ok overdue, (Sample.busy, later k Sample.emptyWorld))
    /\ sublist overdue (todos Sample.busy)
    /\ Forall (overdueBetween Sample.emptyWorld (ticks Sample.emptyWorld)
                              (k + ticks Sample.emptyWorld)) overdue
    /\ (forall t, Todo.dueDate t = Some InvalidDate -> t ∉ overdue)
    /\ forall lo,
         (forall n, ticks Sample.emptyWorld <= n < k + ticks Sample.emptyWorld ->
                    (lo <= clock Sample.emptyWorld n)%Z) ->
         forall t due, t ∈ todos Sample.busy -> Todo.completed t = false ->
                       Todo.dueDate t = Some (DateAt due) -> (due < lo)%Z ->
                       t ∈ overdue.
Proof.
  exact (getOverdueTodos_selects_pending_past_due Sample.busy Sample.emptyWorld eq_refl).
Defined.

Lemma length_filter_partition {A} (p : A -> bool) (l : list A) :
  length (List.filter p l) + length (List.filter (fun a => negb (p a)) l) = length l.
Proof.
  induction l as [|a l IH]; cbn; [reflexivity|].
  destruct (p a); cbn; lia.
Qed.

Lemma length_filter_priorities (l : list Todo.Todo) :
  let count p := length (List.filter (fun t => String.eqb (Todo.priority t) p) l) in
  count Todo.HIGH + count Todo.MEDIUM + count Todo.LOW <= length l
  /\ (Forall (fun t => Todo.validatePriority (Todo.priority t) = None) l ->
      count Todo.HIGH + count Todo.MEDIUM + count Todo.LOW = length l).
Proof.
  cbn zeta. induction l as [|t l [IHle IHeq]]; [split; reflexivity|].
  cbn [List.filter length].
  destruct (String.eqb_spec (Todo.priority t) Todo.HIGH) as [Hh|Hh];
    destruct (String.eqb_spec (Todo.priority t) Todo.MEDIUM) as [Hm|Hm];
    destruct (String.eqb_spec (Todo.priority t) Todo.LOW) as [Hl|Hl];
    try (rewrite Hh in Hm; discriminate Hm);
    try (rewrite Hh in Hl; discriminate Hl);
    try (rewrite Hm in Hl; discriminate Hl);
    cbn [length]; (split; [lia|]); intros Hall;
    apply Forall_cons in Hall as [Ht Hall]; specialize (IHeq Hall); try lia.
  exfalso. unfold Todo.validatePriority in Ht.
  destruct (bool_decide (Todo.priority t ∈ Todo.Priority_values)) eqn:Hin;
    [|discriminate Ht].
  apply bool_decide_eq_true_1 in Hin. unfold Todo.Priority_values in Hin.
  repeat (apply elem_of_cons in Hin as [Hin|Hin]; [congruence|]).
  inversion Hin.
Qed.

(** X10: the numbers of [getStatistics] are consistent: the completed
    and the pending todos add up to the total, the overdue todos are not
    more than the pending ones, and the three entries of the priority
    breakdown add up to at most the total, to exactly the total when
    every stored priority is one of the three values.  The call changes
    nothing but the clock. *)
Theorem getStatistics_is_consistent (m : TodoManager) (w : World) :
  isInitialized m = true ->
  exists stats k high medium low,
    getStatistics (m, w) = (Ok stats, (m, later k w))
    /\ totalTodos stats = length (todos m)
    /\ totalCategories stats = length (categories m)
    /\ completedTodos stats + pendingTodos stats = totalTodos stats
    /\ overdueTodos stats <= pendingTodos stats
    /\ priorityBreakdown stats
       = [(Todo.HIGH, high); (Todo.MEDIUM, medium); (Todo.LOW, low)]
    /\ high + medium + low <= totalTodos stats
    /\ (Forall (fun t => Todo.validatePriority (Todo.priority t) = None) (todos m) ->
        high + medium + low = totalTodos stats).
Proof.
  intros Hinit.
  destruct (filterM_isOverdue (todos m) m w) as (l' & Hrun & _ & Hlen & _).
  cbn zeta in Hrun.
  set (k := length (List.filter dated (todos m))) in *.
  assert (Hinit' : forall w0, ensureInitialized (m, w0) = (Ok tt, (m, w0)))
    by (intros w0; now apply ensureInitialized_ok).
  eexists _, k, _, _, _. split.
  { unfold getStatistics. rewrite (bind_ok _ _ _ _ _ (Hinit' w)).
    unfold bind at 1. cbn [this fst].
    unfold getOverdueTodos at 1.
    unfold bind at 1. rewrite (bind_ok _ _ _ _ _ (Hinit' w)).
    unfold bind at 1. cbn [this fst]. rewrite Hrun.
    unfold getTodosByPriority.
    unfold bind at 1. rewrite (bind_ok _ _ _ _ _ (Hinit' _)).
    unfold bind at 1. cbn [this fst ret].
    unfold bind at 1. rewrite (bind_ok _ _ _ _ _ (Hinit' _)).
    unfold bind at 1. cbn [this fst ret].
    unfold bind at 1. rewrite (bind_ok _ _ _ _ _ (Hinit' _)).
    unfold bind at 1. cbn [this fst ret].
    unfold bind at 1. cbn [this fst ret]. reflexivity. }
  cbn [totalTodos totalCategories completedTodos pendingTodos overdueTodos
       priorityBreakdown].
  split; [reflexivity|]. split; [reflexivity|].
  split; [apply length_filter_partition|]. split; [exact Hlen|].
  split; [reflexivity|]. apply length_filter_priorities.
Qed.

Lemma getStatistics_is_consistent_witness :
  exists stats k high medium low,
    getStatistics (Sample.busy, Sample.emptyWorld)
    = (Ok stats, (Sample.busy, later k Sample.emptyWorld))
    /\ totalTodos stats = length (todos Sample.busy)
    /\ totalCategories stats = length (categories Sample.busy)
    /\ completedTodos stats + pendingTodos stats = totalTodos stats
    /\ overdueTodos stats <= pendingTodos stats
    /\ priorityBreakdown stats
       = [(Todo.HIGH, high); (Todo.MEDIUM, medium); (Todo.LOW, low)]
    /\ high + medium + low <= totalTodos stats
    /\ (Forall (fun t => Todo.validatePriority (Todo.priority t) = None)
               (todos Sample.busy) ->
        high + medium + low = totalTodos stats).
Proof.
  exact (getStatistics_is_consistent Sample.busy Sample.emptyWorld eq_refl).
Defined.

End Queries.

Section FailedSaves.

Import TodoManager.

(** X11: a coordinator constructed without a [fileManager] configuration
    keeps the data path [''], and with it [FileManager.save] fails with
    SAVE_ERROR for all data and in every state of the file system: the
    temporary file cannot be renamed to the empty path.  [save] of the
    coordinator then throws its own SAVE_ERROR. *)
Theorem default_coordinator_cannot_save (autoSave createDefaults : option bool)
    (w : World) :
  let m := TodoManager.new {| cfg_fileManager := None; cfg_autoSave := autoSave;
                              cfg_createDefaultCategories := createDefaults |} in
  FileManager.dataPath (fileManager m) = ""
  /\ (forall ts cs, exists cause,
        fst (FileManager.save (fileManager m) ts cs w)
        = Throw (FileManagerError ("Failed to save data: " +:+ message cause) "SAVE_ERROR"
                                  (Some cause)))
  /\ (forall m', isInitialized m' = true -> fileManager m' = fileManager m ->
        exists cause w',
          save (m', w)
          = (Throw (TodoManagerError
                      ("Failed to save data: " +:+
                       message (FileManagerError ("Failed to save data: " +:+ message cause)
                                                 "SAVE_ERROR" (Some cause)))
                      "SAVE_ERROR"
                      (CausedBy (FileManagerError
                                   ("Failed to save data: " +:+ message cause)
                                   "SAVE_ERROR" (Some cause)))),
             (m', w'))).
Proof.
  cbn zeta. split; [reflexivity|]. split.
  - intros ts cs. now apply save_needs_dataPath.
  - intros m' Hinit Hfm.
    destruct (save_needs_dataPath (fileManager m') (todos m') (categories m') w)
      as [cause Hcause]; [now rewrite Hfm|].
    destruct (save_state m' w Hinit) as (r & w' & Hrun & _ & Hr).
    rewrite Hcause in Hr. subst r. eauto.
Qed.

(** X12: a mutating call that fails with SAVE_ERROR has made its change
    to the data in memory all the same: the todo or the category has been
    added, replaced or removed before the save was tried, and it is not
    taken back. *)
Theorem failed_autosave_keeps_the_change (m : TodoManager) (w : World) :
  isInitialized m = true ->
  (forall input e m' w',
     addTodo input (m, w) = (Throw e, (m', w')) -> code e = Some "SAVE_ERROR" ->
     exists t, todos m' = (todos m ++ [t])%list
               /\ Todo.title t = Todo.in_title input
               /\ Todo.id t = default (uuidSource w (drawn w)) (Todo.in_id input))
  /\ (forall id updates e m' w',
        updateTodo id updates (m, w) = (Throw e, (m', w')) -> code e = Some "SAVE_ERROR" ->
        exists i cur updates',
          findIndex (todoHasId id) (todos m) = Some i
          /\ todos m !! i = Some cur
          /\ completionHandled cur updates updates'
          /\ todos m' = <[i := Todo.applyUpdates cur updates']> (todos m))
  /\ (forall id e m' w',
        deleteTodo id (m, w) = (Throw e, (m', w')) -> code e = Some "SAVE_ERROR" ->
        exists i, findIndex (todoHasId id) (todos m) = Some i
                  /\ todos m' = delete i (todos m))
  /\ (forall input e m' w',
        addCategory input (m, w) = (Throw e, (m', w')) -> code e = Some "SAVE_ERROR" ->
        categories m'
        = (categories m ++ [Category.createCategory (uuidSource w (drawn w)) input])%list)
  /\ (forall id updates e m' w',
        updateCategory id updates (m, w) = (Throw e, (m', w')) ->
        code e = Some "SAVE_ERROR" ->
        exists i cur,
          findIndex (categoryHasId id) (categories m) = Some i
          /\ categories m !! i = Some cur
          /\ categories m' = <[i := applyCategoryUpdates cur updates]> (categories m)).
Proof.
  intros Hinit. repeat split.
  - intros input e m' w' H Hcode.
    apply (addTodo_state _ _ _ _ _ _ Hinit) in H
      as [[_ (e' & [= <-] & Hne)] | (now1 & now2 & _ & _ & -> & _)]; [contradiction|].
    eexists. rewrite recount_todos. cbn [todos setTodos]. repeat split.
  - intros id updates e m' w' H Hcode.
    apply (updateTodo_state _ _ _ _ _ _ _ Hinit) in H
      as [[_ (e' & [= <-] & Hne)] | (i & cur & updates' & Hi & Hcur & Hdone & _ & -> & _)];
      [contradiction|].
    exists i, cur, updates'. rewrite recountMoved_todos. cbn [todos setTodos]. auto.
  - intros id e m' w' H Hcode.
    apply (deleteTodo_state _ _ _ _ _ _ Hinit) in H
      as [[_ (e' & [= <-] & Hne)] | (i & todo & Hi & Htodo & -> & _)]; [contradiction|].
    exists i. rewrite recount_todos. cbn [todos setTodos]. auto.
  - intros input e m' w' H Hcode.
    apply (addCategory_state _ _ _ _ _ _ Hinit) in H
      as [(_ & _ & e' & [= <-] & Hc) | [(_ & _ & _ & e' & [= <-] & Hc) | (_ & _ & -> & _)]];
      [congruence|congruence|reflexivity].
  - intros id updates e m' w' H Hcode.
    apply (updateCategory_state _ _ _ _ _ _ _ Hinit) in H
      as [[_ (e' & [= <-] & Hne)] | (i & cur & Hi & Hcur & -> & _)]; [contradiction|].
    exists i, cur. auto.
Qed.

Lemma failed_autosave_keeps_the_change_witness :
  exists e m' w',
    addCategory Sample.lowerWork (defaultInitialized, Sample.emptyWorld)
    = (Throw e, (m', w'))
    /\ code e = Some "SAVE_ERROR"
    /\ categories m' = [Category.createCategory "id-0" Sample.lowerWork].
Proof.
  pose proof (eq_refl : match fst (addCategory Sample.lowerWork
                                     (defaultInitialized, Sample.emptyWorld)) with
                        | Ok _ => None
                        | Throw e => code e
                        end = Some "SAVE_ERROR") as Hcode.
  destruct (addCategory Sample.lowerWork (defaultInitialized, Sample.emptyWorld))
    as [[c|e] [m' w']] eqn:Hrun; [discriminate Hcode|].
  exists e, m', w'. split; [reflexivity|]. split; [exact Hcode|].
  destruct (failed_autosave_keeps_the_change defaultInitialized Sample.emptyWorld eq_refl)
    as (_ & _ & _ & Hadd & _).
  exact (Hadd Sample.lowerWork e m' w' Hrun Hcode).
Defined.

End FailedSaves.

Section DeleteCategory.

Import TodoManager.

Lemma bind_ret_ok {A} (x : Method A) (s s' : TodoManager * World) :
  bind x (fun _ => ret tt) s = (Ok tt, s') -> exists a, x s = (Ok a, s').
Proof.
  unfold bind, ret. destruct (x s) as [[a|e] s0]; intros [= <-]; eauto.
Qed.

Lemma List_filter_filter {A} (p q : A -> bool) (l : list A) :
  List.filter q (List.filter p l) = List.filter (fun a => p a && q a) l.
Proof.
  induction l as [|a l IH]; cbn; [reflexivity|].
  destruct (p a); cbn; [destruct (q a)|]; now rewrite IH.
Qed.

Lemma NoDup_ids_filter (p : Todo.Todo -> bool) (l : list Todo.Todo) :
  NoDup (map Todo.id l) -> NoDup (map Todo.id (List.filter p l)).
Proof.
  intros H. eapply sublist_NoDup; [exact H|].
  apply fmap_sublist, List_filter_sublist.
Qed.

Lemma NoDup_ids_eq (l : list Todo.Todo) (x y : Todo.Todo) :
  NoDup (map Todo.id l) -> x ∈ l -> y ∈ l -> Todo.id x = Todo.id y -> x = y.
Proof.
  intros Hnd Hx Hy Heq.
  apply list_elem_of_lookup in Hx as [i Hi]. apply list_elem_of_lookup in Hy as [j Hj].
  assert (i = j).
  { apply (NoDup_lookup (map Todo.id l) i j (Todo.id x) Hnd).
    - now rewrite list_lookup_fmap, Hi.
    - rewrite list_lookup_fmap, Hj. cbn. now rewrite Heq. }
  subst j. congruence.
Qed.

Lemma elem_of_List_filter {A} (p : A -> bool) (l : list A) (x : A) :
  x ∈ List.filter p l <-> x ∈ l /\ p x = true.
Proof. rewrite !list_elem_of_In. apply filter_In. Qed.

(** With distinct identifiers, the todos of a category are the todos
    whose identifier is one of theirs. *)
Lemma inCategory_by_id (cid : string) (l : list Todo.Todo) (t : Todo.Todo) :
  NoDup (map Todo.id l) -> t ∈ l ->
  bool_decide (Todo.id t ∈ map Todo.id (List.filter (inCategory cid) l))
  = inCategory cid t.
Proof.
  intros Hnd Ht. destruct (inCategory cid t) eqn:Hc.
  - apply bool_decide_eq_true_2. apply list_elem_of_fmap. exists t.
    split; [reflexivity|]. now apply elem_of_List_filter.
  - apply bool_decide_eq_false_2. intros Hin.
    apply list_elem_of_fmap in Hin as (t' & Hid & Ht').
    apply elem_of_List_filter in Ht' as [Ht' Hc'].
    assert (t = t') by (eapply NoDup_ids_eq; eauto). subst t'. congruence.
Qed.

(** The loop of [deleteCategory] that deletes the todos. *)
Lemma forEach_deleteTodo (l : list Todo.Todo) (m : TodoManager) (w : World)
    (m' : TodoManager) (w' : World) :
  isInitialized m = true ->
  NoDup (map Todo.id (todos m)) ->
  forEach (fun todo => bind (deleteTodo (Todo.id todo)) (fun _ => ret tt)) l (m, w)
  = (Ok tt, (m', w')) ->
  isInitialized m' = true
  /\ todos m' = List.filter (fun t => negb (bool_decide (Todo.id t ∈ map Todo.id l)))
                            (todos m)
  /\ map Category.id (categories m') = map Category.id (categories m).
Proof.
  revert m w. induction l as [|a l IH]; intros m w Hinit Hnd H; cbn [forEach] in H.
  - injection H as <- <-. split; [exact Hinit|]. split; [|reflexivity].
    cbn [map]. symmetry. rewrite <- (filter_ext_in (fun _ => true)).
    + clear. induction (todos m) as [|b k IHk]; cbn; [reflexivity|]. now rewrite IHk.
    + intros b _. symmetry. apply negb_true_iff, bool_decide_eq_false_2.
      apply not_elem_of_nil.
  - unfold bind at 1 in H.
    destruct (bind (deleteTodo (Todo.id a)) (fun _ => ret tt) (m, w))
      as [[[]|e] [m1 w1]] eqn:H1; [|discriminate H].
    apply bind_ret_ok in H1 as [r1 H1].
    apply (deleteTodo_state _ _ _ _ _ _ Hinit) in H1
      as [[_ (e & [=] & _)] | (i & todo & Hi & Htodo & -> & _)].
    set (m1 := recount _ _) in H.
    assert (Htodos : todos m1 = List.filter (fun t => negb (todoHasId (Todo.id a) t))
                                            (todos m)).
    { subst m1. rewrite recount_todos. cbn [todos setTodos].
      now apply delete_findIndex_filter. }
    apply IH in H as (Hinit' & Htodos' & Hcats').
    + split; [exact Hinit'|]. split.
      * rewrite Htodos', Htodos, List_filter_filter. apply filter_ext.
        intros t. unfold todoHasId. cbn [map].
        destruct (String.eqb_spec (Todo.id t) (Todo.id a)) as [Heq|Hne]; cbn [negb andb].
        -- symmetry. apply negb_false_iff, bool_decide_eq_true_2. rewrite Heq. left.
        -- f_equal. apply bool_decide_ext. rewrite elem_of_cons. tauto.
      * rewrite Hcats'. subst m1. rewrite recount_ids. reflexivity.
    + subst m1. now rewrite recount_isInitialized.
    + rewrite Htodos. now apply NoDup_ids_filter.
Qed.

Lemma filter_negb_by_id (cid : string) (l : list Todo.Todo) :
  NoDup (map Todo.id l) ->
  List.filter (fun t => negb (bool_decide
                 (Todo.id t ∈ map Todo.id (List.filter (inCategory cid) l)))) l
  = List.filter (fun t => negb (inCategory cid t)) l.
Proof.
  intros Hnd. apply filter_ext_in. intros t Ht.
  rewrite inCategory_by_id; auto. now apply list_elem_of_In.
Qed.

(** X13: when the identifiers of the todos are distinct, a
    [deleteCategory] without a (truthy) move-to argument that returns has
    deleted the todos of the category, all of them and no other todo,
    and has removed the category; no todo refers to it any more. *)
Theorem deleteCategory_deletes_its_todos (id : string) (target : option string)
    (m : TodoManager) (w : World) (m' : TodoManager) (w' : World) :
  isInitialized m = true ->
  NoDup (map Todo.id (todos m)) ->
  noTarget target ->
  deleteCategory id target (m, w) = (Ok true, (m', w')) ->
  todos m' = List.filter (fun t => negb (inCategory id t)) (todos m)
  /\ (forall t, t ∈ todos m' -> Todo.categoryId t <> id)
  /\ exists i, findIndex (categoryHasId id) (categories m) = Some i
               /\ map Category.id (categories m')
                  = delete i (map Category.id (categories m)).
Proof.
  intros Hinit Hnd Htarget H.
  apply (deleteCategory_state _ _ _ _ _ _ _ Hinit) in H
    as [(_ & _ & e & [=] & _) | (i & rl & ml & wl & Hi & Hloop & Hrest)].
  destruct rl as [[]|e]; [|destruct Hrest as [_ [=]]].
  destruct Hrest as [-> _]. cbn [todos categories setCategories].
  assert (Hml : todos ml = List.filter (fun t => negb (inCategory id t)) (todos m)
                /\ map Category.id (categories ml) = map Category.id (categories m)).
  { unfold resolveTodos in Hloop.
    destruct (0 <? length (List.filter (inCategory id) (todos m)))%nat eqn:Hlen.
    - assert (Hrun : forEach (fun todo => bind (deleteTodo (Todo.id todo))
                                              (fun _ => ret tt))
                             (List.filter (inCategory id) (todos m)) (m, w)
                     = (Ok tt, (ml, wl))).
      { destruct Htarget as [-> | ->]; exact Hloop. }
      apply forEach_deleteTodo in Hrun as (_ & Htodos & Hcats); auto.
      split; [|exact Hcats]. rewrite Htodos. now apply filter_negb_by_id.
    - injection Hloop as <- <-. split; [|reflexivity].
      apply Nat.ltb_ge in Hlen.
      destruct (List.filter (inCategory id) (todos m)) as [|x k] eqn:Hnone;
        [|cbn in Hlen; lia].
      symmetry. rewrite <- (filter_ext_in (fun _ => true)).
      + clear. induction (todos m) as [|b k IHk]; cbn; [reflexivity|]. now rewrite IHk.
      + intros b Hb. symmetry. apply negb_true_iff.
        destruct (inCategory id b) eqn:Hc; [|reflexivity].
        assert (Hin : In b (List.filter (inCategory id) (todos m)))
          by (apply filter_In; auto).
        rewrite Hnone in Hin. destruct Hin. }
  destruct Hml as [Htodos Hcats]. split; [exact Htodos|]. split.
  - intros t Ht. rewrite Htodos in Ht. apply elem_of_List_filter in Ht as [_ Hc].
    apply negb_true_iff in Hc. unfold inCategory in Hc. now apply String.eqb_neq.
  - exists i. split; [exact Hi|]. rewrite list_fmap_delete. f_equal. exact Hcats.
Qed.

Lemma deleteCategory_deletes_its_todos_witness :
  exists m' w',
    deleteCategory "c1" None (Sample.busy, Sample.emptyWorld) = (Ok true, (m', w'))
    /\ todos m' = []
    /\ map Category.id (categories m') = ["c2"].
Proof.
  pose proof (eq_refl : fst (deleteCategory "c1" None (Sample.busy, Sample.emptyWorld))
                        = Ok true) as Hok.
  destruct (deleteCategory "c1" None (Sample.busy, Sample.emptyWorld))
    as [[[]|e] [m' w']] eqn:Hrun; try discriminate Hok.
  exists m', w'. split; [reflexivity|].
  destruct (deleteCategory_deletes_its_todos "c1" None Sample.busy Sample.emptyWorld m' w'
              eq_refl) as (Htodos & _ & i & Hi & Hcats).
  - refine (bool_decide_unpack _ _). vm_compute. exact I.
  - now left.
  - exact Hrun.
  - split; [exact Htodos|]. injection Hi as <-. exact Hcats.
Defined.

Lemma recountMoved_ids (old : string) (target : option string) (m : TodoManager) :
  map Category.id (categories (recountMoved old target m)) = map Category.id (categories m).
Proof.
  unfold recountMoved. destruct target as [c|]; [|reflexivity].
  destruct (negb _); [|reflexivity]. now rewrite !recount_ids.
Qed.

Lemma insert_findIndex_map (f : Todo.Todo -> Todo.Todo) (id : string)
    (l : list Todo.Todo) (i : nat) (cur : Todo.Todo) :
  NoDup (map Todo.id l) ->
  findIndex (todoHasId id) l = Some i ->
  l !! i = Some cur ->
  <[i := f cur]> l = map (fun t => if todoHasId id t then f t else t) l.
Proof.
  revert i. induction l as [|a l IH]; intros i Hnd Hi Hcur; [discriminate|].
  cbn [map] in Hnd. apply NoDup_cons in Hnd as [Ha Hnd].
  cbn [findIndex] in Hi. cbn [map].
  destruct (todoHasId id a) eqn:Hid.
  - injection Hi as <-. cbn in Hcur. injection Hcur as <-. cbn. f_equal.
    unfold todoHasId in Hid. apply String.eqb_eq in Hid. subst id.
    rewrite <- (map_id l) at 1. apply map_ext_in. intros b Hb.
    unfold todoHasId. destruct (String.eqb_spec (Todo.id b) (Todo.id a)) as [Heq|];
      [|reflexivity].
    exfalso. apply Ha. rewrite <- Heq. apply list_elem_of_fmap. exists b.
    split; [reflexivity|]. now apply list_elem_of_In.
  - destruct (findIndex (todoHasId id) l) as [j|] eqn:Hj; [|discriminate].
    injection Hi as <-. cbn in Hcur.
    change (<[S j := f cur]> (a :: l)) with (a :: <[j := f cur]> l).
    f_equal. now apply IH.
Qed.

Lemma moved_id (target : string) (t : Todo.Todo) : Todo.id (moved target t) = Todo.id t.
Proof. reflexivity. Qed.

Lemma moved_moved (target : string) (t : Todo.Todo) :
  moved target (moved target t) = moved target t.
Proof. reflexivity. Qed.

(** The loop of [deleteCategory] that moves the todos. *)
Lemma forEach_moveTodo (target : string) (l : list Todo.Todo) (m : TodoManager)
    (w : World) (m' : TodoManager) (w' : World) :
  isInitialized m = true ->
  NoDup (map Todo.id (todos m)) ->
  forEach (fun todo => bind (updateTodo (Todo.id todo) (moveTo target)) (fun _ => ret tt))
          l (m, w)
  = (Ok tt, (m', w')) ->
  isInitialized m' = true
  /\ todos m' = map (fun t => if bool_decide (Todo.id t ∈ map Todo.id l)
                              then moved target t else t) (todos m)
  /\ map Category.id (categories m') = map Category.id (categories m).
Proof.
  revert m w. induction l as [|a l IH]; intros m w Hinit Hnd H; cbn [forEach] in H.
  - injection H as <- <-. split; [exact Hinit|]. split; [|reflexivity].
    cbn [map]. rewrite <- (map_id (todos m)) at 1. apply map_ext. intros t.
    rewrite bool_decide_eq_false_2; [reflexivity|apply not_elem_of_nil].
  - unfold bind at 1 in H.
    destruct (bind (updateTodo (Todo.id a) (moveTo target)) (fun _ => ret tt) (m, w))
      as [[[]|e] [m1 w1]] eqn:H1; [|discriminate H].
    apply bind_ret_ok in H1 as [r1 H1].
    apply (updateTodo_state _ _ _ _ _ _ _ Hinit) in H1
      as [[_ (e & [=] & _)] | (i & cur & updates' & Hi & Hcur & Hdone & _ & -> & _)].
    cbn in Hdone. subst updates'.
    set (m1 := recountMoved _ _ _) in H.
    assert (Htodos : todos m1 = map (fun t => if todoHasId (Todo.id a) t
                                              then moved target t else t) (todos m)).
    { subst m1. rewrite recountMoved_todos. cbn [todos setTodos].
      now apply (insert_findIndex_map (moved target)). }
    apply IH in H as (Hinit' & Htodos' & Hcats').
    + split; [exact Hinit'|]. split.
      * rewrite Htodos', Htodos, map_map. apply map_ext. intros t.
        unfold todoHasId. cbn [map].
        destruct (String.eqb_spec (Todo.id t) (Todo.id a)) as [Heq|Hne].
        -- rewrite moved_id, moved_moved.
           rewrite (bool_decide_eq_true_2 (Todo.id t ∈ Todo.id a :: map Todo.id l))
             by (rewrite Heq; left).
           now destruct (bool_decide _).
        -- apply (f_equal (fun b : bool => if b then moved target t else t)).
           apply bool_decide_ext. rewrite elem_of_cons. tauto.
      * rewrite Hcats'. subst m1. now rewrite recountMoved_ids.
    + subst m1. now rewrite recountMoved_isInitialized.
    + rewrite Htodos, map_map.
      rewrite (map_ext _ Todo.id); [exact Hnd|].
      intros t. now destruct (todoHasId (Todo.id a) t).
Qed.

(** X14: when the identifiers of the todos are distinct, a
    [deleteCategory] with a move-to category that returns has given the
    todos of the deleted category the new [categoryId], has changed
    nothing else in any todo, and has removed the category; unless the
    target is the deleted category itself, no todo refers to it any
    more. *)
Theorem deleteCategory_moves_its_todos (id target : string)
    (m : TodoManager) (w : World) (m' : TodoManager) (w' : World) :
  isInitialized m = true ->
  NoDup (map Todo.id (todos m)) ->
  JSString.nonEmpty target = true ->
  deleteCategory id (Some target) (m, w) = (Ok true, (m', w')) ->
  todos m' = map (fun t => if inCategory id t then moved target t else t) (todos m)
  /\ (target <> id -> forall t, t ∈ todos m' -> Todo.categoryId t <> id)
  /\ exists i, findIndex (categoryHasId id) (categories m) = Some i
               /\ map Category.id (categories m')
                  = delete i (map Category.id (categories m)).
Proof.
  intros Hinit Hnd Htarget H.
  apply (deleteCategory_state _ _ _ _ _ _ _ Hinit) in H
    as [(_ & _ & e & [=] & _) | (i & rl & ml & wl & Hi & Hloop & Hrest)].
  destruct rl as [[]|e]; [|destruct Hrest as [_ [=]]].
  destruct Hrest as [-> _]. cbn [todos categories setCategories].
  assert (Hml : todos ml = map (fun t => if inCategory id t then moved target t else t)
                               (todos m)
                /\ map Category.id (categories ml) = map Category.id (categories m)).
  { unfold resolveTodos in Hloop. rewrite Htarget in Hloop.
    destruct (0 <? length (List.filter (inCategory id) (todos m)))%nat eqn:Hlen.
    - rewrite (bind_ok _ _ _ _ _ (categoryExists_ok target m w Hinit)) in Hloop.
      destruct (negb _); [discriminate Hloop|].
      apply (forEach_moveTodo target) in Hloop as (_ & Htodos & Hcats); auto.
      split; [|exact Hcats]. rewrite Htodos. apply map_ext_in. intros t Ht.
      rewrite inCategory_by_id; auto. now apply list_elem_of_In.
    - injection Hloop as <- <-. split; [|reflexivity].
      apply Nat.ltb_ge in Hlen.
      destruct (List.filter (inCategory id) (todos m)) as [|x k] eqn:Hnone;
        [|cbn in Hlen; lia].
      rewrite <- (map_id (todos m)) at 1. apply map_ext_in. intros b Hb.
      destruct (inCategory id b) eqn:Hc; [|reflexivity].
      assert (Hin : In b (List.filter (inCategory id) (todos m)))
        by (apply filter_In; auto).
      rewrite Hnone in Hin. destruct Hin. }
  destruct Hml as [Htodos Hcats]. split; [exact Htodos|]. split.
  - intros Hne t Ht. rewrite Htodos in Ht.
    apply list_elem_of_fmap in Ht as (t0 & -> & _).
    unfold inCategory. destruct (String.eqb_spec (Todo.categoryId t0) id) as [Heq|Hneq].
    + cbn. exact Hne.
    + exact Hneq.
  - exists i. split; [exact Hi|]. rewrite list_fmap_delete. f_equal. exact Hcats.
Qed.

Lemma deleteCategory_moves_its_todos_witness :
  exists m' w',
    deleteCategory "c1" (Some "c2") (Sample.busy, Sample.emptyWorld)
    = (Ok true, (m', w'))
    /\ todos m' = [moved "c2" Sample.buyMilk]
    /\ map Category.id (categories m') = ["c2"].
Proof.
  pose proof (eq_refl : fst (deleteCategory "c1" (Some "c2")
                               (Sample.busy, Sample.emptyWorld)) = Ok true) as Hok.
  destruct (deleteCategory "c1" (Some "c2") (Sample.busy, Sample.emptyWorld))
    as [[[]|e] [m' w']] eqn:Hrun; try discriminate Hok.
  exists m', w'. split; [reflexivity|].
  destruct (deleteCategory_moves_its_todos "c1" "c2" Sample.busy Sample.emptyWorld m' w'
              eq_refl) as (Htodos & _ & i & Hi & Hcats).
  - refine (bool_decide_unpack _ _). vm_compute. exact I.
  - reflexivity.
  - exact Hrun.
  - split; [exact Htodos|]. injection Hi as <-. exact Hcats.
Defined.

End DeleteCategory.

Section Composition.

Import TodoManager.

(** With auto-save off, [addTodo] accepts every valid input whose
    category exists. *)
Lemma addTodo_succeeds (input : Todo.TodoInput) (m : TodoManager) (w : World) :
  isInitialized m = true ->
  autoSave (config m) = false ->
  Todo.validateTodoInput input = [] ->
  existsb (categoryHasId (Todo.in_categoryId input)) (categories m) = true ->
  exists t m' w', addTodo input (m, w) = (Ok t, (m', w')).
Proof.
  intros Hinit Hauto Hvalid Hexists.
  destruct (addTodo input (m, w)) as [r [m' w']] eqn:H.
  unfold addTodo in H. enter Hinit H.
  rewrite bool_decide_eq_true_2 in H by exact Hvalid. cbn [negb] in H.
  rewrite (bind_ok _ _ _ _ _ (categoryExists_ok _ m w Hinit)), Hexists in H.
  cbn [negb] in H.
  unfold bind at 1, io at 1 in H. cbn [snd fst Fs.uuidv4] in H.
  unfold bind at 1, io at 1 in H. cbn [snd fst Fs.now] in H.
  assert (Hnow2 : exists now2 w2,
            (if Todo.in_completed input then io Fs.now
             else ret (DateAt (clock w (ticks w))))
              (m, {| files := files w; observed := observed w; clock := clock w;
                     ticks := S (ticks w); uuidSource := uuidSource w;
                     drawn := S (drawn w) |})
            = (Ok (DateAt now2), (m, w2))).
  { destruct (Todo.in_completed input); cbn; eauto. }
  destruct Hnow2 as (now2 & w2 & Hnow2).
  rewrite (bind_ok _ _ _ _ _ Hnow2) in H.
  unfold bind at 1 in H. cbn [update fst snd] in H.
  set (t := Todo.createTodo _ _ _ input) in H.
  set (m1 := setTodos (todos m ++ [t]) m) in H.
  rewrite (bind_ok _ _ _ _ _ (updateCategoryTodoCount_ok _ m1 w2 Hinit)) in H.
  rewrite (bind_ok _ _ _ _ _ (autoSaveIfEnabled_off _ w2
             (eq_trans (f_equal autoSave (proj1 (recount_config _ m1))) Hauto))) in H.
  injection H as <- <- <-. eauto.
Qed.

Lemma existsb_app_last {A} (p : A -> bool) (l : list A) (x : A) :
  p x = true -> existsb p (l ++ [x]) = true.
Proof. intros H. rewrite existsb_app. cbn. rewrite H. apply orb_true_r. Qed.

(** X15: with auto-save off, a category that [addCategory] has returned
    can be used at once: [addTodo] accepts every valid input that names
    it, and the new todo is what [getTodosByCategory] then returns after
    the todos that carried that [categoryId] before. *)
Theorem addCategory_then_addTodo (cin : Category.CategoryInput) (tin : Todo.TodoInput)
    (m : TodoManager) (w : World) (c : Category.Category) (m1 : TodoManager)
    (w1 : World) :
  isInitialized m = true ->
  autoSave (config m) = false ->
  addCategory cin (m, w) = (Ok c, (m1, w1)) ->
  Todo.validateTodoInput tin = [] ->
  Todo.in_categoryId tin = Category.id c ->
  exists t m2 w2,
    addTodo tin (m1, w1) = (Ok t, (m2, w2))
    /\ Todo.categoryId t = Category.id c
    /\ todos m2 = (todos m ++ [t])%list
    /\ getTodosByCategory (Category.id c) (m2, w2)
       = (Ok (List.filter (inCategory (Category.id c)) (todos m) ++ [t])%list, (m2, w2)).
Proof.
  intros Hinit Hauto Hadd Hvalid Hcat.
  apply (addCategory_state _ _ _ _ _ _ Hinit) in Hadd
    as [(_ & _ & e & [=] & _) | [(_ & _ & _ & e & [=] & _) | (_ & _ & -> & Hr)]].
  destruct Hr as [[= ->] | (e & [=] & _)].
  set (c := Category.createCategory _ cin) in *.
  set (m1 := setCategories (categories m ++ [c]) m).
  assert (Hinit1 : isInitialized m1 = true) by exact Hinit.
  destruct (addTodo_succeeds tin m1 w1 Hinit1 Hauto Hvalid) as (t & m2 & w2 & Hrun).
  { rewrite Hcat. cbn [categories setCategories m1]. apply existsb_app_last.
    unfold categoryHasId. apply String.eqb_refl. }
  exists t, m2, w2. split; [exact Hrun|].
  apply (addTodo_state _ _ _ _ _ _ Hinit1) in Hrun
    as [[_ (e & [=] & _)] | (now1 & now2 & _ & _ & -> & Hr)].
  destruct Hr as [[= ->] | (e & [=] & _)].
  set (t := Todo.createTodo _ _ _ tin).
  split; [exact Hcat|]. rewrite recount_todos. cbn [todos setTodos m1].
  split; [reflexivity|].
  rewrite getTodosByCategory_ok by (now rewrite recount_isInitialized).
  rewrite recount_todos. cbn [todos setTodos m1].
  rewrite List.filter_app. cbn [List.filter]. unfold inCategory at 2.
  change (Todo.categoryId t) with (Todo.in_categoryId tin).
  now rewrite Hcat, String.eqb_refl.
Qed.

Lemma addCategory_then_addTodo_witness :
  exists c m1 w1 t m2 w2,
    addCategory Sample.errands (Sample.busy, Sample.emptyWorld) = (Ok c, (m1, w1))
    /\ Category.id c = "id-0"
    /\ addTodo Sample.postOffice (m1, w1) = (Ok t, (m2, w2))
    /\ todos m2 = [Sample.buyMilk; t]
    /\ getTodosByCategory "id-0" (m2, w2) = (Ok [t], (m2, w2)).
Proof.
  pose proof (eq_refl : option_map Category.id
                          (match fst (addCategory Sample.errands
                                                  (Sample.busy, Sample.emptyWorld)) with
                           | Ok c => Some c
                           | Throw _ => None
                           end) = Some "id-0") as Hok.
  destruct (addCategory _ (Sample.busy, Sample.emptyWorld))
    as [[c|e] [m1 w1]] eqn:Hrun; [|discriminate Hok].
  injection Hok as Hid.
  destruct (addCategory_then_addTodo _ Sample.postOffice
              Sample.busy Sample.emptyWorld c m1 w1 eq_refl eq_refl Hrun eq_refl)
    as (t & m2 & w2 & Hadd & _ & Htodos & Hget).
  - now rewrite Hid.
  - exists c, m1, w1, t, m2, w2. rewrite Hid in Hget. auto.
Defined.

End Composition.

Section CountsKept.

Import TodoManager.




End CountsKept.

(** * Further properties of the records *)

Section Priorities.

(** X16: [getPriorityWeight] gives a positive weight exactly to the
    priorities that [validatePriority] accepts, and ranks them high
    above medium above low; every other value weighs 0. *)
Theorem getPriorityWeight_ranks_valid_priorities (priority : Todo.Priority) :
  (TodoUtils.getPriorityWeight priority = 0%Z <-> Todo.validatePriority priority <> None)
  /\ (0 <= TodoUtils.getPriorityWeight priority <= 3)%Z
  /\ (TodoUtils.getPriorityWeight Todo.LOW < TodoUtils.getPriorityWeight Todo.MEDIUM
      < TodoUtils.getPriorityWeight Todo.HIGH)%Z.
Proof.
  split; [|split; [|split; reflexivity]].
  - unfold TodoUtils.getPriorityWeight, Todo.validatePriority, Todo.Priority_values.
    destruct (String.eqb_spec priority Todo.HIGH) as [->|Hh].
    { split; [discriminate|]. intros H. now elim H. }
    destruct (String.eqb_spec priority Todo.MEDIUM) as [->|Hm].
    { split; [discriminate|]. intros H. now elim H. }
    destruct (String.eqb_spec priority Todo.LOW) as [->|Hl].
    { split; [discriminate|]. intros H. now elim H. }
    split; [|reflexivity]. intros _.
    rewrite bool_decide_eq_false_2; [discriminate|].
    intros Hin. repeat (apply elem_of_cons in Hin as [Hin|Hin]; [congruence|]).
    inversion Hin.
  - unfold TodoUtils.getPriorityWeight.
    repeat match goal with |- context [String.eqb ?a ?b] => destruct (String.eqb a b) end;
      lia.
Qed.

End Priorities.

Section Colors.

Lemma startsWith_hash (s : string) :
  JSString.startsWith s "#" = match s with
                              | String c _ => Ascii.eqb c "#"
                              | EmptyString => false
                              end.
Proof.
  destruct s as [|c r]; [reflexivity|]. cbn [JSString.startsWith].
  destruct (Ascii.eqb c "#"); [now destruct r|reflexivity].
Qed.

(** The regular expression on a string that does not start with [#]. *)
Lemma hexColorRegex_test_plain (s : string) :
  JSString.startsWith s "#" = false ->
  JSString.hexColorRegex_test s
  = JSString.allHex s && ((String.length s =? 6)%nat || (String.length s =? 3)%nat).
Proof.
  rewrite startsWith_hash. destruct s as [|c r]; [reflexivity|].
  intros Hc. unfold JSString.hexColorRegex_test.
  destruct c as [[] [] [] [] [] [] [] []]; try reflexivity. discriminate Hc.
Qed.

Lemma hexColorRegex_test_hash (s : string) :
  JSString.hexColorRegex_test (String "#" s)
  = JSString.allHex s && ((String.length s =? 6)%nat || (String.length s =? 3)%nat).
Proof. reflexivity. Qed.

Lemma startsWith_hash_inv (s : string) :
  JSString.startsWith s "#" = true -> exists r, s = String "#" r.
Proof.
  rewrite startsWith_hash. destruct s as [|c r]; [discriminate|].
  intros Hc. apply Ascii.eqb_eq in Hc. subst c. eauto.
Qed.

Lemma allHex_not_hash (s : string) :
  JSString.allHex s = true -> JSString.startsWith s "#" = false.
Proof.
  rewrite startsWith_hash. destruct s as [|c r]; [reflexivity|]. cbn [JSString.allHex].
  intros H. apply andb_true_iff in H as [Hc _].
  destruct (Ascii.eqb_spec c "#") as [->|]; [discriminate Hc|reflexivity].
Qed.

Lemma validateColor_None (color : string) :
  Category.validateColor color = None <->
  JSString.nonEmpty color = true /\ JSString.hexColorRegex_test color = true.
Proof.
  unfold Category.validateColor.
  destruct (JSString.nonEmpty color); cbn [negb]; [|split; [discriminate|intros [[=] _]]].
  destruct (JSString.hexColorRegex_test color); cbn [negb]; split; auto;
    try discriminate. now intros [_ [=]].
Qed.

(** X17: the colour of a category made by [createCategory] always
    starts with [#]; it is what [CategoryUtils.normalizeColor] makes of
    the colour of the input (when that is not empty), and normalising it
    again changes nothing.  When the input has passed
    [validateCategoryInput], the stored colour passes [validateColor]
    too and has 4 or 7 characters.  The name is stored as given; the
    identifier is the generated one and the count is 0 unless the input
    object carries an [id] or a [todoCount] of its own, which then
    replace them: only the colour is written after the spread. *)
Theorem createCategory_normalises_color (uuid : string) (input : Category.CategoryInput) :
  let c := Category.createCategory uuid input in
  JSString.startsWith (Category.color c) "#" = true
  /\ (Category.in_color input <> "" ->
      Category.color c = CategoryUtils.normalizeColor (Category.in_color input))
  /\ CategoryUtils.normalizeColor (Category.color c) = Category.color c
  /\ Category.id c = default uuid (Category.in_id input)
  /\ Category.name c = Category.in_name input
  /\ Category.todoCount c = default 0%Z (Category.in_todoCount input)
  /\ (Category.validateCategoryInput input = [] ->
      Category.validateColor (Category.color c) = None
      /\ (String.length (Category.color c) = 4 \/ String.length (Category.color c) = 7)).
Proof.
  cbn zeta. unfold Category.createCategory. cbn [Category.color Category.id
    Category.name Category.todoCount].
  set (color := Category.in_color input).
  assert (Hstarts : JSString.startsWith
                      (if JSString.startsWith color "#" then color else "#" +:+ color) "#"
                    = true).
  { destruct (JSString.startsWith color "#") eqn:Hs; [exact Hs|].
    now rewrite startsWith_hash. }
  split; [exact Hstarts|]. split; [|split; [|split; [|split; [|split]]]]; try reflexivity.
  - intros Hne. unfold CategoryUtils.normalizeColor.
    destruct color; [contradiction|reflexivity].
  - unfold CategoryUtils.normalizeColor. rewrite Hstarts.
    destruct (JSString.startsWith color "#") eqn:Hs; [|reflexivity].
    apply startsWith_hash_inv in Hs as [r ->]. reflexivity.
  - intros Hvalid. unfold Category.validateCategoryInput in Hvalid.
    apply app_eq_nil in Hvalid as [_ Hcolor].
    assert (Hc : Category.validateColor color = None)
      by (fold color in Hcolor; now destruct (Category.validateColor color)).
    apply validateColor_None in Hc as [Hne Htest].
    destruct (JSString.startsWith color "#") eqn:Hs.
    + split; [apply validateColor_None; auto|].
      apply startsWith_hash_inv in Hs as [r ->].
      rewrite hexColorRegex_test_hash in Htest.
      apply andb_true_iff in Htest as [_ Hlen]. cbn [String.length].
      apply orb_true_iff in Hlen as [Hlen|Hlen]; apply Nat.eqb_eq in Hlen; lia.
    + rewrite hexColorRegex_test_plain in Htest by exact Hs.
      split.
      * apply validateColor_None. split; [reflexivity|].
        change ("#" +:+ color) with (String "#" color).
        now rewrite hexColorRegex_test_hash.
      * apply andb_true_iff in Htest as [_ Hlen].
        change ("#" +:+ color) with (String "#" color). cbn [String.length].
        apply orb_true_iff in Hlen as [Hlen|Hlen]; apply Nat.eqb_eq in Hlen; lia.
Qed.

Import CategoryUtils.

Lemma removeFirstHash_hex (s : string) :
  JSString.allHex s = true -> removeFirstHash s = s.
Proof.
  induction s as [|c r IH]; [reflexivity|]. cbn [JSString.allHex removeFirstHash].
  intros H. apply andb_true_iff in H as [Hc Hr].
  destruct (Ascii.eqb_spec c "#") as [->|]; [discriminate Hc|]. now rewrite IH.
Qed.

Lemma length_doubleChars (s : string) :
  String.length (doubleChars s) = 2 * String.length s.
Proof. induction s as [|c r IH]; cbn [doubleChars String.length]; lia. Qed.

Lemma allHex_doubleChars (s : string) :
  JSString.allHex s = true -> JSString.allHex (doubleChars s) = true.
Proof.
  induction s as [|c r IH]; [reflexivity|]. cbn [JSString.allHex doubleChars].
  intros H. apply andb_true_iff in H as [Hc Hr]. now rewrite Hc, IH.
Qed.

Lemma all_ascii (c : ascii) : c ∈ map ascii_of_nat (seq 0 256).
Proof.
  rewrite <- (ascii_nat_embedding c). apply list_elem_of_fmap.
  exists (nat_of_ascii c). split; [reflexivity|].
  apply list_elem_of_In, in_seq. pose proof (nat_ascii_bounded c). lia.
Qed.

(** [parseInt] of two hexadecimal digits. *)
Lemma parseInt16_two_digits (c d : ascii) :
  JSString.isHexDigit c = true -> JSString.isHexDigit d = true ->
  exists v, parseInt16 (String c (String d EmptyString)) = Some v /\ (0 <= v <= 255)%Z.
Proof.
  set (ok := fun c d : ascii =>
               implb (JSString.isHexDigit c && JSString.isHexDigit d)
                     match parseInt16 (String c (String d EmptyString)) with
                     | Some v => (0 <=? v)%Z && (v <=? 255)%Z
                     | None => false
                     end).
  assert (Hall : forallb (fun c => forallb (ok c) (map ascii_of_nat (seq 0 256)))
                         (map ascii_of_nat (seq 0 256)) = true)
    by (vm_compute; reflexivity).
  intros Hc Hd.
  rewrite forallb_forall in Hall.
  specialize (Hall c (proj1 (list_elem_of_In _ _) (all_ascii c))).
  rewrite forallb_forall in Hall.
  specialize (Hall d (proj1 (list_elem_of_In _ _) (all_ascii d))).
  unfold ok in Hall. rewrite Hc, Hd in Hall. cbn [andb implb] in Hall.
  destruct (parseInt16 (String c (String d EmptyString))) as [v|]; [|discriminate Hall].
  exists v. split; [reflexivity|]. lia.
Qed.

(** The components read from six hexadecimal digits. *)
Lemma hexToRgb_six_digits (s : string) :
  JSString.allHex s = true -> String.length s = 6 ->
  inRange {| r := parseInt16 (String.substring 0 2 s);
             g := parseInt16 (String.substring 2 2 s);
             b := parseInt16 (String.substring 4 2 s) |}.
Proof.
  intros Hhex Hlen.
  destruct s as [|c1 [|c2 [|c3 [|c4 [|c5 [|c6 [|c7 s]]]]]]]; try discriminate Hlen.
  cbn [JSString.allHex] in Hhex.
  repeat match type of Hhex with
         | _ && _ = true => apply andb_true_iff in Hhex as [? Hhex]
         end.
  cbn [String.substring].
  destruct (parseInt16_two_digits c1 c2) as (r & -> & Hr); auto.
  destruct (parseInt16_two_digits c3 c4) as (g & -> & Hg); auto.
  destruct (parseInt16_two_digits c5 c6) as (b & -> & Hb); auto.
  exists r, g, b. auto.
Qed.

Lemma hexToRgbWithin_S (depth : nat) (hex : string) :
  hexToRgbWithin (S (S depth)) hex = hexToRgbWithin 2 hex.
Proof.
  cbn [hexToRgbWithin].
  destruct (String.length (removeFirstHash hex) =? 3)%nat eqn:Hlen; [|reflexivity].
  apply Nat.eqb_eq in Hlen.
  change (removeFirstHash ("#" +:+ doubleChars (removeFirstHash hex)))
    with (doubleChars (removeFirstHash hex)).
  rewrite length_doubleChars, Hlen. reflexivity.
Qed.

(** X18: [hexToRgb] always returns, after at most one call of itself.
    It returns [null] exactly when the text left once the first [#] is
    removed has neither 3 nor 6 characters.  For a colour that
    [validateColor] accepts it returns three numbers from 0 to 255, the
    same with and without the leading [#]; the short form of three digits
    gives what the long form with each digit doubled gives. *)
Theorem hexToRgb_reads_valid_colors (hex : string) :
  (forall depth, 2 <= depth -> hexToRgbWithin depth hex = hexToRgbWithin 2 hex)
  /\ hexToRgbWithin 2 hex <> None
  /\ (hexToRgbWithin 2 hex = Some None
      <-> String.length (removeFirstHash hex) <> 3
          /\ String.length (removeFirstHash hex) <> 6)
  /\ (Category.validateColor hex = None ->
      (exists rgb, hexToRgbWithin 2 hex = Some (Some rgb) /\ inRange rgb)
      /\ hexToRgbWithin 2 (normalizeColor hex) = hexToRgbWithin 2 hex
      /\ (String.length (removeFirstHash hex) = 3 ->
          hexToRgbWithin 2 hex = hexToRgbWithin 2 (doubleChars (removeFirstHash hex)))).
Proof.
  split; [|split; [|split]].
  - intros [|[|depth]] Hd; try lia. apply hexToRgbWithin_S.
  - cbn [hexToRgbWithin].
    destruct (String.length (removeFirstHash hex) =? 3)%nat eqn:H3.
    + apply Nat.eqb_eq in H3.
      change (removeFirstHash ("#" +:+ doubleChars (removeFirstHash hex)))
        with (doubleChars (removeFirstHash hex)).
      rewrite length_doubleChars, H3. discriminate.
    + destruct (negb _); discriminate.
  - cbn [hexToRgbWithin].
    destruct (String.length (removeFirstHash hex) =? 3)%nat eqn:H3.
    + apply Nat.eqb_eq in H3.
      change (removeFirstHash ("#" +:+ doubleChars (removeFirstHash hex)))
        with (doubleChars (removeFirstHash hex)).
      rewrite length_doubleChars, H3. cbn. split; [discriminate|]. intros [H _]. lia.
    + apply Nat.eqb_neq in H3.
      destruct (String.length (removeFirstHash hex) =? 6)%nat eqn:H6; cbn [negb].
      * apply Nat.eqb_eq in H6. split; [discriminate|]. intros [_ H]. lia.
      * apply Nat.eqb_neq in H6. split; auto.
  - intros Hvalid. apply validateColor_None in Hvalid as [Hne Htest].
    (* the digits of the colour *)
    assert (Hbody : exists body,
              JSString.allHex body = true
              /\ (String.length body = 6 \/ String.length body = 3)
              /\ removeFirstHash hex = body
              /\ normalizeColor hex = String "#" body).
    { destruct (JSString.startsWith hex "#") eqn:Hs.
      - pose proof Hs as Hs'. apply startsWith_hash_inv in Hs' as [body ->].
        rewrite hexColorRegex_test_hash in Htest.
        apply andb_true_iff in Htest as [Hhex Hlen].
        exists body. split; [exact Hhex|]. split.
        { apply orb_true_iff in Hlen as [Hlen|Hlen]; apply Nat.eqb_eq in Hlen; auto. }
        split; [reflexivity|]. unfold normalizeColor. now rewrite Hs.
      - rewrite hexColorRegex_test_plain in Htest by exact Hs.
        apply andb_true_iff in Htest as [Hhex Hlen].
        exists hex. split; [exact Hhex|]. split.
        { apply orb_true_iff in Hlen as [Hlen|Hlen]; apply Nat.eqb_eq in Hlen; auto. }
        split; [now apply removeFirstHash_hex|].
        unfold normalizeColor. now rewrite Hne, Hs. }
    destruct Hbody as (body & Hhex & Hlen & Hnorm & Hcolor).
    (* what the function returns for these digits *)
    assert (Hrun : forall s, removeFirstHash s = body ->
              hexToRgbWithin 2 s
              = Some (Some (let digits := if (String.length body =? 3)%nat
                                          then doubleChars body else body in
                            {| r := parseInt16 (String.substring 0 2 digits);
                               g := parseInt16 (String.substring 2 2 digits);
                               b := parseInt16 (String.substring 4 2 digits) |}))).
    { intros s Hs. cbn [hexToRgbWithin]. rewrite Hs.
      change (removeFirstHash ("#" +:+ doubleChars body)) with (doubleChars body).
      rewrite length_doubleChars.
      destruct Hlen as [Hlen|Hlen]; rewrite Hlen; reflexivity. }
    split; [|split].
    + eexists. split; [exact (Hrun hex Hnorm)|]. cbn zeta.
      destruct Hlen as [Hlen|Hlen]; rewrite Hlen; cbn [Nat.eqb].
      * now apply hexToRgb_six_digits.
      * apply hexToRgb_six_digits; [now apply allHex_doubleChars|].
        rewrite length_doubleChars. lia.
    + rewrite (Hrun hex Hnorm). apply Hrun. now rewrite Hcolor.
    + intros H3. rewrite (Hrun hex Hnorm). rewrite Hnorm in *. rewrite H3.
      cbn [Nat.eqb]. cbn [hexToRgbWithin].
      rewrite (removeFirstHash_hex (doubleChars body)) by now apply allHex_doubleChars.
      rewrite length_doubleChars, H3. reflexivity.
Qed.

Lemma filter_head {A} (p : A -> bool) (l : list A) (x : A) (rest : list A) :
  List.filter p l = x :: rest ->
  p x = true /\ exists pre post, l = (pre ++ x :: post)%list
                                 /\ forall y, y ∈ pre -> p y = false.
Proof.
  induction l as [|a l IH]; cbn [List.filter]; [discriminate|].
  destruct (p a) eqn:Hp.
  - intros [= -> <-]. split; [exact Hp|]. exists [], l. split; [reflexivity|].
    intros y Hy. inversion Hy.
  - intros H. destruct (IH H) as (Hx & pre & post & -> & Hpre).
    split; [exact Hx|]. exists (a :: pre), post. split; [reflexivity|].
    intros y Hy. apply elem_of_cons in Hy as [->|Hy]; auto.
Qed.

(** X19: [getNextAvailableColor] returns a colour of the palette.  As
    long as some colour of the palette is not in use, the result is the
    first such colour in the order of the palette, so it is not in use
    and does not depend on the random draw; with no colour in use it is
    the red of the palette. *)
Theorem getNextAvailableColor_is_first_unused (randomIndex : nat)
    (usedColors : list string) (color : string) :
  getNextAvailableColor randomIndex usedColors = Some color ->
  (color ∈ values)
  /\ ((exists c, c ∈ values /\ c ∉ usedColors) ->
      (color ∉ usedColors)
      /\ (exists pre post, values = (pre ++ color :: post)%list
                           /\ forall c, c ∈ pre -> c ∈ usedColors)
      /\ forall otherIndex, getNextAvailableColor otherIndex usedColors = Some color)
  /\ (usedColors = [] -> color = "#e74c3c").
Proof.
  unfold getNextAvailableColor.
  destruct (List.filter _ values) as [|first rest] eqn:Hfilter.
  - intros Hrandom. split; [|split].
    + unfold getRandomColor in Hrandom. eapply list_elem_of_lookup_2; eauto.
    + intros (c & Hc & Hunused). exfalso.
      assert (Hin : In c (List.filter (fun color => negb (bool_decide (color ∈ usedColors)))
                                      values)).
      { apply filter_In. split; [now apply list_elem_of_In|].
        apply negb_true_iff. now apply bool_decide_eq_false_2. }
      rewrite Hfilter in Hin. destruct Hin.
    + intros ->. discriminate Hfilter.
  - intros [= <-].
    apply filter_head in Hfilter as (Hp & pre & post & Hvalues & Hpre).
    apply negb_true_iff, bool_decide_eq_false_1 in Hp.
    split; [|split].
    + rewrite Hvalues. apply elem_of_app. right. left.
    + intros _. split; [exact Hp|]. split; [|reflexivity].
      exists pre, post. split; [exact Hvalues|].
      intros c Hc. specialize (Hpre c Hc).
      apply negb_false_iff, bool_decide_eq_true_1 in Hpre. exact Hpre.
    + intros ->. destruct pre as [|p pre].
      * cbn in Hvalues. now injection Hvalues as <- _.
      * specialize (Hpre p ltac:(left)).
        apply negb_false_iff, bool_decide_eq_true_1 in Hpre. inversion Hpre.
Qed.

Lemma getNextAvailableColor_is_first_unused_witness :
  ("#2ecc71" ∈ values)
  /\ ((exists c, c ∈ values /\ c ∉ ["#3498db"; "#e74c3c"]) ->
      ("#2ecc71" ∉ ["#3498db"; "#e74c3c"])
      /\ (exists pre post, values = (pre ++ "#2ecc71" :: post)%list
                           /\ forall c, c ∈ pre -> c ∈ ["#3498db"; "#e74c3c"])
      /\ forall otherIndex,
           getNextAvailableColor otherIndex ["#3498db"; "#e74c3c"] = Some "#2ecc71")
  /\ (["#3498db"; "#e74c3c"] = [] -> "#2ecc71" = "#e74c3c").
Proof.
  exact (getNextAvailableColor_is_first_unused 7 ["#3498db"; "#e74c3c"] "#2ecc71" eq_refl).
Defined.

End Colors.

Section Suggestions.

Import CategoryUtils.

Lemma toLowerCase_app (s t : string) :
  JSString.toLowerCase (s +:+ t) = JSString.toLowerCase s +:+ JSString.toLowerCase t.
Proof.
  induction s as [|c s IH]; [reflexivity|].
  rewrite app_String. cbn [JSString.toLowerCase]. now rewrite IH, app_String.
Qed.

Lemma toLowerCase_pretty_N_go (x : N) (s : string) :
  JSString.toLowerCase (pretty_N_go x s) = pretty_N_go x (JSString.toLowerCase s).
Proof.
  revert s. induction (N.lt_wf_0 x) as [x _ IH]; intros s.
  assert (x = 0 \/ 0 < x)%N as [->|Hx] by lia.
  - now rewrite !pretty_N_go_0.
  - rewrite (pretty_N_go_step x s) by exact Hx.
    rewrite IH by (now apply N.div_lt).
    rewrite (pretty_N_go_step x (JSString.toLowerCase s)) by exact Hx.
    apply (f_equal (pretty_N_go (x `div` 10))). cbn [JSString.toLowerCase].
    apply (f_equal (fun c => String c (JSString.toLowerCase s))).
    unfold pretty_N_char. repeat case_match; reflexivity.
Qed.

Lemma toLowerCase_pretty (n : nat) : JSString.toLowerCase (pretty n) = pretty n.
Proof.
  unfold pretty, pretty_nat, pretty, pretty_N.
  destruct (decide (N.of_nat n = 0%N)); [reflexivity|].
  apply toLowerCase_pretty_N_go.
Qed.

(** The names tried by the loop of [suggestCategoryName] are distinct. *)
Lemma countUp_key_inj (i j : nat) :
  JSString.toLowerCase baseName +:+ " " +:+ pretty i
  = JSString.toLowerCase baseName +:+ " " +:+ pretty j -> i = j.
Proof.
  intros H. apply (inj pretty).
  apply (inj (String.append " ")), (inj (String.append (JSString.toLowerCase baseName))).
  exact H.
Qed.

Lemma countUp_finds (existingNames : list string) (rounds counter : nat) :
  (exists k, counter <= k < counter + rounds
             /\ JSString.toLowerCase baseName +:+ " " +:+ pretty k ∉ existingNames) ->
  exists k,
    (forall more, countUp (rounds + more) existingNames counter = Some k)
    /\ counter <= k < counter + rounds
    /\ JSString.toLowerCase baseName +:+ " " +:+ pretty k ∉ existingNames.
Proof.
  revert counter. induction rounds as [|rounds IH]; intros counter (k & Hk & Hfree);
    [lia|].
  destruct (decide (JSString.toLowerCase baseName +:+ " " +:+ pretty counter
                    ∈ existingNames)) as [Hin|Hout].
  - destruct (IH (S counter)) as (k' & Hrun & Hk' & Hfree').
    { exists k. split; [|exact Hfree].
      assert (k <> counter) by (intros ->; contradiction). lia. }
    exists k'. split; [|split; [lia|exact Hfree']].
    intros more. cbn [Nat.add countUp]. rewrite bool_decide_eq_true_2 by exact Hin.
    apply Hrun.
  - exists counter. split; [|split; [lia|exact Hout]].
    intros more. cbn [Nat.add countUp]. now rewrite bool_decide_eq_false_2 by exact Hout.
Qed.

(** Among more names than there are existing ones, one is free. *)
Lemma countUp_has_room (existingNames : list string) :
  exists k, 1 <= k < 1 + S (length existingNames)
            /\ JSString.toLowerCase baseName +:+ " " +:+ pretty k ∉ existingNames.
Proof.
  set (key := fun k : nat => JSString.toLowerCase baseName +:+ " " +:+ pretty k).
  destruct (decide (Forall (fun k => key k ∈ existingNames)
                           (seq 1 (S (length existingNames))))) as [Hall|Hsome].
  - exfalso.
    assert (Hsub : key <$> seq 1 (S (length existingNames)) ⊆+ existingNames).
    { apply NoDup_submseteq.
      - apply NoDup_fmap_2_strong; [|apply NoDup_seq].
        intros i j _ _. apply countUp_key_inj.
      - intros x Hx. apply list_elem_of_fmap in Hx as (k & -> & Hk).
        rewrite Forall_forall in Hall. now apply Hall. }
    apply submseteq_length in Hsub. rewrite length_fmap, length_seq in Hsub. lia.
  - apply not_Forall_Exists in Hsome; [|intros k; apply _].
    apply Exists_exists in Hsome as (k & Hk & Hfree).
    apply elem_of_seq in Hk. exists k. split; [lia|exact Hfree].
Qed.

(** X20: [suggestCategoryName] always returns: the loop that counts up
    ends after at most one test more than there are categories.  The
    name it returns is not taken, in the sense of [isNameUnique] (which
    ignores case): it is the first of the twelve common names that is
    free or, when all are taken, ["Category k"] for the least [k] from 1
    on that is free. *)
Theorem suggestCategoryName_is_unused (existingCategories : list Category.Category) :
  exists name,
    (forall rounds, length existingCategories < rounds ->
                    suggestCategoryNameWithin rounds existingCategories = Some name)
    /\ Category.isNameUnique name existingCategories = true
    /\ (name ∈ commonNames
        \/ exists k, 1 <= k <= S (length existingCategories)
                     /\ name = baseName +:+ " " +:+ pretty k
                     /\ forall j, 1 <= j < k ->
                                  Category.isNameUnique (baseName +:+ " " +:+ pretty j)
                                                        existingCategories = false).
Proof.
  set (existingNames :=
         map (fun cat => JSString.toLowerCase (Category.name cat)) existingCategories).
  assert (Hunique : forall name,
            Category.isNameUnique name existingCategories
            = negb (bool_decide (JSString.toLowerCase name ∈ existingNames))).
  { intros name. unfold Category.isNameUnique. f_equal. subst existingNames.
    induction existingCategories as [|c l IH]; [reflexivity|].
    cbn [existsb map]. rewrite IH.
    destruct (String.eqb_spec (JSString.toLowerCase (Category.name c))
                              (JSString.toLowerCase name)) as [Heq|Hne]; cbn [orb].
    - symmetry. apply bool_decide_eq_true_2. rewrite Heq. left.
    - apply bool_decide_ext. rewrite elem_of_cons. split; [tauto|].
      intros [Heq|H]; [congruence|exact H]. }
  unfold suggestCategoryNameWithin. fold existingNames.
  destruct (find _ commonNames) as [name|] eqn:Hfind.
  - exists name. split; [reflexivity|].
    apply find_some in Hfind as [Hin Hfree].
    split; [now rewrite Hunique|]. left. now apply list_elem_of_In.
  - destruct (countUp_finds existingNames (S (length existingNames)) 1
                (countUp_has_room existingNames)) as (k & Hrun & Hk & Hfree).
    assert (Hlen : length existingNames = length existingCategories)
      by (subst existingNames; apply length_map).
    exists (baseName +:+ " " +:+ pretty k). split; [|split].
    + intros rounds Hrounds.
      replace rounds with (S (length existingNames) + (rounds - S (length existingNames)))
        by lia.
      now rewrite Hrun.
    + rewrite Hunique, !toLowerCase_app, toLowerCase_pretty.
      apply negb_true_iff. now apply bool_decide_eq_false_2.
    + right. exists k. split; [lia|]. split; [reflexivity|].
      intros j Hj. rewrite Hunique, !toLowerCase_app, toLowerCase_pretty.
      apply negb_false_iff, bool_decide_eq_true_2.
      (* the loop has passed [j] *)
      assert (Hpassed : forall rounds counter k0,
                countUp rounds existingNames counter = Some k0 ->
                forall i, counter <= i < k0 ->
                          JSString.toLowerCase baseName +:+ " " +:+ pretty i
                          ∈ existingNames).
      { clear. induction rounds as [|rounds IH]; intros counter k0; cbn [countUp];
          [discriminate|].
        destruct (decide (JSString.toLowerCase baseName +:+ " " +:+ pretty counter
                          ∈ existingNames)) as [Hin|Hout].
        - rewrite bool_decide_eq_true_2 by exact Hin. intros Hrun i Hi.
          destruct (decide (i = counter)) as [->|Hne]; [exact Hin|].
          apply (IH _ _ Hrun). lia.
        - rewrite bool_decide_eq_false_2 by exact Hout. intros [= <-] i Hi. lia. }
      apply (Hpassed _ _ _ (Hrun 0) j). lia.
Qed.

End Suggestions.

(** * Further properties of the persistence layer *)

Section BackupsOnRequest.

Import Fs FileManager.

Lemma try_catch_ignore (m : IO unit) (w : World) :
  fst (try_catch m (fun _ => ret tt) w) = Ok tt.
Proof. unfold try_catch, ret. now destruct (m w) as [[[]|e] w']. Qed.

(** X21: [manualBackup] (that is [createBackup]) never throws: a failure
    of the copy or of the clean-up is caught.  It does nothing at all
    when no backup directory is configured or when there is no data
    file, and it never changes the data file, the backup files being
    elsewhere. *)
Theorem manualBackup_never_fails (config : FileManagerConfig) (w : World) :
  fst (manualBackup config w) = Ok tt
  /\ (backupDir config = None -> snd (manualBackup config w) = w)
  /\ (files w !! dataPath config = None -> snd (manualBackup config w) = w)
  /\ ((forall dir name, backupDir config = Some dir -> join dir name <> dataPath config) ->
      files (snd (manualBackup config w)) !! dataPath config = files w !! dataPath config).
Proof.
  unfold manualBackup. split; [|split; [|split]].
  - unfold createBackup. destruct (backupDir config) as [dir|]; [|reflexivity].
    unfold bind at 1, fileExists, access.
    destruct (negb _); [reflexivity|]. apply try_catch_ignore.
  - intros Hdir. unfold createBackup. now rewrite Hdir.
  - intros Hfile. unfold createBackup. destruct (backupDir config) as [dir|]; [|reflexivity].
    unfold bind at 1, fileExists, access. rewrite Hfile.
    rewrite bool_decide_eq_false_2 by (intros [c [=]]).
    now rewrite andb_false_r.
  - intros Hout. destruct (keeps_createBackup (dataPath config) config Hout w)
      as (states & _ & _ & Hfile). exact Hfile.
Qed.

Lemma forEach_nil_world {A} (f : A -> IO unit) (w : World) :
  forEach f [] w = (Ok tt, w).
Proof. reflexivity. Qed.

(** X22: with [maxBackups: 0] nothing is ever cleaned up: the test
    [if (this.config.maxBackups)] reads 0 as "no limit", so a backup
    only adds a file and every file that existed still exists
    afterwards. *)
Theorem maxBackups_zero_keeps_every_backup (config : FileManagerConfig) (w : World) :
  maxBackups config = Some 0%Z ->
  (forall path, is_Some (files w !! path) ->
                is_Some (files (snd (createBackup config w)) !! path))
  /\ snd (cleanupOldBackups config w) = w.
Proof.
  intros Hmax.
  assert (Hlimit : backupLimit config = None) by (unfold backupLimit; now rewrite Hmax).
  split.
  - intros path Hpath. unfold createBackup.
    destruct (backupDir config) as [dir|]; [|exact Hpath].
    unfold bind at 1, fileExists, access. cbn [fst snd].
    destruct (negb _); [exact Hpath|].
    unfold try_catch, bind at 1. cbn [now].
    unfold bind at 1, toISOString, liftR.
    destruct (JSDate.toISOString _) as [iso|]; [|exact Hpath].
    unfold bind at 1, copyFile.
    destruct (negb _); [exact Hpath|].
    destruct (files _ !! dataPath config) as [c|]; [|exact Hpath].
    rewrite Hlimit. rewrite bool_decide_eq_false_2 by (intros [x [=]]).
    cbn [ret snd files setFiles].
    rewrite !lookup_insert_is_Some. destruct Hpath as [x Hx]. cbn [files] in *.
    destruct (decide (join dir (backupFileName (JSString.replaceColonDot iso)) = path));
      [left; assumption|right; split; [assumption|]].
    right. split; [assumption|]. eauto.
  - unfold cleanupOldBackups. rewrite Hlimit. now destruct (backupDir config).
Qed.

Lemma maxBackups_zero_keeps_every_backup_witness :
  (forall path, is_Some (files Sample.recoverableWorld !! path) ->
                is_Some (files (snd (createBackup (Sample.storeConfig true 0)
                                                  Sample.recoverableWorld)) !! path))
  /\ snd (cleanupOldBackups (Sample.storeConfig true 0) Sample.recoverableWorld)
     = Sample.recoverableWorld.
Proof.
  exact (maxBackups_zero_keeps_every_backup (Sample.storeConfig true 0)
           Sample.recoverableWorld eq_refl).
Defined.

End BackupsOnRequest.

Section Loading.

Import Fs FileManager.

(** X23: [load] starts from empty record sets, without touching
    anything, when the data path is empty, when there is no data file,
    and when the data file holds only white space. *)
Theorem load_starts_empty (config : FileManagerConfig) (w : World) :
  dataPath config = ""
  \/ files w !! dataPath config = None
  \/ (exists s, files w !! dataPath config = Some (Text s) /\ JSString.trim s = "") ->
  load config w = (Ok ([], []), w).
Proof.
  intros H. unfold load, try_catch, loadPrimary, bind at 1, fileExists, access.
  destruct H as [Hpath | [Hnone | (s & Hfile & Hblank)]].
  - now rewrite Hpath.
  - rewrite Hnone. rewrite bool_decide_eq_false_2 by (intros [c [=]]).
    now rewrite andb_false_r.
  - rewrite Hfile. rewrite bool_decide_eq_true_2 by eauto.
    destruct (validPath (dataPath config)) eqn:Hvalid; [|reflexivity].
    cbn [andb negb]. unfold bind at 1, readFile. rewrite Hvalid, Hfile.
    cbn [negb isBlank]. now rewrite Hblank.
Qed.

Lemma load_starts_empty_witness :
  load (Sample.storeConfig false 5)
       (Sample.withFiles {[ "./data/todos.json" := Text "  " ]})
  = (Ok ([], []), Sample.withFiles {[ "./data/todos.json" := Text "  " ]}).
Proof.
  apply load_starts_empty. right. right. exists "  ". split; reflexivity.
Defined.

(** X24: the loops of [validateData] over the todos and over the
    categories stop at the first record that its validator rejects, and
    report the position of that record and the validator's message; they
    pass exactly when every record passes. *)
Theorem validateEach_reports_first_failure (what : string)
    (validate : JSValue -> Result unit) (xs : list JSValue) :
  (validateEach what validate 0 xs = Ok tt <-> Forall (fun x => validate x = Ok tt) xs)
  /\ forall e,
       validateEach what validate 0 xs = Throw e ->
       exists k x cause,
         xs !! k = Some x
         /\ validate x = Throw cause
         /\ (forall j y, j < k -> xs !! j = Some y -> validate y = Ok tt)
         /\ e = FileManager.error ("Invalid " +:+ what +:+ " at index " +:+ pretty k
                                   +:+ ": " +:+ message cause).
Proof.
  assert (Hgen : forall i,
            (validateEach what validate i xs = Ok tt
             <-> Forall (fun x => validate x = Ok tt) xs)
            /\ forall e,
                 validateEach what validate i xs = Throw e ->
                 exists k x cause,
                   xs !! k = Some x
                   /\ validate x = Throw cause
                   /\ (forall j y, j < k -> xs !! j = Some y -> validate y = Ok tt)
                   /\ e = FileManager.error
                            ("Invalid " +:+ what +:+ " at index " +:+ pretty (i + k)
                             +:+ ": " +:+ message cause)).
  { induction xs as [|x xs IH]; intros i.
    - split; [split; [constructor|reflexivity]|discriminate].
    - cbn [validateEach]. destruct (validate x) as [[]|cause] eqn:Hx.
      + destruct (IH (S i)) as [IHok IHthrow]. split.
        * rewrite IHok. split; [now constructor|]. intros H.
          now apply Forall_cons in H as [_ H].
        * intros e He. destruct (IHthrow e He) as (k & y & cause & Hk & Hy & Hbefore & ->).
          exists (S k), y, cause. split; [exact Hk|]. split; [exact Hy|]. split.
          -- intros [|j] z Hj; cbn; [now intros [= <-]|]. apply Hbefore. lia.
          -- now replace (i + S k) with (S i + k) by lia.
      + split.
        * split; [discriminate|]. intros H. apply Forall_cons in H as [H _]. congruence.
        * intros e [= <-]. exists 0, x, cause. split; [reflexivity|]. split; [exact Hx|].
          split; [intros j y Hj; lia|]. now rewrite Nat.add_0_r. }
  exact (Hgen 0).
Qed.

End Loading.

Section Saving.

Import Fs FileManager.

Lemma nonEmpty_true (s : string) : JSString.nonEmpty s = true <-> s <> "".
Proof. destruct s; cbn; split; congruence. Qed.

Lemma validateTodo_toJS (t : Todo.Todo) :
  validateTodo (Todo.toJS t) = Ok tt <-> storableTodo t.
Proof.
  unfold storableTodo, validateTodo, Todo.toJS. cbn.
  rewrite <- !nonEmpty_true.
  destruct (JSString.nonEmpty (Todo.id t)); cbn; [|split; [discriminate|intros [[=] _]]].
  destruct (JSString.nonEmpty (Todo.title t)); cbn;
    [|split; [discriminate|intros (_ & [=] & _)]].
  destruct (JSString.nonEmpty (Todo.priority t)); cbn;
    [|split; [discriminate|intros (_ & _ & [=] & _)]].
  destruct (JSString.nonEmpty (Todo.categoryId t)); cbn;
    [|split; [discriminate|intros (_ & _ & _ & [=])]].
  split; auto.
Qed.

Lemma validateCategory_toJS (c : Category.Category) :
  validateCategory (Category.toJS c) = Ok tt <-> storableCategory c.
Proof.
  unfold storableCategory, validateCategory, Category.toJS. cbn.
  rewrite <- !nonEmpty_true.
  destruct (JSString.nonEmpty (Category.id c)); cbn;
    [|split; [discriminate|intros [[=] _]]].
  destruct (JSString.nonEmpty (Category.name c)); cbn;
    [|split; [discriminate|intros (_ & [=] & _)]].
  destruct (JSString.nonEmpty (Category.color c)); cbn;
    [|split; [discriminate|intros (_ & _ & [=])]].
  split; auto.
Qed.

Lemma validateEach_Ok (what : string) (validate : JSValue -> Result unit)
    (i : nat) (xs : list JSValue) :
  validateEach what validate i xs = Ok tt <-> Forall (fun x => validate x = Ok tt) xs.
Proof.
  revert i. induction xs as [|x xs IH]; intros i; cbn [validateEach].
  - split; [constructor|reflexivity].
  - destruct (validate x) as [[]|cause] eqn:Hx.
    + rewrite IH. split; [now constructor|]. intros H. now apply Forall_cons in H as [_ H].
    + split; [discriminate|]. intros H. apply Forall_cons in H as [H _]. congruence.
Qed.

(** What [validateData] asks of the data that [save] is given. *)
Lemma validateData_envelope (todos : list Todo.Todo) (categories : list Category.Category)
    (lastModified : string) :
  validateData (envelope todos categories lastModified) = Ok tt
  <-> Forall storableTodo todos /\ Forall storableCategory categories.
Proof.
  unfold validateData, envelope. cbn -[validateEach validateTodo validateCategory].
  destruct (validateEach "todo" validateTodo 0 (map Todo.toJS todos)) as [[]|e] eqn:Ht;
    cbn [rbind].
  - rewrite validateEach_Ok, Forall_map in Ht.
    rewrite validateEach_Ok, Forall_map. split.
    + intros Hc. split; (eapply Forall_impl; [eassumption|]); cbn; intros x.
      * apply validateTodo_toJS.
      * apply validateCategory_toJS.
    + intros [_ Hc]. eapply Forall_impl; [exact Hc|]. cbn. intros x.
      apply validateCategory_toJS.
  - split; [discriminate|]. intros [Hts _].
    assert (Hok : validateEach "todo" validateTodo 0 (map Todo.toJS todos) = Ok tt).
    { apply validateEach_Ok, Forall_map. eapply Forall_impl; [exact Hts|]. cbn.
      intros x. apply validateTodo_toJS. }
    congruence.
Qed.

(** A [save] that returns has validated its data. *)
Lemma save_validated (config : FileManagerConfig) (todos : list Todo.Todo)
    (categories : list Category.Category) (w : World) :
  fst (save config todos categories w) = Ok tt ->
  exists lastModified, validateData (envelope todos categories lastModified) = Ok tt.
Proof.
  intros Hok.
  destruct (save config todos categories w) as [r w'] eqn:Hsave.
  cbn [fst] in Hok. subst r.
  unfold save, try_catch, throw in Hsave.
  set (backup := if autoBackup config then _ else _) in Hsave.
  unfold bind at 1 in Hsave.
  destruct (backup w) as [[[]|e] w1]; [|discriminate].
  unfold bind at 1 in Hsave. cbn [now] in Hsave.
  unfold bind at 1 in Hsave. unfold toISOString, liftR in Hsave.
  destruct (JSDate.toISOString _) as [lastModified|]; [|discriminate].
  unfold bind at 1 in Hsave.
  destruct (validateData _) as [[]|e] eqn:Hvalid; [|discriminate].
  eauto.
Qed.

(** X25: [save] validates before it writes.  It returns only for
    records whose required text fields are not empty: the identifier,
    title, priority and category of every todo, and the identifier, name
    and colour of every category.  With any other record it fails with
    SAVE_ERROR. *)
Theorem save_writes_only_valid_records (config : FileManagerConfig)
    (todos : list Todo.Todo) (categories : list Category.Category) (w : World) :
  (fst (save config todos categories w) = Ok tt ->
   Forall storableTodo todos /\ Forall storableCategory categories)
  /\ (~ (Forall storableTodo todos /\ Forall storableCategory categories) ->
      exists cause,
        fst (save config todos categories w)
        = Throw (FileManagerError ("Failed to save data: " +:+ message cause) "SAVE_ERROR"
                                  (Some cause))).
Proof.
  assert (Hok : fst (save config todos categories w) = Ok tt ->
                Forall storableTodo todos /\ Forall storableCategory categories).
  { intros H. destruct (save_validated config todos categories w H) as [lm Hvalid].
    now apply validateData_envelope in Hvalid. }
  split; [exact Hok|].
  intros Hbad. destruct (fst (save config todos categories w)) as [[]|e] eqn:Hsave.
  - now elim Hbad; apply Hok.
  - destruct (save_error_shape config todos categories w e Hsave) as [cause ->]. eauto.
Qed.

Lemma dateDeserializer_number (n : Z) :
  dateDeserializer (JSNumber n) = JSNumber n.
Proof.
  unfold dateDeserializer. cbn [JS.typeofObject]. now rewrite andb_false_r.
Qed.

(** What is written for a category is read back as it was. *)
Lemma revived_category (c : Category.Category) :
  JSON.InternalizeJSONProperty dateDeserializer (default JSNull (written (Category.toJS c)))
  = Category.toJS c.
Proof.
  unfold Category.toJS. cbn -[dateDeserializer].
  rewrite !dateDeserializer_string, dateDeserializer_number. reflexivity.
Qed.

Lemma ofJS_toJS (c : Category.Category) : Category.ofJS (Category.toJS c) = c.
Proof. now destruct c. Qed.

(** X26: for record sets without todos, a [save] that returns followed
    by [load] gives back the categories as they were saved, in order,
    with their counts. *)
Theorem save_then_load_returns_categories (config : FileManagerConfig)
    (categories : list Category.Category) (w : World) :
  fst (save config [] categories w) = Ok tt ->
  fst (load config (snd (save config [] categories w))) = Ok ([], categories).
Proof.
  intros Hok.
  destruct (save_validated config [] categories w Hok) as [lm0 Hvalid0].
  apply validateData_envelope in Hvalid0 as [_ Hcats].
  destruct (save_content config [] categories w Hok)
    as (lastModified & text & Htext & Hvalid & Hfile).
  rewrite stringify_written, written_envelope in Htext.
  assert (Htext' : text
            = JSObject
                [("todos", JSArray (map (fun x => default JSNull (written x))
                                        (map Todo.toJS [])));
                 ("categories", JSArray (map (fun x => default JSNull (written x))
                                             (map Category.toJS categories)));
                 ("version", JSString "1.0.0");
                 ("lastModified", JSString lastModified)]) by congruence.
  clear Htext. rewrite Htext' in Hfile. clear Htext' text.
  unfold load, try_catch, loadPrimary, bind at 1, fileExists, access.
  rewrite Hvalid, Hfile. cbn [andb negb]. rewrite bool_decide_eq_true_2 by eauto.
  cbn [negb]. unfold bind at 1, readFile. rewrite Hvalid, Hfile. cbn [negb isBlank].
  unfold bind at 1, liftR. cbn [parse].
  assert (Hrevived :
            JSON.InternalizeJSONProperty dateDeserializer
              (JSObject
                 [("todos", JSArray (map (fun x => default JSNull (written x))
                                         (map Todo.toJS [])));
                  ("categories", JSArray (map (fun x => default JSNull (written x))
                                              (map Category.toJS categories)));
                  ("version", JSString "1.0.0");
                  ("lastModified", JSString lastModified)])
            = envelope [] categories lastModified).
  { cbn -[dateDeserializer written Category.toJS].
    rewrite !dateDeserializer_array, !dateDeserializer_string.
    rewrite !map_map.
    rewrite (map_ext _ Category.toJS) by (intros c; apply revived_category).
    reflexivity. }
  rewrite Hrevived.
  assert (Hvalid' : validateData (envelope [] categories lastModified) = Ok tt)
    by (apply validateData_envelope; split; [constructor|exact Hcats]).
  unfold bind at 1. rewrite Hvalid'. unfold bind at 1, migrateData. cbn [ret fst].
  unfold recordSets, envelope. cbn. rewrite map_map.
  rewrite (map_ext _ (fun c => c)) by (intros c; apply ofJS_toJS).
  now rewrite map_id.
Qed.

Lemma save_then_load_returns_categories_witness :
  fst (load (Sample.storeConfig true 5)
            (snd (save (Sample.storeConfig true 5) [] [Sample.workWithOne; Sample.home]
                       Sample.usedWorld)))
  = Ok ([], [Sample.workWithOne; Sample.home]).
Proof.
  apply (save_then_load_returns_categories (Sample.storeConfig true 5)
           [Sample.workWithOne; Sample.home] Sample.usedWorld).
  reflexivity.
Defined.

End Saving.

Ltac revive_json :=
  repeat (progress cbn -[FileManager.dateDeserializer FileManager.validateTodo
                         FileManager.validateCategory JSDate.toISOString]
          || rewrite dateDeserializer_string
          || rewrite dateDeserializer_number
          || rewrite dateDeserializer_array).

Section ExportedData.

Import Fs FileManager.

(** What [exportData] writes, read back by [JSON.parse] with
    [dateDeserializer], is not data that [load] accepts. *)
Lemma export_is_not_data (exportDate : string) (data : RecordSets) (text : JSValue) :
  written (exportValue exportDate data) = Some text ->
  JS.get text "exportDate" = JSString exportDate
  /\ JS.get (JS.get text "summary") "totalTodos" = JSNumber (Z.of_nat (length (fst data)))
  /\ JS.get (JS.get text "summary") "completedTodos"
     = JSNumber (Z.of_nat (length (List.filter (fun t => Todo.completed t) (fst data))))
  /\ JS.get (JS.get text "summary") "totalCategories"
     = JSNumber (Z.of_nat (length (snd data)))
  /\ validateData (JSON.InternalizeJSONProperty dateDeserializer text)
     = Throw (FileManager.error "version must be a string").
Proof.
  unfold exportValue.
  generalize (map Category.toJS (snd data)), (map Todo.toJS (fst data)).
  intros cs ts.
  generalize (Z.of_nat (length (fst data))),
             (Z.of_nat (length (List.filter (fun t => Todo.completed t) (fst data)))),
             (Z.of_nat (length (snd data))).
  intros n1 n2 n3 Hw.
  assert (Htext : text
            = JSObject [("exportDate", JSString exportDate);
                        ("summary", JSObject [("totalTodos", JSNumber n1);
                                              ("completedTodos", JSNumber n2);
                                              ("totalCategories", JSNumber n3)]);
                        ("categories", JSArray (map (fun x => default JSNull (written x)) cs));
                        ("todos", JSArray (map (fun x => default JSNull (written x)) ts))])
    by (cbn in Hw; congruence).
  subst text. repeat (split; [reflexivity|]).
  generalize (map (fun x => default JSNull (written x)) cs),
             (map (fun x => default JSNull (written x)) ts).
  intros cs' ts'. revive_json.
  unfold dateDeserializer. cbn. reflexivity.
Qed.

(** X27: [exportData] fails only with EXPORT_ERROR, which wraps the
    failure of [load], of the serialisation or of the write.  When it
    returns, the file at the export path holds the date of the export
    and a summary with the number of loaded todos, the number of them
    that are completed, and the number of loaded categories.  An export
    is not a data file: it has no [version], and [validateData], by
    which [load] reads files, rejects it. *)
Theorem exportData_writes_a_summary (config : FileManagerConfig) (exportPath : string)
    (w : World) :
  (forall e, fst (exportData config exportPath w) = Throw e ->
             exists cause,
               e = FileManagerError ("Failed to export data: " +:+ message cause)
                                    "EXPORT_ERROR" (Some cause))
  /\ (forall cause, fst (load config w) = Throw cause ->
                    fst (exportData config exportPath w)
                    = Throw (FileManagerError ("Failed to export data: " +:+ message cause)
                                              "EXPORT_ERROR" (Some cause)))
  /\ (fst (exportData config exportPath w) = Ok tt ->
      exists data exportDate text,
        fst (load config w) = Ok data
        /\ files (snd (exportData config exportPath w)) !! exportPath = Some (Json text)
        /\ JS.get text "exportDate" = JSString exportDate
        /\ JS.get (JS.get text "summary") "totalTodos"
           = JSNumber (Z.of_nat (length (fst data)))
        /\ JS.get (JS.get text "summary") "completedTodos"
           = JSNumber (Z.of_nat (length (List.filter (fun t => Todo.completed t)
                                                     (fst data))))
        /\ JS.get (JS.get text "summary") "totalCategories"
           = JSNumber (Z.of_nat (length (snd data)))
        /\ validateData (JSON.InternalizeJSONProperty dateDeserializer text)
           = Throw (FileManager.error "version must be a string")).
Proof.
  split; [|split].
  - unfold exportData, try_catch, throw.
    match goal with
    | |- forall e, fst (let (r, s') := ?body w in _) = _ -> _ =>
        destruct (body w) as [[[]|e0] w']
    end; cbn [fst]; [discriminate|].
    intros e [= <-]. eauto.
  - intros cause Hload. unfold exportData, try_catch, throw, bind at 1.
    destruct (load config w) as [[data|e] w1]; cbn [fst] in Hload; [discriminate|].
    now injection Hload as ->.
  - intros Hok.
    destruct (exportData config exportPath w) as [r w'] eqn:Hrun.
    cbn [fst snd] in *. subst r.
    unfold exportData, try_catch, throw in Hrun.
    unfold bind at 1 in Hrun.
    destruct (load config w) as [[data|e] w1]; [|discriminate].
    unfold bind at 1 in Hrun. cbn [now] in Hrun.
    unfold bind at 1 in Hrun. unfold toISOString, liftR in Hrun.
    destruct (JSDate.toISOString _) as [exportDate|]; [|discriminate].
    unfold bind at 1 in Hrun. rewrite stringify_written in Hrun.
    destruct (written (exportValue exportDate data)) as [text|] eqn:Hw; [|discriminate].
    unfold writeFile in Hrun.
    destruct (negb (validPath exportPath)); [discriminate|].
    injection Hrun as <-.
    exists data, exportDate, text. split; [reflexivity|]. split.
    { cbn [files setFiles]. now rewrite lookup_insert_eq. }
    now apply export_is_not_data.
Qed.

End ExportedData.

(** ** Dates in the data file *)

Section Dates.

Import JSDate.

Ltac zlia := Z.div_mod_to_equations; lia.

Lemma allFrom_spec (n : nat) (z : Z) (p : Z -> bool) :
  allFrom n z p = true -> forall x, (z <= x < z + Z.of_nat n)%Z -> p x = true.
Proof.
  revert z. induction n as [|n IH]; intros z H x Hx; [lia|].
  cbn [allFrom] in H. apply andb_true_iff in H as [Hz Hrest].
  destruct (decide (x = z)) as [->|Hne]; [exact Hz|].
  apply (IH (z + 1)%Z Hrest). lia.
Qed.

Lemma every_era_day_ok (doe : Z) : (0 <= doe < 146097)%Z -> eraDayOk doe = true.
Proof.
  assert (H : allFrom (Z.to_nat 146097) 0 eraDayOk = true) by (vm_compute; reflexivity).
  intros Hdoe. apply (allFrom_spec _ _ _ H). lia.
Qed.

(** The date of a day number, and the day number of that date. *)
Lemma civilFromDays_daysFromCivil (days : Z) :
  let '(y, m, d) := civilFromDays days in
  daysFromCivil y m d = days
  /\ (1 <= m <= 12)%Z /\ (1 <= d <= 31)%Z
  /\ ((-719528 <= days <= 2932896)%Z -> (0 <= y <= 9999)%Z).
Proof.
  unfold civilFromDays.
  set (z := (days + 719468)%Z).
  set (era := (z / 146097)%Z).
  set (doe := (z - era * 146097)%Z).
  assert (Hdoe : (0 <= doe < 146097)%Z) by (subst doe era; zlia).
  pose proof (every_era_day_ok doe Hdoe) as Hok. unfold eraDayOk in Hok.
  cbn zeta in *.
  set (yoe := ((doe - doe / 1460 + doe / 36524 - doe / 146096) / 365)%Z) in *.
  set (doy := (doe - (365 * yoe + yoe / 4 - yoe / 100))%Z) in *.
  set (mp := ((5 * doy + 2) / 153)%Z) in *.
  set (d := (doy - (153 * mp + 2) / 5 + 1)%Z) in *.
  set (m := (if (mp <? 10)%Z then mp + 3 else mp - 9)%Z) in *.
  repeat (apply andb_true_iff in Hok as [Hok ?]).
  assert (Hyoe : (0 <= yoe <= 399)%Z) by lia.
  assert (Hm : (1 <= m <= 12)%Z) by lia.
  assert (Hd : (1 <= d <= 31)%Z) by lia.
  split; [|split; [exact Hm|split; [exact Hd|]]].
  - unfold daysFromCivil. cbn zeta.
    assert (Hy' : (if (m <=? 2)%Z
                   then yoe + era * 400 + (if (m <=? 2)%Z then 1 else 0) - 1
                   else yoe + era * 400 + (if (m <=? 2)%Z then 1 else 0))%Z
                  = (yoe + era * 400)%Z) by (destruct (m <=? 2)%Z; lia).
    rewrite Hy'.
    assert (Hera : ((yoe + era * 400) / 400 = era)%Z) by zlia.
    rewrite Hera.
    replace (yoe + era * 400 - era * 400)%Z with yoe by lia.
    assert (Hdoe' : (yoe * 365 + yoe / 4 - yoe / 100
                     + ((153 * (if (m >? 2)%Z then m - 3 else m + 9) + 2) / 5 + d - 1)
                     = doe)%Z) by lia.
    rewrite Hdoe'. subst doe z. lia.
  - intros Hdays.
    assert (Hera : (-1 <= era <= 24)%Z) by (subst era z; zlia).
    match goal with
    | H : (if (doe <? 146037)%Z then _ else _) = true |- _ => rename H into Hlast
    end.
    destruct (doe <? 146037)%Z eqn:Hlt.
    + assert (era <> -1)%Z by (subst doe era z; zlia).
      destruct (m <=? 2)%Z; lia.
    + apply andb_true_iff in Hlast as [Hy Hm2]. rewrite Hm2.
      assert (era <> 24)%Z by (subst doe era z; zlia). lia.
Qed.


Lemma digit_of_char (k : Z) :
  (0 <= k < 10)%Z -> digit (ascii_of_nat (48 + Z.to_nat k)) = Some k.
Proof.
  intros Hk. unfold digit. rewrite nat_ascii_embedding by lia.
  destruct (Nat.leb_spec 48 (48 + Z.to_nat k)); [|lia].
  destruct (Nat.leb_spec (48 + Z.to_nat k) 57); [|lia].
  cbn [andb]. f_equal. lia.
Qed.

Lemma pad_2 (n : Z) :
  pad 2 n = String (ascii_of_nat (48 + Z.to_nat (n / 10 mod 10)))
              (String (ascii_of_nat (48 + Z.to_nat (n mod 10))) EmptyString).
Proof. cbn [pad]. now rewrite app_empty, app_String, app_empty. Qed.

Lemma pad_3 (n : Z) :
  pad 3 n = String (ascii_of_nat (48 + Z.to_nat (n / 10 / 10 mod 10)))
              (String (ascii_of_nat (48 + Z.to_nat (n / 10 mod 10)))
                 (String (ascii_of_nat (48 + Z.to_nat (n mod 10))) EmptyString)).
Proof. cbn [pad]. now rewrite app_empty, !app_String, !app_empty. Qed.

Lemma pad_4 (n : Z) :
  pad 4 n = String (ascii_of_nat (48 + Z.to_nat (n / 10 / 10 / 10 mod 10)))
              (String (ascii_of_nat (48 + Z.to_nat (n / 10 / 10 mod 10)))
                 (String (ascii_of_nat (48 + Z.to_nat (n / 10 mod 10)))
                    (String (ascii_of_nat (48 + Z.to_nat (n mod 10))) EmptyString))).
Proof. cbn [pad]. now rewrite app_empty, !app_String, !app_empty. Qed.

Lemma digits_2 (a b : Z) :
  (0 <= a < 10)%Z -> (0 <= b < 10)%Z ->
  digits [ascii_of_nat (48 + Z.to_nat a); ascii_of_nat (48 + Z.to_nat b)] 0
  = Some (10 * a + b)%Z.
Proof.
  intros Ha Hb. cbn [digits]. rewrite !digit_of_char by assumption. f_equal; lia.
Qed.

Lemma digits_3 (a b c : Z) :
  (0 <= a < 10)%Z -> (0 <= b < 10)%Z -> (0 <= c < 10)%Z ->
  digits [ascii_of_nat (48 + Z.to_nat a); ascii_of_nat (48 + Z.to_nat b);
          ascii_of_nat (48 + Z.to_nat c)] 0
  = Some (100 * a + 10 * b + c)%Z.
Proof.
  intros Ha Hb Hc. cbn [digits]. rewrite !digit_of_char by assumption. f_equal; lia.
Qed.

Lemma digits_4 (a b c d : Z) :
  (0 <= a < 10)%Z -> (0 <= b < 10)%Z -> (0 <= c < 10)%Z -> (0 <= d < 10)%Z ->
  digits [ascii_of_nat (48 + Z.to_nat a); ascii_of_nat (48 + Z.to_nat b);
          ascii_of_nat (48 + Z.to_nat c); ascii_of_nat (48 + Z.to_nat d)] 0
  = Some (1000 * a + 100 * b + 10 * c + d)%Z.
Proof.
  intros Ha Hb Hc Hd. cbn [digits]. rewrite !digit_of_char by assumption. f_equal; lia.
Qed.

(** [new Date(d.toISOString())] is [d] again, for the years that are
    written with four digits. *)
Lemma parse_toISOString (ms : Z) :
  fourDigitYear ms ->
  exists iso, toISOString (DateAt ms) = Some iso /\ parse iso = DateAt ms.
Proof.
  intros Hms. unfold fourDigitYear in Hms. unfold toISOString.
  pose proof (civilFromDays_daysFromCivil (ms / msPerDay)) as Hcivil.
  destruct (civilFromDays (ms / msPerDay)) as [[y m] d].
  destruct Hcivil as (Hdays & Hm & Hd & Hy).
  assert (Hy' : (0 <= y <= 9999)%Z) by (apply Hy; unfold msPerDay; zlia).
  clear Hy. eexists. split; [reflexivity|].
  unfold yearString.
  destruct (Z.leb_spec 0 y); [|lia]. destruct (Z.leb_spec y 9999); [|lia]. cbn [andb].
  set (r := (ms mod msPerDay)%Z).
  assert (Hr : (0 <= r < 86400000)%Z) by (subst r; unfold msPerDay; zlia).
  rewrite pad_4, !pad_2, pad_3.
  rewrite !app_String, !app_empty.
  unfold parse. cbn [list_ascii_of_string].
  rewrite digits_4, !digits_2, digits_3 by (apply Z.mod_pos_bound; lia).
  assert (Ey : (1000 * (y / 10 / 10 / 10 mod 10) + 100 * (y / 10 / 10 mod 10)
                + 10 * (y / 10 mod 10) + y mod 10 = y)%Z) by zlia.
  assert (Em : (10 * (m / 10 mod 10) + m mod 10 = m)%Z) by zlia.
  assert (Ed : (10 * (d / 10 mod 10) + d mod 10 = d)%Z) by zlia.
  set (h := (r / 3600000)%Z). set (n := (r / 60000 mod 60)%Z).
  set (sec := (r / 1000 mod 60)%Z). set (f := (r mod 1000)%Z).
  assert (Hh : (0 <= h <= 23)%Z) by (subst h; zlia).
  assert (Hn : (0 <= n <= 59)%Z) by (subst n; zlia).
  assert (Hsec : (0 <= sec <= 59)%Z) by (subst sec; zlia).
  assert (Hf : (0 <= f <= 999)%Z) by (subst f; zlia).
  assert (Eh : (10 * (h / 10 mod 10) + h mod 10 = h)%Z) by zlia.
  assert (En : (10 * (n / 10 mod 10) + n mod 10 = n)%Z) by zlia.
  assert (Esec : (10 * (sec / 10 mod 10) + sec mod 10 = sec)%Z) by zlia.
  assert (Ef : (100 * (f / 10 / 10 mod 10) + 10 * (f / 10 mod 10) + f mod 10 = f)%Z)
    by zlia.
  rewrite Ey, Em, Ed, Eh, En, Esec, Ef, Hdays.
  destruct (Z.leb_spec 1 m); [|lia]. destruct (Z.leb_spec m 12); [|lia].
  destruct (Z.leb_spec 1 d); [|lia]. destruct (Z.leb_spec d 31); [|lia].
  destruct (Z.leb_spec h 24); [|lia]. destruct (Z.leb_spec n 59); [|lia].
  destruct (Z.leb_spec sec 59); [|lia]. cbn [andb]. f_equal.
  subst h n sec f r. unfold msPerDay. zlia.
Qed.

(** X28: the replacer and the reviver of the data file are inverse on
    dates.  A valid date of the years 0000 to 9999 is written by
    [dateSerializer] as an object with the single key [__date], and
    [dateDeserializer] reads that object back as the same date, to the
    millisecond.  An invalid date is not written: [dateSerializer]
    throws a RangeError. *)
Theorem dateDeserializer_inverts_dateSerializer (ms : Z) :
  fourDigitYear ms ->
  (exists iso,
     FileManager.dateSerializer (JSDate (DateAt ms))
     = Ok (JSObject [("__date", JSString iso)])
     /\ FileManager.dateDeserializer (JSObject [("__date", JSString iso)])
        = JSDate (DateAt ms))
  /\ FileManager.dateSerializer (JSDate InvalidDate)
     = Throw (JSError "RangeError" "Invalid time value").
Proof.
  intros Hms. split; [|reflexivity].
  destruct (parse_toISOString ms Hms) as (iso & Hiso & Hparse).
  exists iso. unfold FileManager.dateSerializer. rewrite Hiso. split; [reflexivity|].
  unfold FileManager.dateDeserializer. cbn. now rewrite Hparse.
Qed.

Lemma dateDeserializer_inverts_dateSerializer_witness :
  (exists iso,
     FileManager.dateSerializer (JSDate (DateAt 1700000000123))
     = Ok (JSObject [("__date", JSString iso)])
     /\ FileManager.dateDeserializer (JSObject [("__date", JSString iso)])
        = JSDate (DateAt 1700000000123))
  /\ FileManager.dateSerializer (JSDate InvalidDate)
     = Throw (JSError "RangeError" "Invalid time value").
Proof.
  apply (dateDeserializer_inverts_dateSerializer 1700000000123).
  unfold fourDigitYear. lia.
Defined.

End Dates.

(** ** Reserved category names *)

Section ReservedNames.

Import TodoManager.

Lemma validateName_reserved (name : string) :
  JSString.toLowerCase name ∈ Category.reservedNames ->
  exists msg, Category.validateName name = Some msg.
Proof.
  intros Hres. unfold Category.validateName.
  rewrite (bool_decide_eq_true_2 _ Hres).
  destruct (negb (JSString.nonEmpty name)); [eauto|].
  destruct (String.length (JSString.trim name) =? 0)%nat; [eauto|].
  destruct (50 <? String.length name)%nat; eauto.
Qed.

(** X29: the names all, completed, pending and overdue are reserved in
    any letter case.  [addCategory] with such a name, and [updateCategory]
    renaming an existing category to such a name, are rejected with
    VALIDATION_ERROR, and the coordinator and the files stay as they
    were. *)
Theorem reserved_names_are_rejected (name : string) (m : TodoManager) (w : World) :
  isInitialized m = true ->
  JSString.toLowerCase name ∈ Category.reservedNames ->
  (forall input,
     Category.in_name input = name ->
     exists e,
       addCategory input (m, w) = (Throw e, (m, w))
       /\ code e = Some "VALIDATION_ERROR")
  /\ (forall id updates,
        existsb (categoryHasId id) (categories m) = true ->
        Category.up_name updates = Some name ->
        exists e,
          updateCategory id updates (m, w) = (Throw e, (m, w))
          /\ code e = Some "VALIDATION_ERROR").
Proof.
  intros Hinit Hres. destruct (validateName_reserved name Hres) as (msg & Hmsg). split.
  - intros input Hname. unfold addCategory.
    rewrite (bind_ok _ _ _ _ _ (ensureInitialized_ok m w Hinit)).
    unfold Category.validateCategoryInput. rewrite Hname, Hmsg. cbn [option_list app].
    rewrite bool_decide_eq_false_2 by discriminate. cbn [negb].
    eexists. split; reflexivity.
  - intros id updates Hid Hname. unfold updateCategory.
    rewrite (bind_ok _ _ _ _ _ (ensureInitialized_ok m w Hinit)).
    unfold bind at 1. cbn [this fst snd].
    destruct (findIndex (categoryHasId id) (categories m)) as [i|] eqn:Hfind.
    2:{ apply existsb_exists in Hid as (x & Hx & Hp).
        apply list_elem_of_In in Hx.
        rewrite (findIndex_None _ _ Hfind x Hx) in Hp. discriminate Hp. }
    destruct (findIndex_Some _ _ _ Hfind) as (cur & Hcur & _).
    rewrite Hcur, Hname, Hmsg.
    eexists. split; reflexivity.
Qed.

Lemma reserved_names_are_rejected_witness :
  (forall input,
     Category.in_name input = "Overdue" ->
     exists e,
       addCategory input (Sample.busy, Sample.emptyWorld)
       = (Throw e, (Sample.busy, Sample.emptyWorld))
       /\ code e = Some "VALIDATION_ERROR")
  /\ (forall id updates,
        existsb (categoryHasId id) (categories Sample.busy) = true ->
        Category.up_name updates = Some "Overdue" ->
        exists e,
          updateCategory id updates (Sample.busy, Sample.emptyWorld)
          = (Throw e, (Sample.busy, Sample.emptyWorld))
          /\ code e = Some "VALIDATION_ERROR").
Proof.
  apply (reserved_names_are_rejected "Overdue" Sample.busy Sample.emptyWorld).
  - reflexivity.
  - apply (bool_decide_unpack _). reflexivity.
Defined.

End ReservedNames.
